(** * Inspection lifecycle and approval authorization

    A shallow embedding of the quality-inspection application: the
    PostgreSQL schema with its row-level-security policies and triggers
    (supabase/migrations), and the React pages that drive it
    (InspectionDetail, CreateInspection, Users, ProductSpecifications).

    Conventions of the model.
    - A table is the list of its rows, in insertion order; [user_roles],
      which carries UNIQUE (user_id), is a finite map from the user to the
      role.
    - [auth.uid()] is the explicit argument [uid] of every statement.
    - A statement either yields the new database or a PostgreSQL error;
      an erroring statement leaves the database as it was.
    - uuids are natural numbers; text values are JavaScript strings, lists
      of UTF-16 code units.
    - The [created_at] / [updated_at] columns, the [profiles] and
      [products] tables and the foreign keys into them are left out. *)

From Stdlib Require Import QArith String Ascii DecimalNat.
From stdpp Require Import base option list gmap.

Local Open Scope nat_scope.

(** ** JavaScript strings *)

Abbreviation jsstring := (list N).
Abbreviation uuid := nat.

(** A literal, for the ASCII strings that occur in the source. *)
Definition js (s : string) : jsstring :=
  N_of_ascii <$> list_ascii_of_string s.

(** WhiteSpace and LineTerminator code points of ECMAScript, the ones
    [String.prototype.trim] and [parseFloat] strip. *)
Definition isWhiteSpace (c : N) : bool :=
  ((9 <=? c) && (c <=? 13) || (c =? 32) || (c =? 160) || (c =? 5760)
   || (8192 <=? c) && (c <=? 8202) || (c =? 8232) || (c =? 8233)
   || (c =? 8239) || (c =? 8287) || (c =? 12288) || (c =? 65279))%N.

Fixpoint trimStart (s : jsstring) : jsstring :=
  match s with
  | c :: s' => if isWhiteSpace c then trimStart s' else s
  | [] => []
  end.

Definition trimEnd (s : jsstring) : jsstring := rev (trimStart (rev s)).

Definition trim (s : jsstring) : jsstring := trimEnd (trimStart s).

(** JavaScript truthiness of a string: only the empty string is falsy. *)
Definition truthy (s : jsstring) : bool :=
  match s with [] => false | _ :: _ => true end.

(** [s || null] *)
Definition or_null (s : jsstring) : option jsstring :=
  if truthy s then Some s else None.

(** ** Enumerations (migration 20260104160746, database.types.ts) *)

Inductive AppRole := auditor | team_leader | hof_auditor | quality_head.

Inductive InspectionStatus :=
  | pending_team_leader
  | pending_hof_auditor
  | pending_quality_head
  | approved
  | rejected.

Inductive SpecificationType := dimensional | visual | functional | compliance.

(** The [action] column of approval_history, CHECK (action IN ('approved',
    'rejected')); the argument of [handleApproval]. *)
Inductive Action := action_approved | action_rejected.

#[global] Instance AppRole_eq_dec : EqDecision AppRole.
Proof. solve_decision. Defined.
#[global] Instance InspectionStatus_eq_dec : EqDecision InspectionStatus.
Proof. solve_decision. Defined.
#[global] Instance SpecificationType_eq_dec : EqDecision SpecificationType.
Proof. solve_decision. Defined.
#[global] Instance Action_eq_dec : EqDecision Action.
Proof. solve_decision. Defined.

(** ** Rows *)

Record Specification := {
  spec_id : uuid;
  spec_product_id : uuid;
  parameter_name : jsstring;
  standard_value : jsstring;
  tolerance_min : option Q;
  tolerance_max : option Q;
  unit_ : option jsstring;
  check_method : option jsstring;
  specification_type : SpecificationType;
  condition_description : option jsstring;
  result_type : option jsstring;
  photo_required : bool;
  remarks_required : bool;
  evidence_required : bool;
  test_description : option jsstring;
}.

Record Inspection := {
  insp_id : uuid;
  inspection_number : jsstring;
  insp_product_id : uuid;
  created_by : uuid;
  status : InspectionStatus;
  batch_number : option jsstring;
  insp_remarks : option jsstring;
}.

Record InspectionResult := {
  res_id : uuid;
  res_inspection_id : uuid;
  specification_id : uuid;
  actual_value : jsstring;
  is_pass : bool;
  res_remarks : option jsstring;
}.

Record InspectionImage := {
  img_id : uuid;
  img_inspection_id : uuid;
  image_url : jsstring;
  description : option jsstring;
}.

Record ApprovalHistory := {
  ah_id : uuid;
  ah_inspection_id : uuid;
  approver_id : uuid;
  approver_role : AppRole;
  action : Action;
  previous_status : InspectionStatus;
  new_status : InspectionStatus;
  comments : jsstring;
}.

(** ** The database

    [auditor_resubmit_policy] records whether the policy "Auditors can
    update own rejected inspections" is installed: migration
    20260104174944 (re)creates it, the migration labelled FIX 1 drops it.
    The pages and the README describe the schema after FIX 1 ([false]);
    a statement that depends on the policy says which case it is about. *)

Record Db := {
  auditor_resubmit_policy : bool;
  user_roles : gmap uuid AppRole;
  specifications : list Specification;
  inspections : list Inspection;
  inspection_results : list InspectionResult;
  inspection_images : list InspectionImage;
  approval_history : list ApprovalHistory;
}.

Definition set_user_roles (f : gmap uuid AppRole → gmap uuid AppRole) (db : Db) : Db :=
  {| auditor_resubmit_policy := auditor_resubmit_policy db;
     user_roles := f (user_roles db);
     specifications := specifications db;
     inspections := inspections db;
     inspection_results := inspection_results db;
     inspection_images := inspection_images db;
     approval_history := approval_history db |}.

Definition set_specifications (rows : list Specification) (db : Db) : Db :=
  {| auditor_resubmit_policy := auditor_resubmit_policy db;
     user_roles := user_roles db;
     specifications := rows;
     inspections := inspections db;
     inspection_results := inspection_results db;
     inspection_images := inspection_images db;
     approval_history := approval_history db |}.

Definition set_inspections (rows : list Inspection) (db : Db) : Db :=
  {| auditor_resubmit_policy := auditor_resubmit_policy db;
     user_roles := user_roles db;
     specifications := specifications db;
     inspections := rows;
     inspection_results := inspection_results db;
     inspection_images := inspection_images db;
     approval_history := approval_history db |}.

Definition set_inspection_results (rows : list InspectionResult) (db : Db) : Db :=
  {| auditor_resubmit_policy := auditor_resubmit_policy db;
     user_roles := user_roles db;
     specifications := specifications db;
     inspections := inspections db;
     inspection_results := rows;
     inspection_images := inspection_images db;
     approval_history := approval_history db |}.

Definition set_inspection_images (rows : list InspectionImage) (db : Db) : Db :=
  {| auditor_resubmit_policy := auditor_resubmit_policy db;
     user_roles := user_roles db;
     specifications := specifications db;
     inspections := inspections db;
     inspection_results := inspection_results db;
     inspection_images := rows;
     approval_history := approval_history db |}.

Definition set_approval_history (rows : list ApprovalHistory) (db : Db) : Db :=
  {| auditor_resubmit_policy := auditor_resubmit_policy db;
     user_roles := user_roles db;
     specifications := specifications db;
     inspections := inspections db;
     inspection_results := inspection_results db;
     inspection_images := inspection_images db;
     approval_history := rows |}.

(** ** Statement results *)

Inductive PgError :=
  | rls_violation          (* 42501: new row violates row-level security *)
  | unique_violation       (* 23505 *)
  | foreign_key_violation  (* 23503 *)
  | raise_exception (msg : jsstring).  (* P0001: RAISE EXCEPTION *)

Inductive result (A : Type) :=
  | Ok (a : A)
  | Err (e : PgError).
Arguments Ok {A} a.
Arguments Err {A} e.

#[global] Instance result_ret : MRet result := λ A a, Ok a.

#[global] Instance result_bind : MBind result := λ A B k r,
  match r with
  | Ok a => k a
  | Err e => Err e
  end.

#[global] Instance result_fmap : FMap result := λ A B f r,
  match r with
  | Ok a => Ok (f a)
  | Err e => Err e
  end.

(** The database after a statement: an erroring statement changes
    nothing. *)
Definition after (db : Db) (r : result Db) : Db :=
  match r with Ok db' => db' | Err _ => db end.

(** ** Row-level security

    A permissive policy has a USING expression, applied to the rows a
    statement reads, and a WITH CHECK expression, applied to the rows it
    writes. PostgreSQL takes the disjunction of the USING expressions of
    the applicable policies and, separately, the disjunction of their
    WITH CHECK expressions. A policy declared with USING only uses that
    expression for both. *)

Record Policy (R : Type) := {
  pol_using : R → bool;
  pol_check : R → bool;
}.
Arguments pol_using {R} _ _.
Arguments pol_check {R} _ _.

Definition using_only {R} (e : R → bool) : Policy R :=
  {| pol_using := e; pol_check := e |}.

Definition rls_using {R} (pols : list (Policy R)) (r : R) : bool :=
  existsb (λ p, pol_using p r) pols.

Definition rls_check {R} (pols : list (Policy R)) (r : R) : bool :=
  existsb (λ p, pol_check p r) pols.

(** INSERT: the new row must pass WITH CHECK, otherwise the statement
    fails. *)
Definition sql_insert {R} (pols : list (Policy R)) (new : list R) (rows : list R)
  : result (list R) :=
  if forallb (rls_check pols) new then Ok (rows ++ new) else Err rls_violation.

(** UPDATE ... SET ... WHERE: rows that fail USING are skipped silently;
    a row that passes and whose new version fails WITH CHECK aborts the
    statement. *)
Definition sql_update {R} (pols : list (Policy R)) (wh : R → bool) (set : R → R)
  (rows : list R) : result (list R) :=
  let hit r := wh r && rls_using pols r in
  if forallb (λ r, if hit r then rls_check pols (set r) else true) rows
  then Ok ((λ r, if hit r then set r else r) <$> rows)
  else Err rls_violation.

(** DELETE ... WHERE: rows that fail USING are skipped silently. *)
Definition sql_delete {R} (pols : list (Policy R)) (wh : R → bool) (rows : list R)
  : list R :=
  filter (λ r, negb (wh r && rls_using pols r)) rows.

(** public.has_role(_user_id, _role) *)
Definition has_role (db : Db) (_user_id : uuid) (_role : AppRole) : bool :=
  bool_decide (user_roles db !! _user_id = Some _role).

(** public.quality_head_exists() *)
Definition quality_head_exists (db : Db) : bool :=
  bool_decide (map_Exists (λ _ r, r = quality_head) (user_roles db)).

(** gen_random_uuid(), the default of every [id] column: a deterministic
    choice of an identifier not yet in the table. *)
Definition fresh (ids : list uuid) : uuid := S (max_list ids).

(** ** Policies on inspections *)

(** "Auditors can create inspections", FOR INSERT (20260104160746). *)
Definition auditors_can_create_inspections (db : Db) (uid : uuid) : Policy Inspection :=
  {| pol_using := λ _, false;
     pol_check := λ i, has_role db uid auditor && bool_decide (created_by i = uid) |}.

(** "Auditors can update own rejected inspections", FOR UPDATE
    (20260104174944). *)
Definition auditors_can_update_own_rejected_inspections (db : Db) (uid : uuid)
  : Policy Inspection :=
  {| pol_using := λ i, has_role db uid auditor && bool_decide (created_by i = uid)
                       && bool_decide (status i = rejected);
     pol_check := λ i, has_role db uid auditor && bool_decide (created_by i = uid)
                       && bool_decide (status i = pending_team_leader) |}.

(** "Team leaders can update pending inspections", FOR UPDATE
    (20260104174944). *)
Definition team_leaders_can_update_pending_inspections (db : Db) (uid : uuid)
  : Policy Inspection :=
  {| pol_using := λ i, has_role db uid team_leader
                       && bool_decide (status i = pending_team_leader);
     pol_check := λ i, has_role db uid team_leader
                       && (bool_decide (status i = pending_hof_auditor)
                           || bool_decide (status i = rejected)) |}.

(** "HOF auditors can update pending inspections", FOR UPDATE
    (20260104174944). *)
Definition hof_auditors_can_update_pending_inspections (db : Db) (uid : uuid)
  : Policy Inspection :=
  {| pol_using := λ i, has_role db uid hof_auditor
                       && bool_decide (status i = pending_hof_auditor);
     pol_check := λ i, has_role db uid hof_auditor
                       && (bool_decide (status i = pending_quality_head)
                           || bool_decide (status i = rejected)) |}.

(** "Quality head can update pending inspections", FOR UPDATE
    (20260104174944). *)
Definition quality_head_can_update_pending_inspections (db : Db) (uid : uuid)
  : Policy Inspection :=
  {| pol_using := λ i, has_role db uid quality_head
                       && bool_decide (status i = pending_quality_head);
     pol_check := λ i, has_role db uid quality_head
                       && (bool_decide (status i = approved)
                           || bool_decide (status i = rejected)) |}.

Definition inspections_insert_policies (db : Db) (uid : uuid) : list (Policy Inspection) :=
  [auditors_can_create_inspections db uid].

Definition inspections_update_policies (db : Db) (uid : uuid) : list (Policy Inspection) :=
  (if auditor_resubmit_policy db
   then [auditors_can_update_own_rejected_inspections db uid] else [])
  ++ [team_leaders_can_update_pending_inspections db uid;
      hof_auditors_can_update_pending_inspections db uid;
      quality_head_can_update_pending_inspections db uid].

(** No policy is declared FOR DELETE (or FOR ALL) on inspections. *)
Definition inspections_delete_policies (db : Db) (uid : uuid) : list (Policy Inspection) :=
  [].

(** ** Policies on inspection_results, inspection_images, approval_history *)

(** "Auditors can manage inspection results", FOR ALL (20260104160746). *)
Definition auditors_can_manage_inspection_results (db : Db) (uid : uuid)
  : Policy InspectionResult :=
  using_only (λ r,
    existsb (λ i, bool_decide (insp_id i = res_inspection_id r)
                  && bool_decide (created_by i = uid)
                  && (bool_decide (status i = pending_team_leader)
                      || bool_decide (status i = rejected)))
            (inspections db)).

Definition inspection_results_policies (db : Db) (uid : uuid)
  : list (Policy InspectionResult) :=
  [auditors_can_manage_inspection_results db uid].

(** "Auditors can manage inspection images", FOR ALL (20260104160746). *)
Definition auditors_can_manage_inspection_images (db : Db) (uid : uuid)
  : Policy InspectionImage :=
  using_only (λ r,
    existsb (λ i, bool_decide (insp_id i = img_inspection_id r)
                  && bool_decide (created_by i = uid))
            (inspections db)).

Definition inspection_images_policies (db : Db) (uid : uuid)
  : list (Policy InspectionImage) :=
  [auditors_can_manage_inspection_images db uid].

(** "Approvers can insert approval history", FOR INSERT
    (20260104160746). *)
Definition approvers_can_insert_approval_history (uid : uuid) : Policy ApprovalHistory :=
  {| pol_using := λ _, false;
     pol_check := λ h, bool_decide (approver_id h = uid) |}.

Definition approval_history_insert_policies (uid : uuid) : list (Policy ApprovalHistory) :=
  [approvers_can_insert_approval_history uid].

(** No policy is declared FOR UPDATE or FOR DELETE on approval_history. *)
Definition approval_history_write_policies (uid : uuid) : list (Policy ApprovalHistory) :=
  [].

(** ** Policies on user_roles and specifications *)

(** "Quality head can manage roles", FOR ALL (20260104160746). The
    expression does not mention the row. [has_role] is STABLE: inside a
    statement it reads the table as it was when the statement began. *)
Definition quality_head_can_manage_roles (db : Db) (uid : uuid)
  : Policy (uuid * AppRole) :=
  using_only (λ _, has_role db uid quality_head).

Definition user_roles_policies (db : Db) (uid : uuid) : list (Policy (uuid * AppRole)) :=
  [quality_head_can_manage_roles db uid].

(** "Quality head can manage specifications", FOR ALL (20260104160746). *)
Definition quality_head_can_manage_specifications (db : Db) (uid : uuid)
  : Policy Specification :=
  using_only (λ _, has_role db uid quality_head).

Definition specifications_policies (db : Db) (uid : uuid) : list (Policy Specification) :=
  [quality_head_can_manage_specifications db uid].

(** ** Statements on inspections *)

Definition with_insp_id (id : uuid) (i : Inspection) : Inspection :=
  {| insp_id := id;
     inspection_number := inspection_number i;
     insp_product_id := insp_product_id i;
     created_by := created_by i;
     status := status i;
     batch_number := batch_number i;
     insp_remarks := insp_remarks i |}.

(** The SET list of an UPDATE on inspections: the columns the pages
    write and the policies read. The key columns [id] and
    [inspection_number] are not in it, so a statement of the model leaves
    them as they are. The policies themselves would let a statement set
    them (they test the role and the status; the primary key, UNIQUE
    (inspection_number) and the foreign keys of the child tables, ON
    UPDATE NO ACTION, are the checks there are). The theorems on the
    statements a user may send therefore follow an inspection by its
    place in the table, and say that a row keeps its id only where no
    policy lets a statement reach the row. *)
Record InspectionPatch := {
  set_product_id : option uuid;
  set_created_by : option uuid;
  set_status : option InspectionStatus;
  set_batch_number : option (option jsstring);
  set_remarks : option (option jsstring);
}.

Definition patch_inspection (p : InspectionPatch) (i : Inspection) : Inspection :=
  {| insp_id := insp_id i;
     inspection_number := inspection_number i;
     insp_product_id := default (insp_product_id i) (set_product_id p);
     created_by := default (created_by i) (set_created_by p);
     status := default (status i) (set_status p);
     batch_number := default (batch_number i) (set_batch_number p);
     insp_remarks := default (insp_remarks i) (set_remarks p) |}.

(** [.update({ status: newStatus })] *)
Definition status_patch (s : InspectionStatus) : InspectionPatch :=
  {| set_product_id := None;
     set_created_by := None;
     set_status := Some s;
     set_batch_number := None;
     set_remarks := None |}.

(** INSERT INTO inspections ... RETURNING *. [inspection_number] is
    UNIQUE. *)
Definition insert_inspection (uid : uuid) (new : Inspection) (db : Db)
  : result (Inspection * Db) :=
  let row := with_insp_id (fresh (insp_id <$> inspections db)) new in
  rows ← sql_insert (inspections_insert_policies db uid) [row] (inspections db);
  if bool_decide (inspection_number row ∈ inspection_number <$> inspections db)
  then Err unique_violation
  else Ok (row, set_inspections rows db).

Definition update_inspections (uid : uuid) (wh : Inspection → bool)
  (p : InspectionPatch) (db : Db) : result Db :=
  rows ← sql_update (inspections_update_policies db uid) wh (patch_inspection p)
                    (inspections db);
  Ok (set_inspections rows db).

(** DELETE FROM inspections; results, images and history rows of a
    deleted inspection go with it (ON DELETE CASCADE). *)
Definition delete_inspections (uid : uuid) (wh : Inspection → bool) (db : Db) : result Db :=
  let pols := inspections_delete_policies db uid in
  let gone := insp_id <$> filter (λ i, wh i && rls_using pols i) (inspections db) in
  Ok {| auditor_resubmit_policy := auditor_resubmit_policy db;
        user_roles := user_roles db;
        specifications := specifications db;
        inspections := sql_delete pols wh (inspections db);
        inspection_results :=
          filter (λ r, res_inspection_id r ∉ gone) (inspection_results db);
        inspection_images :=
          filter (λ r, img_inspection_id r ∉ gone) (inspection_images db);
        approval_history :=
          filter (λ r, ah_inspection_id r ∉ gone) (approval_history db) |}.

(** ** Statements on inspection_results *)

Definition with_res_id (id : uuid) (r : InspectionResult) : InspectionResult :=
  {| res_id := id;
     res_inspection_id := res_inspection_id r;
     specification_id := specification_id r;
     actual_value := actual_value r;
     is_pass := is_pass r;
     res_remarks := res_remarks r |}.

Record ResultPatch := {
  set_res_inspection_id : option uuid;
  set_specification_id : option uuid;
  set_actual_value : option jsstring;
  set_is_pass : option bool;
  set_res_remarks : option (option jsstring);
}.

Definition patch_result (p : ResultPatch) (r : InspectionResult) : InspectionResult :=
  {| res_id := res_id r;
     res_inspection_id := default (res_inspection_id r) (set_res_inspection_id p);
     specification_id := default (specification_id r) (set_specification_id p);
     actual_value := default (actual_value r) (set_actual_value p);
     is_pass := default (is_pass r) (set_is_pass p);
     res_remarks := default (res_remarks r) (set_res_remarks p) |}.

(** The generated ids of a multi-row INSERT. *)
Fixpoint number_from {R} (with_id : uuid → R → R) (n : uuid) (new : list R) : list R :=
  match new with
  | [] => []
  | r :: new' => with_id n r :: number_from with_id (S n) new'
  end.

(** specification_id REFERENCES specifications(id) *)
Definition specification_exists (db : Db) (r : InspectionResult) : bool :=
  bool_decide (specification_id r ∈ spec_id <$> specifications db).

Definition insert_inspection_results (uid : uuid) (new : list InspectionResult) (db : Db)
  : result Db :=
  let new' := number_from with_res_id (fresh (res_id <$> inspection_results db)) new in
  rows ← sql_insert (inspection_results_policies db uid) new' (inspection_results db);
  if forallb (specification_exists db) new'
  then Ok (set_inspection_results rows db)
  else Err foreign_key_violation.

Definition update_inspection_results (uid : uuid) (wh : InspectionResult → bool)
  (p : ResultPatch) (db : Db) : result Db :=
  rows ← sql_update (inspection_results_policies db uid) wh (patch_result p)
                    (inspection_results db);
  if forallb (specification_exists db) rows
  then Ok (set_inspection_results rows db)
  else Err foreign_key_violation.

Definition delete_inspection_results (uid : uuid) (wh : InspectionResult → bool) (db : Db)
  : result Db :=
  Ok (set_inspection_results
        (sql_delete (inspection_results_policies db uid) wh (inspection_results db)) db).

(** ** Statements on inspection_images *)

Definition with_img_id (id : uuid) (r : InspectionImage) : InspectionImage :=
  {| img_id := id;
     img_inspection_id := img_inspection_id r;
     image_url := image_url r;
     description := description r |}.

Record ImagePatch := {
  set_img_inspection_id : option uuid;
  set_image_url : option jsstring;
  set_description : option (option jsstring);
}.

Definition patch_image (p : ImagePatch) (r : InspectionImage) : InspectionImage :=
  {| img_id := img_id r;
     img_inspection_id := default (img_inspection_id r) (set_img_inspection_id p);
     image_url := default (image_url r) (set_image_url p);
     description := default (description r) (set_description p) |}.

Definition insert_inspection_image (uid : uuid) (new : InspectionImage) (db : Db)
  : result Db :=
  let row := with_img_id (fresh (img_id <$> inspection_images db)) new in
  rows ← sql_insert (inspection_images_policies db uid) [row] (inspection_images db);
  Ok (set_inspection_images rows db).

Definition update_inspection_images (uid : uuid) (wh : InspectionImage → bool)
  (p : ImagePatch) (db : Db) : result Db :=
  rows ← sql_update (inspection_images_policies db uid) wh (patch_image p)
                    (inspection_images db);
  Ok (set_inspection_images rows db).

Definition delete_inspection_images (uid : uuid) (wh : InspectionImage → bool) (db : Db)
  : result Db :=
  Ok (set_inspection_images
        (sql_delete (inspection_images_policies db uid) wh (inspection_images db)) db).

(** ** Statements on approval_history *)

Definition with_ah_id (id : uuid) (h : ApprovalHistory) : ApprovalHistory :=
  {| ah_id := id;
     ah_inspection_id := ah_inspection_id h;
     approver_id := approver_id h;
     approver_role := approver_role h;
     action := action h;
     previous_status := previous_status h;
     new_status := new_status h;
     comments := comments h |}.

(** inspection_id REFERENCES inspections(id) *)
Definition inspection_exists (db : Db) (id : uuid) : bool :=
  bool_decide (id ∈ insp_id <$> inspections db).

Definition insert_approval_history (uid : uuid) (new : ApprovalHistory) (db : Db)
  : result Db :=
  let row := with_ah_id (fresh (ah_id <$> approval_history db)) new in
  rows ← sql_insert (approval_history_insert_policies uid) [row] (approval_history db);
  if inspection_exists db (ah_inspection_id row)
  then Ok (set_approval_history rows db)
  else Err foreign_key_violation.

Definition update_approval_history (uid : uuid) (wh : ApprovalHistory → bool)
  (set : ApprovalHistory → ApprovalHistory) (db : Db) : result Db :=
  rows ← sql_update (approval_history_write_policies uid) wh set (approval_history db);
  Ok (set_approval_history rows db).

Definition delete_approval_history (uid : uuid) (wh : ApprovalHistory → bool) (db : Db)
  : result Db :=
  Ok (set_approval_history
        (sql_delete (approval_history_write_policies uid) wh (approval_history db)) db).

(** ** Statements on user_roles

    The page addresses a row by its [user_id]. *)

Definition insert_user_role (uid : uuid) (target : uuid) (role : AppRole) (db : Db)
  : result Db :=
  if rls_check (user_roles_policies db uid) (target, role)
  then if bool_decide (is_Some (user_roles db !! target))
       then Err unique_violation
       else Ok (set_user_roles (insert target role) db)
  else Err rls_violation.

Definition update_user_role (uid : uuid) (target : uuid) (role : AppRole) (db : Db)
  : result Db :=
  match user_roles db !! target with
  | Some old =>
      if rls_using (user_roles_policies db uid) (target, old)
      then if rls_check (user_roles_policies db uid) (target, role)
           then Ok (set_user_roles (insert target role) db)
           else Err rls_violation
      else Ok db
  | None => Ok db
  end.

Definition delete_user_role (uid : uuid) (target : uuid) (db : Db) : result Db :=
  match user_roles db !! target with
  | Some old =>
      if rls_using (user_roles_policies db uid) (target, old)
      then Ok (set_user_roles (delete target) db)
      else Ok db
  | None => Ok db
  end.

(** ** Registration (migration 20260104172454)

    SECURITY DEFINER functions: they run without the caller's policies. *)

Definition bootstrap_code : jsstring := js "QA-BOOTSTRAP-2024".

Definition get_role_for_registration_code (db : Db) (_registration_code : jsstring)
  : AppRole :=
  if bool_decide (_registration_code = bootstrap_code) && negb (quality_head_exists db)
  then quality_head
  else auditor.

(** INSERT ... ON CONFLICT (user_id) DO UPDATE SET role = assigned_role *)
Definition assign_role_after_registration (_user_id : uuid)
  (_registration_code : jsstring) (db : Db) : result (AppRole * Db) :=
  let assigned_role := get_role_for_registration_code db _registration_code in
  Ok (assigned_role, set_user_roles (insert _user_id assigned_role) db).

(** ** Deleting specifications (FIX 4) *)

(** The BEFORE DELETE row trigger on specifications. *)
Definition prevent_used_specification_deletion (db : Db) (OLD : Specification)
  : result Specification :=
  if existsb (λ r, bool_decide (specification_id r = spec_id OLD)) (inspection_results db)
  then Err (raise_exception
              (js "Cannot delete specification that is referenced by existing inspection results"))
  else Ok OLD.

Fixpoint for_each_row {R} (trigger : R → result R) (rows : list R) : result unit :=
  match rows with
  | [] => Ok ()
  | r :: rows' => _ ← trigger r; for_each_row trigger rows'
  end.

(** DELETE FROM specifications WHERE ...: the policy selects the rows, the
    trigger runs on each of them, and the foreign key of
    inspection_results (NO ACTION) is checked at the end. *)
Definition delete_specifications (uid : uuid) (wh : Specification → bool) (db : Db)
  : result Db :=
  let pols := specifications_policies db uid in
  let targets := filter (λ s, wh s && rls_using pols s) (specifications db) in
  _ ← for_each_row (prevent_used_specification_deletion db) targets;
  if existsb (λ r, bool_decide (specification_id r ∈ spec_id <$> targets))
             (inspection_results db)
  then Err foreign_key_violation
  else Ok (set_specifications (sql_delete pols wh (specifications db)) db).

(** ** The statements a signed-in user can send *)

Inductive Stmt :=
  | InsertInspection (new : Inspection)
  | UpdateInspections (wh : Inspection → bool) (p : InspectionPatch)
  | DeleteInspections (wh : Inspection → bool)
  | InsertInspectionResults (new : list InspectionResult)
  | UpdateInspectionResults (wh : InspectionResult → bool) (p : ResultPatch)
  | DeleteInspectionResults (wh : InspectionResult → bool)
  | InsertInspectionImage (new : InspectionImage)
  | UpdateInspectionImages (wh : InspectionImage → bool) (p : ImagePatch)
  | DeleteInspectionImages (wh : InspectionImage → bool)
  | InsertApprovalHistory (new : ApprovalHistory)
  | UpdateApprovalHistory (wh : ApprovalHistory → bool)
      (set : ApprovalHistory → ApprovalHistory)
  | DeleteApprovalHistory (wh : ApprovalHistory → bool)
  | InsertUserRole (target : uuid) (role : AppRole)
  | UpdateUserRole (target : uuid) (role : AppRole)
  | DeleteUserRole (target : uuid)
  | AssignRoleAfterRegistration (_user_id : uuid) (_registration_code : jsstring)
  | DeleteSpecifications (wh : Specification → bool).

Definition exec (uid : uuid) (st : Stmt) (db : Db) : result Db :=
  match st with
  | InsertInspection new => snd <$> insert_inspection uid new db
  | UpdateInspections wh p => update_inspections uid wh p db
  | DeleteInspections wh => delete_inspections uid wh db
  | InsertInspectionResults new => insert_inspection_results uid new db
  | UpdateInspectionResults wh p => update_inspection_results uid wh p db
  | DeleteInspectionResults wh => delete_inspection_results uid wh db
  | InsertInspectionImage new => insert_inspection_image uid new db
  | UpdateInspectionImages wh p => update_inspection_images uid wh p db
  | DeleteInspectionImages wh => delete_inspection_images uid wh db
  | InsertApprovalHistory new => insert_approval_history uid new db
  | UpdateApprovalHistory wh set => update_approval_history uid wh set db
  | DeleteApprovalHistory wh => delete_approval_history uid wh db
  | InsertUserRole target role => insert_user_role uid target role db
  | UpdateUserRole target role => update_user_role uid target role db
  | DeleteUserRole target => delete_user_role uid target db
  | AssignRoleAfterRegistration u code => snd <$> assign_role_after_registration u code db
  | DeleteSpecifications wh => delete_specifications uid wh db
  end.

(** A history of statements, each sent by some user; a failed statement
    changes nothing. *)
Fixpoint run (trace : list (uuid * Stmt)) (db : Db) : Db :=
  match trace with
  | [] => db
  | (uid, st) :: trace' => run trace' (after db (exec uid st db))
  end.

(** * The inspection detail page (InspectionDetail) *)

(** The state the handlers read: the page's copy of the inspection, as
    fetched when the page loaded, the signed-in user's profile (its id)
    and role from the auth context, and the comment box. *)
Record InspectionDetail := {
  pg_inspection : option Inspection;
  pg_profile : option uuid;
  pg_role : option AppRole;
  pg_comments : jsstring;
}.

Definition roleStatusMap (role : AppRole) : InspectionStatus :=
  match role with
  | auditor => rejected
  | team_leader => pending_team_leader
  | hof_auditor => pending_hof_auditor
  | quality_head => pending_quality_head
  end.

(** Guards the rendering of the "Review & Approve" card. *)
Definition canApprove (pg : InspectionDetail) : bool :=
  match pg_inspection pg, pg_role pg with
  | Some inspection, Some role =>
      if bool_decide (role = auditor) then false
      else bool_decide (status inspection = roleStatusMap role)
  | _, _ => false
  end.

Definition getNextStatus (pg : InspectionDetail) (action : Action) : InspectionStatus :=
  if bool_decide (action = action_rejected) then rejected
  else
    match status <$> pg_inspection pg with
    | Some pending_team_leader => pending_hof_auditor
    | Some pending_hof_auditor => pending_quality_head
    | Some pending_quality_head => approved
    | Some s => s
    | None => pending_team_leader
    end.

Inductive ApprovalToast :=
  | CommentRequired           (* 'Comment Required' *)
  | Decided (action : Action) (* 'Approved' / 'Rejected' *)
  | FailedToUpdate.           (* 'Error', 'Failed to update inspection.' *)

(** The row [handleApproval] sends to approval_history; its id is
    generated by the database. *)
Definition history_entry (inspection : Inspection) (profile : uuid) (role : AppRole)
  (action : Action) (newStatus : InspectionStatus) (comments : jsstring) : ApprovalHistory :=
  {| ah_id := 0;
     ah_inspection_id := insp_id inspection;
     approver_id := profile;
     approver_role := role;
     action := action;
     previous_status := status inspection;
     new_status := newStatus;
     comments := trim comments |}.

(** [uid] is the session the requests are sent under. *)
Definition handleApproval (uid : uuid) (pg : InspectionDetail) (action : Action) (db : Db)
  : ApprovalToast * Db :=
  match pg_inspection pg, pg_profile pg, pg_role pg, truthy (trim (pg_comments pg)) with
  | Some inspection, Some profile, Some role, true =>
      let newStatus := getNextStatus pg action in
      (* Insert approval history *)
      match insert_approval_history uid
              (history_entry inspection profile role action newStatus (pg_comments pg)) db with
      | Err _ => (FailedToUpdate, db)
      | Ok db1 =>
          (* Update inspection status *)
          match update_inspections uid (λ i, bool_decide (insp_id i = insp_id inspection))
                  (status_patch newStatus) db1 with
          | Err _ => (FailedToUpdate, db1)
          | Ok db2 => (Decided action, db2)
          end
      end
  | _, _, _, _ => (CommentRequired, db)
  end.

(** The transition table of the specification, section 4.2, row by row. *)
Definition transition_table (current : InspectionStatus) (actorRole : AppRole)
  (action : Action) : option InspectionStatus :=
  match current, actorRole, action with
  | pending_team_leader, team_leader, action_approved => Some pending_hof_auditor
  | pending_team_leader, team_leader, action_rejected => Some rejected
  | pending_hof_auditor, hof_auditor, action_approved => Some pending_quality_head
  | pending_hof_auditor, hof_auditor, action_rejected => Some rejected
  | pending_quality_head, quality_head, action_approved => Some approved
  | pending_quality_head, quality_head, action_rejected => Some rejected
  | _, _, _ => None
  end.

(** SELECT * FROM inspections WHERE id = _ *)
Definition get_inspection (db : Db) (id : uuid) : option Inspection :=
  head (filter (λ i, insp_id i = id) (inspections db)).

(** The page as loaded by a user with a given role: its copy of the
    inspection is the current row. *)
Definition page_of (inspection : Inspection) (uid : uuid) (role : AppRole)
  (comments : jsstring) : InspectionDetail :=
  {| pg_inspection := Some inspection;
     pg_profile := Some uid;
     pg_role := Some role;
     pg_comments := comments |}.

(** * Numbers

    A JavaScript number is modelled by its exact value: a finite number
    is a rational, and rounding to a double is not modelled. The
    [tolerance_min] / [tolerance_max] columns are NUMERIC, finite. *)

Inductive jsnumber :=
  | NaN
  | Finite (q : Q)
  | PosInfinity
  | NegInfinity.

Definition isNaN (v : jsnumber) : bool :=
  match v with NaN => true | _ => false end.

(** [v >= q] and [v <= q] for a finite [q]; comparisons with NaN are
    false. *)
Definition num_ge (v : jsnumber) (q : Q) : bool :=
  match v with
  | Finite x => Qle_bool q x
  | PosInfinity => true
  | NaN | NegInfinity => false
  end.

Definition num_le (v : jsnumber) (q : Q) : bool :=
  match v with
  | Finite x => Qle_bool x q
  | NegInfinity => true
  | NaN | PosInfinity => false
  end.

(** ** A reading of [parseFloat]

    The longest prefix of the trimmed string that is a StrDecimalLiteral:
    an optional sign, then "Infinity" or decimal digits with an optional
    fraction and an optional exponent. The value is the exact rational
    the literal denotes: JavaScript rounds it to a double and overflows
    to Infinity, which this reading does not do. The theorems take
    [parseFloat] as a parameter; this reading serves their examples only,
    on short literals. *)

Definition digit (c : N) : option N :=
  if ((48 <=? c) && (c <=? 57))%N then Some (c - 48)%N else None.

(** Reads a run of digits: its value, continuing [acc], how many digits
    were read, and the rest. *)
Fixpoint read_digits (s : jsstring) (acc : N) (n : nat) : N * nat * jsstring :=
  match s with
  | c :: s' =>
      match digit c with
      | Some d => read_digits s' (10 * acc + d)%N (S n)
      | None => (acc, n, s)
      end
  | [] => (acc, n, [])
  end.

(** [e] or [E], an optional sign and at least one digit; otherwise there
    is no exponent part. *)
Definition read_exponent (s : jsstring) : Z :=
  match s with
  | c :: s' =>
      if ((c =? 101) || (c =? 69))%N then
        let '(neg, s'') :=
          match s' with
          | 45%N :: t => (true, t)
          | 43%N :: t => (false, t)
          | _ => (false, s')
          end in
        let '(e, n, _) := read_digits s'' 0%N 0 in
        match n with
        | O => 0%Z
        | S _ => if neg then (- Z.of_N e)%Z else Z.of_N e
        end
      else 0%Z
  | [] => 0%Z
  end.

Definition read_unsigned (s : jsstring) : jsnumber :=
  if bool_decide (take 8 s = js "Infinity") then PosInfinity
  else
    let '(ip, ni, rest) := read_digits s 0%N 0 in
    let '(m, nf, rest') :=
      match rest with
      | 46%N :: t => let '(m, nf, t') := read_digits t ip 0 in (m, nf, t')
      | _ => (ip, 0, rest)
      end in
    match ni + nf with
    | O => NaN
    | S _ =>
        Finite (Qred (inject_Z (Z.of_N m)
                      * Qpower (10 # 1) (read_exponent rest' - Z.of_nat nf)))
    end.

Definition negate (v : jsnumber) : jsnumber :=
  match v with
  | NaN => NaN
  | Finite q => Finite (Qred (- q))
  | PosInfinity => NegInfinity
  | NegInfinity => PosInfinity
  end.

Definition parseFloat_exact (s : jsstring) : jsnumber :=
  match trimStart s with
  | 45%N :: t => negate (read_unsigned t)
  | 43%N :: t => read_unsigned t
  | t => read_unsigned t
  end.

(** * The inspection authoring page (CreateInspection) *)

Record InspectionResultInput := {
  inp_specification_id : uuid;
  inp_actual_value : jsstring;
  inp_is_pass : bool;
  inp_remarks : jsstring;
}.

(** The form: the specifications of the selected product as fetched, the
    result being filled in for each of them (same index), and the other
    inputs. *)
Record CreateInspection := {
  form_specifications : list Specification;
  form_results : list InspectionResultInput;
  selectedProduct : option uuid;   (* '' until a product is chosen *)
  batchNumber : jsstring;
  remarks : jsstring;
  form_profile : option uuid;
}.

Definition with_results (results : list InspectionResultInput) (f : CreateInspection)
  : CreateInspection :=
  {| form_specifications := form_specifications f;
     form_results := results;
     selectedProduct := selectedProduct f;
     batchNumber := batchNumber f;
     remarks := remarks f;
     form_profile := form_profile f |}.

(** "Initialize results for each specification" *)
Definition initial_result (spec : Specification) : InspectionResultInput :=
  {| inp_specification_id := spec_id spec;
     inp_actual_value := [];
     inp_is_pass := true;
     inp_remarks := [] |}.

(** The effect of choosing a product, [data] being the specifications
    the query returned for it. *)
Definition fetchSpecifications (product : uuid) (data : list Specification)
  (f : CreateInspection) : CreateInspection :=
  {| form_specifications := data;
     form_results := initial_result <$> data;
     selectedProduct := Some product;
     batchNumber := batchNumber f;
     remarks := remarks f;
     form_profile := form_profile f |}.

Definition set_input_actual_value (v : jsstring) (r : InspectionResultInput)
  : InspectionResultInput :=
  {| inp_specification_id := inp_specification_id r;
     inp_actual_value := v;
     inp_is_pass := inp_is_pass r;
     inp_remarks := inp_remarks r |}.

Definition set_input_is_pass (v : bool) (r : InspectionResultInput)
  : InspectionResultInput :=
  {| inp_specification_id := inp_specification_id r;
     inp_actual_value := inp_actual_value r;
     inp_is_pass := v;
     inp_remarks := inp_remarks r |}.

Definition set_input_remarks (v : jsstring) (r : InspectionResultInput)
  : InspectionResultInput :=
  {| inp_specification_id := inp_specification_id r;
     inp_actual_value := inp_actual_value r;
     inp_is_pass := inp_is_pass r;
     inp_remarks := v |}.

Definition set_input_specification_id (v : uuid) (r : InspectionResultInput)
  : InspectionResultInput :=
  {| inp_specification_id := v;
     inp_actual_value := inp_actual_value r;
     inp_is_pass := inp_is_pass r;
     inp_remarks := inp_remarks r |}.

(** The [field] and [value] arguments of [handleResultChange]; the page
    calls it for 'actual_value' and 'remarks'. *)
Inductive FieldChange :=
  | change_specification_id (value : uuid)
  | change_actual_value (value : jsstring)
  | change_is_pass (value : bool)
  | change_remarks (value : jsstring).

Section Authoring.

(** The numeric reading of an input, [parseFloat]. *)
Variable parseFloat : jsstring → jsnumber.

(** [index] is the index of a rendered row. An index with no result, or,
    when the actual value changes, with no specification, is one the page
    never passes: there is no result for it ([None]). *)
Definition handleResultChange (index : nat) (change : FieldChange) (f : CreateInspection)
  : option CreateInspection :=
  r ← form_results f !! index;
  updated ←
    match change with
    | change_actual_value value =>
        let r' := set_input_actual_value value r in
        spec ← form_specifications f !! index;
        (* Auto-calculate pass/fail based on specification type *)
        Some
          match specification_type spec, tolerance_min spec, tolerance_max spec with
          | dimensional, Some tmin, Some tmax =>
              let numValue := parseFloat value in
              if negb (isNaN numValue)
              then set_input_is_pass (num_ge numValue tmin && num_le numValue tmax) r'
              else r'
          | _, _, _ => r'
          end
    | change_specification_id value => Some (set_input_specification_id value r)
    | change_is_pass value => Some (set_input_is_pass value r)
    | change_remarks value => Some (set_input_remarks value r)
    end;
  Some (with_results (<[index := updated]> (form_results f)) f).

End Authoring.

Definition togglePassFail (index : nat) (f : CreateInspection) : option CreateInspection :=
  r ← form_results f !! index;
  spec ← form_specifications f !! index;
  let flipped := set_input_is_pass (negb (inp_is_pass r)) r in
  let updated :=
    (* For non-dimensional types, allow manual toggle *)
    if negb (bool_decide (specification_type spec = dimensional)) then
      (* Set actual value based on type *)
      if bool_decide (specification_type spec = compliance)
      then set_input_actual_value
             (if negb (inp_is_pass flipped) then js "No" else js "Yes") flipped
      else set_input_actual_value
             (if negb (inp_is_pass flipped) then js "Fail" else js "Pass") flipped
    else flipped in
  Some (with_results (<[index := updated]> (form_results f)) f).

(** [Array.prototype.some] with the index; the callback may throw
    ([None]), which ends the iteration. *)
Fixpoint js_some {A} (f : A → nat → option bool) (l : list A) (index : nat) : option bool :=
  match l with
  | [] => Some false
  | a :: l' =>
      match f a index with
      | None => None
      | Some true => Some true
      | Some false => js_some f l' (S index)
      end
  end.

(** [Array.prototype.map] with the index, likewise. *)
Fixpoint js_map {A B} (f : A → nat → option B) (l : list A) (index : nat)
  : option (list B) :=
  match l with
  | [] => Some []
  | a :: l' =>
      b ← f a index;
      bs ← js_map f l' (S index);
      Some (b :: bs)
  end.

(** "Validate all results have values" *)
Definition missingValues (f : CreateInspection) : option bool :=
  js_some (λ r index,
             spec ← form_specifications f !! index;
             if bool_decide (specification_type spec = dimensional)
             then Some (negb (truthy (trim (inp_actual_value r))))
             else Some false)
          (form_results f) 0.

(** "Check required remarks" *)
Definition missingRemarks (f : CreateInspection) : option bool :=
  js_some (λ r index,
             spec ← form_specifications f !! index;
             Some (remarks_required spec && negb (truthy (trim (inp_remarks r)))))
          (form_results f) 0.

Definition resultsToInsert (f : CreateInspection) (inspection_id : uuid)
  : option (list InspectionResult) :=
  js_map (λ r index,
            spec ← form_specifications f !! index;
            let actualValue :=
              (* For non-dimensional types, ensure actual_value is set *)
              if negb (bool_decide (specification_type spec = dimensional))
                 && negb (truthy (inp_actual_value r))
              then if bool_decide (specification_type spec = compliance)
                   then (if inp_is_pass r then js "Yes" else js "No")
                   else (if inp_is_pass r then js "Pass" else js "Fail")
              else inp_actual_value r in
            Some {| res_id := 0;
                    res_inspection_id := inspection_id;
                    specification_id := inp_specification_id r;
                    actual_value := actualValue;
                    is_pass := inp_is_pass r;
                    res_remarks := or_null (inp_remarks r) |})
         (form_results f) 0.

(** public.generate_inspection_number(): 'INS-' || TO_CHAR(NOW(),
    'YYYYMMDD') || '-' || LPAD(counter::TEXT, 4, '0'), the date being
    given as [today]. LPAD pads on the left and cuts a longer text to its
    first four characters. *)
Fixpoint uint_digits (d : Decimal.uint) : jsstring :=
  match d with
  | Decimal.Nil => []
  | Decimal.D0 d' => 48%N :: uint_digits d'
  | Decimal.D1 d' => 49%N :: uint_digits d'
  | Decimal.D2 d' => 50%N :: uint_digits d'
  | Decimal.D3 d' => 51%N :: uint_digits d'
  | Decimal.D4 d' => 52%N :: uint_digits d'
  | Decimal.D5 d' => 53%N :: uint_digits d'
  | Decimal.D6 d' => 54%N :: uint_digits d'
  | Decimal.D7 d' => 55%N :: uint_digits d'
  | Decimal.D8 d' => 56%N :: uint_digits d'
  | Decimal.D9 d' => 57%N :: uint_digits d'
  end.

Definition lpad (s : jsstring) (len : nat) (fill : N) : jsstring :=
  if bool_decide (length s ≤ len) then replicate (len - length s) fill ++ s
  else take len s.

Definition generate_inspection_number (today : jsstring) (db : Db) : jsstring :=
  let counter := length (inspections db) + 1 in
  js "INS-" ++ today ++ js "-" ++ lpad (uint_digits (Nat.to_uint counter)) 4 48%N.

Inductive SubmitToast :=
  | PleaseSelectProduct      (* 'Please select a product.' *)
  | FillMeasurementValues    (* 'Please fill in all measurement values ...' *)
  | FillRequiredRemarks      (* 'Please fill in required remarks.' *)
  | Created (inspectionNumber : jsstring)  (* 'Success' *)
  | FailedToCreate           (* 'Failed to create inspection. Please try again.' *)
  | Uncaught.                (* a TypeError outside the try block *)

Definition handleSubmit (uid : uuid) (today : jsstring) (f : CreateInspection) (db : Db)
  : SubmitToast * Db :=
  match selectedProduct f, form_profile f with
  | Some product, Some profile =>
      match missingValues f with
      | None => (Uncaught, db)
      | Some true => (FillMeasurementValues, db)
      | Some false =>
          match missingRemarks f with
          | None => (Uncaught, db)
          | Some true => (FillRequiredRemarks, db)
          | Some false =>
              (* Generate inspection number *)
              let inspectionNumber := generate_inspection_number today db in
              (* Create inspection *)
              match insert_inspection uid
                      {| insp_id := 0;
                         inspection_number := inspectionNumber;
                         insp_product_id := product;
                         created_by := profile;
                         status := pending_team_leader;
                         batch_number := or_null (batchNumber f);
                         insp_remarks := or_null (remarks f) |} db with
              | Err _ => (FailedToCreate, db)
              | Ok (inspectionData, db1) =>
                  (* Create inspection results *)
                  match resultsToInsert f (insp_id inspectionData) with
                  | None => (FailedToCreate, db1)
                  | Some rows =>
                      match insert_inspection_results uid rows db1 with
                      | Err _ => (FailedToCreate, db1)
                      | Ok db2 => (Created inspectionNumber, db2)
                      end
                  end
              end
          end
      end
  | _, _ => (PleaseSelectProduct, db)
  end.

(** * The user management page (Users) *)

(** A row of the page's user list: the profile id and the role shown. *)
Record UserWithRole := {
  user_id : uuid;
  user_role : option AppRole;
}.

(** The "Assign Role" cell shows the selector unless the row is the
    signed-in user ("You - Cannot modify own role") or holds quality_head
    ("Quality Head - Protected"). *)
Definition role_selector_shown (profile : option uuid) (user : UserWithRole) : bool :=
  if bool_decide (Some (user_id user) = profile) then false
  else if bool_decide (user_role user = Some quality_head) then false
  else true.

(** The items of the selector: "none" ([None]) and three roles. *)
Definition role_selector_items : list (option AppRole) :=
  [None; Some auditor; Some team_leader; Some hof_auditor].

Inductive RoleToast :=
  | RoleUpdated           (* 'Role Updated' *)
  | FailedToUpdateRole.   (* 'Error', 'Failed to update user role.' *)

(** [newRole = None] is the value 'none'. *)
Definition handleRoleChange (uid : uuid) (users : list UserWithRole) (userId : uuid)
  (newRole : option AppRole) (db : Db) : RoleToast * Db :=
  let sent :=
    match newRole with
    | None =>
        (* Remove role *)
        delete_user_role uid userId db
    | Some newRole =>
        (* Check if user already has a role *)
        let existingRole :=
          u ← head (filter (λ u, user_id u = userId) users); user_role u in
        match existingRole with
        | Some _ =>
            (* Update existing role *)
            update_user_role uid userId newRole db
        | None =>
            (* Insert new role *)
            insert_user_role uid userId newRole db
        end
    end in
  match sent with
  | Ok db' => (RoleUpdated, db')
  | Err _ => (FailedToUpdateRole, db)
  end.

(** The list the page shows after [fetchUsers], for the given profiles.
    A role is read through the SELECT policies of user_roles: "Users can
    view own role" and, for a quality head, "Quality head can manage
    roles". *)
Definition fetchUsers (uid : uuid) (profiles : list uuid) (db : Db) : list UserWithRole :=
  (λ p, {| user_id := p;
           user_role := if bool_decide (p = uid) || has_role db uid quality_head
                        then user_roles db !! p else None |}) <$> profiles.

(** * The specifications page (ProductSpecifications) *)

(** [error.message] *)
Definition message (e : PgError) : jsstring :=
  match e with
  | rls_violation => js "new row violates row-level security policy"
  | unique_violation => js "duplicate key value violates unique constraint"
  | foreign_key_violation => js "update or delete on table violates foreign key constraint"
  | raise_exception msg => msg
  end.

(** [error.code], the SQLSTATE *)
Definition code (e : PgError) : string :=
  match e with
  | rls_violation => "42501"
  | unique_violation => "23505"
  | foreign_key_violation => "23503"
  | raise_exception _ => "P0001"
  end.

(** [String.prototype.includes] *)
Fixpoint starts_with (s needle : jsstring) : bool :=
  match needle, s with
  | [], _ => true
  | _ :: _, [] => false
  | c :: needle', d :: s' => (c =? d)%N && starts_with s' needle'
  end.

Fixpoint includes (s needle : jsstring) : bool :=
  starts_with s needle ||
  match s with
  | [] => false
  | _ :: s' => includes s' needle
  end.

Inductive DeleteToast :=
  | NotConfirmed                (* the confirm dialog was dismissed *)
  | CannotDeleteSpecification   (* 'Cannot Delete Specification' *)
  | SpecificationDeleted        (* 'Specification Deleted' *)
  | FailedToDelete (msg : jsstring).  (* 'Error' *)

Definition handleDelete (uid : uuid) (confirmed : bool) (spec : Specification) (db : Db)
  : DeleteToast * Db :=
  if negb confirmed then (NotConfirmed, db)
  else
    match delete_specifications uid (λ s, bool_decide (spec_id s = spec_id spec)) db with
    | Err error =>
        if includes (message error) (js "referenced by existing inspection results")
           || bool_decide (code error = "23503"%string)
        then (CannotDeleteSpecification, db)
        else (FailedToDelete (message error), db)
    | Ok db' => (SpecificationDeleted, db')
    end.

(** * Derived notions used in the statements *)

(** The ledger row a call of [handleApproval] appends: the page's entry
    with the id the database generates. *)
Definition appended_entry (db : Db) (inspection : Inspection) (profile : uuid)
  (role : AppRole) (action : Action) (newStatus : InspectionStatus) (c : jsstring)
  : ApprovalHistory :=
  with_ah_id (fresh (ah_id <$> approval_history db))
    (history_entry inspection profile role action newStatus c).

(** The inspections table after the status of [inspection] was set. *)
Definition advance (inspection : Inspection) (new : InspectionStatus)
  (rows : list Inspection) : list Inspection :=
  (λ i, if bool_decide (insp_id i = insp_id inspection)
        then patch_inspection (status_patch new) i else i) <$> rows.

(** The result rows that belong to one inspection. *)
Definition results_of (db : Db) (id : uuid) : list InspectionResult :=
  filter (λ r, res_inspection_id r = id) (inspection_results db).

(** The inspection [id] exists and its status is [s] (in every row that
    carries the id; the id is a primary key). *)
Definition has_status (db : Db) (id : uuid) (s : InspectionStatus) : Prop :=
  id ∈ insp_id <$> inspections db
  ∧ ∀ i, i ∈ inspections db → insp_id i = id → status i = s.

(** Some recorded result references the specification. *)
Definition referenced (db : Db) (spec : Specification) : Prop :=
  ∃ r, r ∈ inspection_results db ∧ specification_id r = spec_id spec.

(** Closes a decidable goal about concrete data by evaluating its
    decision procedure. *)
Ltac decide_by_computation :=
  lazymatch goal with
  | |- ?P => refine (@bool_decide_unpack P _ _); vm_compute; exact I
  end.

(** * Example data *)

Definition alice : uuid := 10.   (* auditor *)
Definition tom : uuid := 20.     (* team leader *)
Definition hana : uuid := 30.    (* H.O.F auditor *)
Definition quinn : uuid := 40.   (* quality head *)
Definition nora : uuid := 50.    (* signed up, no role *)

Definition staff : gmap uuid AppRole :=
  <[alice := auditor]> (<[tom := team_leader]> (<[hana := hof_auditor]>
    (<[quinn := quality_head]> ∅))).

(** Thickness 10.0 to 11.0 mm. *)
Definition thickness : Specification :=
  {| spec_id := 1;
     spec_product_id := 1;
     parameter_name := js "Thickness";
     standard_value := js "10.5";
     tolerance_min := Some (10 # 1);
     tolerance_max := Some (11 # 1);
     unit_ := Some (js "mm");
     check_method := None;
     specification_type := dimensional;
     condition_description := None;
     result_type := None;
     photo_required := false;
     remarks_required := false;
     evidence_required := false;
     test_description := None |}.

(** A functional check with mandatory remarks. *)
Definition camera : Specification :=
  {| spec_id := 2;
     spec_product_id := 1;
     parameter_name := js "Camera";
     standard_value := js "Working";
     tolerance_min := None;
     tolerance_max := None;
     unit_ := None;
     check_method := None;
     specification_type := functional;
     condition_description := None;
     result_type := Some (js "pass_fail");
     photo_required := false;
     remarks_required := true;
     evidence_required := false;
     test_description := Some (js "Take a picture") |}.

Definition inspection_1 (s : InspectionStatus) : Inspection :=
  {| insp_id := 1;
     inspection_number := js "INS-20260105-0001";
     insp_product_id := 1;
     created_by := alice;
     status := s;
     batch_number := None;
     insp_remarks := None |}.

Definition result_1 : InspectionResult :=
  {| res_id := 1;
     res_inspection_id := 1;
     specification_id := 1;
     actual_value := js "10.5";
     is_pass := true;
     res_remarks := None |}.

Definition image_1 : InspectionImage :=
  {| img_id := 1;
     img_inspection_id := 1;
     image_url := js "inspection-images/1/front.png";
     description := None |}.

(** A plant with one inspection by alice, in status [s]. *)
Definition plant (s : InspectionStatus) : Db :=
  {| auditor_resubmit_policy := false;
     user_roles := staff;
     specifications := [thickness; camera];
     inspections := [inspection_1 s];
     inspection_results := [result_1];
     inspection_images := [image_1];
     approval_history := [] |}.

(** The same plant before any inspection was recorded. *)
Definition empty_plant : Db :=
  {| auditor_resubmit_policy := false;
     user_roles := staff;
     specifications := [thickness];
     inspections := [];
     inspection_results := [];
     inspection_images := [];
     approval_history := [] |}.

(** alice's authoring form for the product with the thickness check. *)
Definition blank_form : CreateInspection :=
  fetchSpecifications 1 [thickness]
    {| form_specifications := [];
       form_results := [];
       selectedProduct := None;
       batchNumber := [];
       remarks := [];
       form_profile := Some alice |}.


(** * Registration (migration 20260104172454, AuthContext) *)

(** The texts public.validate_registration_code returns. *)
Inductive RegistrationCodeStatus :=
  | valid_bootstrap
  | valid_regular
  | invalid_bootstrap_exists
  | system_not_initialized
  | invalid_code.

#[global] Instance RegistrationCodeStatus_eq_dec : EqDecision RegistrationCodeStatus.
Proof. solve_decision. Defined.

(** public.validate_registration_code(_registration_code). The argument
    is a text, NULL being [None]; a comparison with NULL is not true. *)
Definition validate_registration_code (db : Db) (_registration_code : option jsstring)
  : RegistrationCodeStatus :=
  let qh_exists := quality_head_exists db in
  (* If bootstrap code is used *)
  if bool_decide (_registration_code = Some bootstrap_code) then
    if qh_exists then invalid_bootstrap_exists else valid_bootstrap
  (* For regular registration codes (empty or any other value) *)
  else if bool_decide (_registration_code = Some []) || bool_decide (_registration_code = None)
  then
    if negb qh_exists then system_not_initialized else valid_regular
  (* Unknown code - treat as invalid *)
  else invalid_code.

(** What [supabase.auth.signUp] answered: an error, or [authData] with
    the user it created, if any. *)
Inductive AuthResponse :=
  | auth_error (msg : jsstring)
  | auth_data (user : option uuid).

Inductive SignUpError :=
  | AlreadyInitialized      (* 'System is already initialized. Please contact the Quality Head for access.' *)
  | NotInitialized          (* 'System not initialized. Please contact your administrator for the bootstrap code.' *)
  | InvalidRegistrationCode (* 'Invalid registration code. Please contact your administrator.' *)
  | ValidationFailed (msg : jsstring)  (* [validationError], the rpc was not answered *)
  | AuthFailed (msg : jsstring).

(** [signUp] of the auth context, as the server sees it: the error it
    returns, if any, and the database afterwards. The function awaits
    three requests in turn, the rpc validate_registration_code,
    [supabase.auth.signUp] and the rpc assign_role_after_registration,
    and the server serves other sessions in between: [meanwhile] is what
    they send after the validation and before the role is assigned.
    [validationError] is the error of the first rpc when it was not
    answered. The rpc calls run without a session. An error of the role
    assignment is only logged. *)
Definition signUp_concurrent (validationError : option jsstring)
  (meanwhile : list (uuid * Stmt)) (response : AuthResponse)
  (registrationCode : jsstring) (db : Db) : option SignUpError * Db :=
  match validationError with
  | Some msg => (Some (ValidationFailed msg), db)
  | None =>
      (* First validate the registration code on the backend *)
      match validate_registration_code db (Some registrationCode) with
      | invalid_bootstrap_exists => (Some AlreadyInitialized, db)
      | system_not_initialized => (Some NotInitialized, db)
      | invalid_code => (Some InvalidRegistrationCode, db)
      | valid_bootstrap | valid_regular =>
          let db1 := run meanwhile db in
          match response with
          | auth_error msg => (Some (AuthFailed msg), db1)
          | auth_data (Some user) =>
              (* If signup successful, assign role based on registration code *)
              (None,
               after db1 (snd <$> assign_role_after_registration user registrationCode db1))
          | auth_data None => (None, db1)
          end
      end
  end.

(** [signUp] served alone: the validation rpc is answered and no other
    session is served between the requests, which are then one step on
    one database ([signUp_concurrent None []]). *)
Definition signUp (response : AuthResponse) (registrationCode : jsstring) (db : Db)
  : option SignUpError * Db :=
  (* First validate the registration code on the backend *)
  match validate_registration_code db (Some registrationCode) with
  | invalid_bootstrap_exists => (Some AlreadyInitialized, db)
  | system_not_initialized => (Some NotInitialized, db)
  | invalid_code => (Some InvalidRegistrationCode, db)
  | valid_bootstrap | valid_regular =>
      match response with
      | auth_error msg => (Some (AuthFailed msg), db)
      | auth_data (Some user) =>
          (* If signup successful, assign role based on registration code *)
          (None, after db (snd <$> assign_role_after_registration user registrationCode db))
      | auth_data None => (None, db)
      end
  end.

(** [checkSystemInitialized] *)
Definition checkSystemInitialized (db : Db) : bool := quality_head_exists db.


(** The users who hold quality_head. *)
Definition quality_heads (db : Db) : list uuid :=
  (map_to_list (filter (λ kv, kv.2 = quality_head) (user_roles db))).*1.

(** A history of rpc calls, all sent by [uid]: every quality head is
    registered again with an empty code, then [uid] with the bootstrap
    code. *)
Definition takeover (uid : uuid) (db : Db) : list (uuid * Stmt) :=
  ((λ q, (uid, AssignRoleAfterRegistration q [])) <$> quality_heads db)
  ++ [(uid, AssignRoleAfterRegistration uid bootstrap_code)].

(** * Statements on specifications *)

Definition with_spec_id (id : uuid) (s : Specification) : Specification :=
  {| spec_id := id;
     spec_product_id := spec_product_id s;
     parameter_name := parameter_name s;
     standard_value := standard_value s;
     tolerance_min := tolerance_min s;
     tolerance_max := tolerance_max s;
     unit_ := unit_ s;
     check_method := check_method s;
     specification_type := specification_type s;
     condition_description := condition_description s;
     result_type := result_type s;
     photo_required := photo_required s;
     remarks_required := remarks_required s;
     evidence_required := evidence_required s;
     test_description := test_description s |}.

(** INSERT INTO specifications, under "Quality head can manage
    specifications". *)
Definition insert_specification (uid : uuid) (new : Specification) (db : Db) : result Db :=
  let row := with_spec_id (fresh (spec_id <$> specifications db)) new in
  rows ← sql_insert (specifications_policies db uid) [row] (specifications db);
  Ok (set_specifications rows db).

(** UPDATE specifications SET ... WHERE ...: [set] gives the new version
    of a row. No trigger runs on UPDATE. *)
Definition update_specifications (uid : uuid) (wh : Specification → bool)
  (set : Specification → Specification) (db : Db) : result Db :=
  rows ← sql_update (specifications_policies db uid) wh set (specifications db);
  Ok (set_specifications rows db).

(** * The specifications page (ProductSpecifications), the form *)

Module ProductSpecifications.

Record FormData := {
  fd_parameter_name : jsstring;
  fd_specification_type : SpecificationType;
  fd_standard_value : jsstring;
  fd_tolerance_min : jsstring;
  fd_tolerance_max : jsstring;
  fd_unit : jsstring;
  fd_check_method : jsstring;
  fd_condition_description : jsstring;
  fd_photo_required : bool;
  fd_test_description : jsstring;
  fd_remarks_required : bool;
  fd_evidence_required : bool;
  fd_result_type : jsstring;
}.

Definition initialFormData : FormData :=
  {| fd_parameter_name := [];
     fd_specification_type := dimensional;
     fd_standard_value := [];
     fd_tolerance_min := [];
     fd_tolerance_max := [];
     fd_unit := [];
     fd_check_method := [];
     fd_condition_description := [];
     fd_photo_required := false;
     fd_test_description := [];
     fd_remarks_required := false;
     fd_evidence_required := false;
     fd_result_type := js "pass_fail" |}.

(** The state the handlers read: the product of the route
    (/products/:id/specifications), the specification being edited, if
    any, and the form. *)
Record State := {
  route_id : uuid;
  editingSpec : option Specification;
  formData : FormData;
}.

(** [s || fallback] for a nullable text *)
Definition or_else (s : option jsstring) (fallback : jsstring) : jsstring :=
  match s with
  | Some s => if truthy s then s else fallback
  | None => fallback
  end.

(** A number on its way to the database: JSON.stringify writes NaN and
    the infinities as null. *)
Definition json_number (v : jsnumber) : option Q :=
  match v with
  | Finite q => Some q
  | NaN | PosInfinity | NegInfinity => None
  end.

Inductive Toast :=
  | ParameterNameRequired         (* 'Parameter Name is required.' *)
  | StandardValueRequired         (* 'Standard Value is required for dimensional specifications.' *)
  | ConditionDescriptionRequired  (* 'Condition Description is required for visual specifications.' *)
  | TestDescriptionRequired       (* 'Test Description is required for functional specifications.' *)
  | SpecificationUpdated          (* 'Specification Updated' *)
  | SpecificationAdded            (* 'Specification Added' *)
  | FailedToSave.                 (* 'Failed to save specification.' *)

Section Form.

(** [parseFloat] and [Number.prototype.toString]. *)
Variable parseFloat : jsstring → jsnumber.
Variable toString : Q → jsstring.

Definition handleOpenDialog (spec : option Specification) (st : State) : State :=
  match spec with
  | Some spec =>
      {| route_id := route_id st;
         editingSpec := Some spec;
         formData :=
           {| fd_parameter_name := parameter_name spec;
              fd_specification_type := specification_type spec;
              fd_standard_value := standard_value spec;
              fd_tolerance_min := or_else (toString <$> tolerance_min spec) [];
              fd_tolerance_max := or_else (toString <$> tolerance_max spec) [];
              fd_unit := or_else (unit_ spec) [];
              fd_check_method := or_else (check_method spec) [];
              fd_condition_description := or_else (condition_description spec) [];
              fd_photo_required := photo_required spec || false;
              fd_test_description := or_else (test_description spec) [];
              fd_remarks_required := remarks_required spec || false;
              fd_evidence_required := evidence_required spec || false;
              fd_result_type := or_else (result_type spec) (js "pass_fail") |} |}
  | None =>
      {| route_id := route_id st;
         editingSpec := None;
         formData := initialFormData |}
  end.

(** The row [handleSubmit] sends; its id is not part of it. *)
Definition specData (st : State) : Specification :=
  let f := formData st in
  let ty := fd_specification_type f in
  {| spec_id := 0;
     spec_product_id := route_id st;
     parameter_name := trim (fd_parameter_name f);
     specification_type := ty;
     standard_value :=
       if bool_decide (ty = dimensional) then trim (fd_standard_value f)
       else if bool_decide (ty = visual) then trim (fd_condition_description f)
       else if bool_decide (ty = functional) then trim (fd_test_description f)
       else trim (fd_parameter_name f);
     tolerance_min :=
       if bool_decide (ty = dimensional) && truthy (fd_tolerance_min f)
       then json_number (parseFloat (fd_tolerance_min f)) else None;
     tolerance_max :=
       if bool_decide (ty = dimensional) && truthy (fd_tolerance_max f)
       then json_number (parseFloat (fd_tolerance_max f)) else None;
     unit_ := if bool_decide (ty = dimensional) then or_null (trim (fd_unit f)) else None;
     check_method := or_null (trim (fd_check_method f));
     condition_description :=
       if bool_decide (ty = visual) then Some (trim (fd_condition_description f)) else None;
     photo_required := if bool_decide (ty = visual) then fd_photo_required f else false;
     test_description :=
       if bool_decide (ty = functional) then Some (trim (fd_test_description f)) else None;
     remarks_required :=
       if bool_decide (ty = functional) then fd_remarks_required f else false;
     evidence_required :=
       if bool_decide (ty = compliance) then fd_evidence_required f else false;
     result_type :=
       if negb (bool_decide (ty = dimensional))
       then Some (if bool_decide (ty = compliance) then js "yes_no" else js "pass_fail")
       else None |}.

Definition handleSubmit (uid : uuid) (st : State) (db : Db) : Toast * Db :=
  let f := formData st in
  if negb (truthy (trim (fd_parameter_name f))) then (ParameterNameRequired, db)
  (* Validate based on type *)
  else if bool_decide (fd_specification_type f = dimensional)
          && negb (truthy (trim (fd_standard_value f)))
  then (StandardValueRequired, db)
  else if bool_decide (fd_specification_type f = visual)
          && negb (truthy (trim (fd_condition_description f)))
  then (ConditionDescriptionRequired, db)
  else if bool_decide (fd_specification_type f = functional)
          && negb (truthy (trim (fd_test_description f)))
  then (TestDescriptionRequired, db)
  else
    match editingSpec st with
    | Some editing =>
        match update_specifications uid (λ s, bool_decide (spec_id s = spec_id editing))
                (λ old, with_spec_id (spec_id old) (specData st)) db with
        | Err _ => (FailedToSave, db)
        | Ok db' => (SpecificationUpdated, db')
        end
    | None =>
        match insert_specification uid (specData st) db with
        | Err _ => (FailedToSave, db)
        | Ok db' => (SpecificationAdded, db')
        end
    end.

End Form.

(** [getSpecDisplayValue]: the "Standard / Description" cell. *)
Definition getSpecDisplayValue (spec : Specification) : jsstring :=
  match specification_type spec with
  | dimensional =>
      standard_value spec
      ++ match unit_ spec with
         | Some u => if truthy u then js " " ++ u else []
         | None => []
         end
  | visual => or_else (condition_description spec) (standard_value spec)
  | functional => or_else (test_description spec) (standard_value spec)
  | compliance => or_else (check_method spec) (standard_value spec)
  end.

End ProductSpecifications.

(** The form has what [handleSubmit] asks for: a name, and the text its
    type is described by. *)
Definition complete (f : ProductSpecifications.FormData) : Prop :=
  trim (ProductSpecifications.fd_parameter_name f) ≠ []
  ∧ match ProductSpecifications.fd_specification_type f with
    | dimensional => trim (ProductSpecifications.fd_standard_value f) ≠ []
    | visual => trim (ProductSpecifications.fd_condition_description f) ≠ []
    | functional => trim (ProductSpecifications.fd_test_description f) ≠ []
    | compliance => True
    end.

(** A specification row as the form writes it: named, with a standard
    text, and carrying only the columns of its type. *)
Definition well_formed (s : Specification) : Prop :=
  parameter_name s ≠ []
  ∧ trim (parameter_name s) = parameter_name s
  ∧ standard_value s ≠ []
  ∧ match specification_type s with
    | dimensional =>
        result_type s = None
        ∧ condition_description s = None ∧ test_description s = None
        ∧ photo_required s = false ∧ remarks_required s = false
        ∧ evidence_required s = false
    | visual =>
        result_type s = Some (js "pass_fail")
        ∧ condition_description s = Some (standard_value s) ∧ test_description s = None
        ∧ tolerance_min s = None ∧ tolerance_max s = None ∧ unit_ s = None
        ∧ remarks_required s = false ∧ evidence_required s = false
    | functional =>
        result_type s = Some (js "pass_fail")
        ∧ test_description s = Some (standard_value s) ∧ condition_description s = None
        ∧ tolerance_min s = None ∧ tolerance_max s = None ∧ unit_ s = None
        ∧ photo_required s = false ∧ evidence_required s = false
    | compliance =>
        result_type s = Some (js "yes_no")
        ∧ standard_value s = parameter_name s
        ∧ condition_description s = None ∧ test_description s = None
        ∧ tolerance_min s = None ∧ tolerance_max s = None ∧ unit_ s = None
        ∧ photo_required s = false ∧ remarks_required s = false
    end.

(** The thickness check as quinn types it into the form, with a narrower
    tolerance: 10.6 to 10.8 mm. *)
Definition narrowed_thickness_form : ProductSpecifications.FormData :=
  {| ProductSpecifications.fd_parameter_name := js " Thickness ";
     ProductSpecifications.fd_specification_type := dimensional;
     ProductSpecifications.fd_standard_value := js "10.7";
     ProductSpecifications.fd_tolerance_min := js "10.6";
     ProductSpecifications.fd_tolerance_max := js "10.8";
     ProductSpecifications.fd_unit := js "mm";
     ProductSpecifications.fd_check_method := js "Digital Caliper";
     ProductSpecifications.fd_condition_description := [];
     ProductSpecifications.fd_photo_required := false;
     ProductSpecifications.fd_test_description := [];
     ProductSpecifications.fd_remarks_required := false;
     ProductSpecifications.fd_evidence_required := false;
     ProductSpecifications.fd_result_type := js "pass_fail" |}.

(** The page of product 1 with the edit dialog open on the thickness
    check. *)
Definition editing_thickness : ProductSpecifications.State :=
  {| ProductSpecifications.route_id := 1;
     ProductSpecifications.editingSpec := Some thickness;
     ProductSpecifications.formData := narrowed_thickness_form |}.

(** * The dashboard (Dashboard) *)

(** The text of a status, as the client receives it. *)
Definition status_text (s : InspectionStatus) : jsstring :=
  match s with
  | pending_team_leader => js "pending_team_leader"
  | pending_hof_auditor => js "pending_hof_auditor"
  | pending_quality_head => js "pending_quality_head"
  | approved => js "approved"
  | rejected => js "rejected"
  end.

Module Dashboard.

Record DashboardStats := {
  stats_total : nat;
  stats_pending : nat;
  stats_approved : nat;
  stats_rejected : nat;
}.

(** "Calculate stats based on role": [inspections] is what the query
    returned, every inspection, newest first. *)
Definition filteredInspections (profile : uuid) (role : AppRole)
  (inspections : list Inspection) : list Inspection :=
  match role with
  | auditor => filter (λ i, created_by i = profile) inspections
  | team_leader =>
      filter (λ i, bool_decide (status i = pending_team_leader)
                   || existsb (λ ins, bool_decide (insp_id ins = insp_id i)) inspections)
             inspections
  | hof_auditor =>
      filter (λ i, bool_decide (status i = pending_hof_auditor)
                   || existsb (λ ins, bool_decide (insp_id ins = insp_id i)) inspections)
             inspections
  | quality_head => inspections
  end.

(** [fetchDashboardData], which runs once the profile and the role are
    known: the numbers of the four cards and the "Recent Inspections"
    list. *)
Definition fetchDashboardData (profile : uuid) (role : AppRole)
  (inspections : list Inspection) : DashboardStats * list Inspection :=
  let filteredInspections := filteredInspections profile role inspections in
  ({| stats_total := length filteredInspections;
      stats_pending :=
        length (filter (λ i, starts_with (status_text (status i)) (js "pending_"))
                       filteredInspections);
      stats_approved := length (filter (λ i, status i = approved) filteredInspections);
      stats_rejected := length (filter (λ i, status i = rejected) filteredInspections) |},
   take 5 filteredInspections).

(** The title of the second card. *)
Definition getPendingLabel (role : option AppRole) : string :=
  match role with
  | Some auditor => "Awaiting Review"
  | Some team_leader => "Awaiting Your Review"
  | Some hof_auditor => "Awaiting Your Review"
  | Some quality_head => "Awaiting Final Approval"
  | None => "Pending"
  end.

End Dashboard.

(** * The inspections list (Inspections) *)

Module Inspections.

(** "Filter based on role", on what the query returned. *)
Definition fetchInspections (profile : uuid) (role : AppRole) (data : list Inspection)
  : list Inspection :=
  match role with
  | auditor => filter (λ i, created_by i = profile) data
  | team_leader => data
  | hof_auditor => data
  | quality_head => data
  end.

(** The inspections the alert at the top of the page counts. *)
Definition getActionableInspections (role : option AppRole)
  (filteredInspections : list Inspection) : list Inspection :=
  match role with
  | Some team_leader => filter (λ i, status i = pending_team_leader) filteredInspections
  | Some hof_auditor => filter (λ i, status i = pending_hof_auditor) filteredInspections
  | Some quality_head => filter (λ i, status i = pending_quality_head) filteredInspections
  | Some auditor => filter (λ i, status i = rejected) filteredInspections
  | None => []
  end.

End Inspections.

(** * The approval timeline (WorkflowTimeline) *)

Module WorkflowTimeline.

Inductive StepStatus := step_complete | step_active | step_pending | step_rejected.

Definition workflowOrder : list AppRole := [auditor; team_leader; hof_auditor; quality_head].

Definition statusToActiveStep (s : InspectionStatus) : Z :=
  match s with
  | pending_team_leader => 1
  | pending_hof_auditor => 2
  | pending_quality_head => 3
  | approved => 4
  | rejected => -1
  end.

(** [Array.prototype.indexOf] *)
Fixpoint indexOf (l : list AppRole) (x : AppRole) : Z :=
  match l with
  | [] => -1
  | y :: l' =>
      if bool_decide (y = x) then 0
      else let k := indexOf l' x in if (k <? 0)%Z then -1 else (k + 1)%Z
  end.

(** [approvalHistory] holds the ledger entries of the inspection, oldest
    first. *)
Definition getStepStatus (currentStatus : InspectionStatus)
  (approvalHistory : list ApprovalHistory) (index : nat) : StepStatus :=
  let activeStep := statusToActiveStep currentStatus in
  if bool_decide (currentStatus = rejected)
     && match head (filter (λ h, action h = action_rejected) approvalHistory) with
        | Some rejection =>
            bool_decide (indexOf workflowOrder (approver_role rejection) = Z.of_nat index)
        | None => false
        end
  then step_rejected
  else if (Z.of_nat index <? activeStep)%Z then step_complete
  else if (Z.of_nat index =? activeStep)%Z then step_active
  else step_pending.

(** The entry shown under the step of [role]. *)
Definition historyEntry (approvalHistory : list ApprovalHistory) (role : AppRole)
  : option ApprovalHistory :=
  head (filter (λ h, approver_role h = role) approvalHistory).

End WorkflowTimeline.

(** The first rejecting entry of a ledger. *)
Definition first_rejection (approvalHistory : list ApprovalHistory) : option ApprovalHistory :=
  head (filter (λ h, action h = action_rejected) approvalHistory).

(** Nothing to strip at the front of a text. *)
Definition clean (s : jsstring) : Prop :=
  match s with
  | [] => True
  | c :: _ => isWhiteSpace c = false
  end.

(** * Reviews along a history *)



(** * The authoring form as the auditor drives it (CreateInspection) *)

(** The inputs the table renders, one row per specification
    ([renderInputForSpec] and the Status and Remarks columns): a text
    input for the value of a dimensional row, a remarks input and a
    pass / fail button on every row. *)
Inductive FormEvent :=
  | type_value (index : nat) (value : jsstring)
  | type_remarks (index : nat) (value : jsstring)
  | click_pass_fail (index : nat).

Section Driving.

Variable parseFloat : jsstring → jsnumber.

(** The handler an event runs; [None] for an input that is not on the
    page. *)
Definition handleEvent (e : FormEvent) (f : CreateInspection) : option CreateInspection :=
  match e with
  | type_value index value =>
      spec ← form_specifications f !! index;
      _ ← form_results f !! index;
      if bool_decide (specification_type spec = dimensional)
      then handleResultChange parseFloat index (change_actual_value value) f
      else None
  | type_remarks index value =>
      _ ← form_specifications f !! index;
      handleResultChange parseFloat index (change_remarks value) f
  | click_pass_fail index =>
      _ ← form_specifications f !! index;
      togglePassFail index f
  end.

Fixpoint handleEvents (events : list FormEvent) (f : CreateInspection)
  : option CreateInspection :=
  match events with
  | [] => Some f
  | e :: events' => f' ← handleEvent e f; handleEvents events' f'
  end.

End Driving.

(** The text a check that is not a measurement is recorded with. *)
Definition verdict (ty : SpecificationType) (is_pass : bool) : jsstring :=
  if bool_decide (ty = compliance)
  then (if is_pass then js "Yes" else js "No")
  else (if is_pass then js "Pass" else js "Fail").

(** A row of the form for a specification: it names the specification,
    and on a check that is not a measurement its value is still empty,
    with the flag as initialised, or is the verdict of its flag. *)
Definition row_for (spec : Specification) (r : InspectionResultInput) : Prop :=
  inp_specification_id r = spec_id spec
  ∧ (specification_type spec ≠ dimensional →
     (inp_actual_value r = [] ∧ inp_is_pass r = true)
     ∨ inp_actual_value r = verdict (specification_type spec) (inp_is_pass r)).

(** A recorded result for a specification. *)
Definition recorded_for (spec : Specification) (row : InspectionResult) : Prop :=
  specification_id row = spec_id spec
  ∧ actual_value row ≠ []
  ∧ (specification_type spec ≠ dimensional →
     actual_value row = verdict (specification_type spec) (is_pass row)).

(** * Products (migrations 20260104160746 and FIX 3, Products page)

    The products table is kept beside [Db]: a statement on it reads the
    roles of the database and yields the new table. *)

Module Products.

Record Product := {
  prod_id : uuid;
  prod_name : jsstring;
  prod_part_number : jsstring;   (* UNIQUE *)
  prod_description : option jsstring;
  prod_created_by : option uuid;
  prod_is_active : bool;         (* DEFAULT true *)
}.

(** "Quality head can manage products", FOR ALL. *)
Definition quality_head_can_manage_products (db : Db) (uid : uuid) : Policy Product :=
  using_only (λ _, has_role db uid quality_head).

Definition products_policies (db : Db) (uid : uuid) : list (Policy Product) :=
  [quality_head_can_manage_products db uid].

Definition with_prod_id (id : uuid) (p : Product) : Product :=
  {| prod_id := id;
     prod_name := prod_name p;
     prod_part_number := prod_part_number p;
     prod_description := prod_description p;
     prod_created_by := prod_created_by p;
     prod_is_active := prod_is_active p |}.

(** INSERT INTO products *)
Definition insert_product (db : Db) (uid : uuid) (new : Product) (products : list Product)
  : result (list Product) :=
  let row := with_prod_id (fresh (prod_id <$> products)) new in
  rows ← sql_insert (products_policies db uid) [row] products;
  if bool_decide (prod_part_number row ∈ prod_part_number <$> products)
  then Err unique_violation
  else Ok rows.

(** UPDATE products SET ... WHERE ...; part_number stays UNIQUE. *)
Definition update_products (db : Db) (uid : uuid) (wh : Product → bool)
  (set : Product → Product) (products : list Product) : result (list Product) :=
  rows ← sql_update (products_policies db uid) wh set products;
  if bool_decide (NoDup (prod_part_number <$> rows))
  then Ok rows
  else Err unique_violation.

(** The state the handlers read: the form, the product being edited, if
    any, and the profile of the auth context. *)
Record State := {
  form_name : jsstring;
  form_part_number : jsstring;
  form_description : jsstring;
  editingProduct : option Product;
  auth_profile : option uuid;
}.

Inductive Toast :=
  | ValidationError     (* 'Name and Part Number are required.' *)
  | ProductUpdated      (* 'Product Updated' *)
  | PartNumberExists    (* 'A product with this part number already exists.' *)
  | ProductCreated      (* 'Product Created' *)
  | FailedToSave        (* 'Failed to save product.' *)
  | NotConfirmed        (* the confirm dialog was dismissed *)
  | ProductDeactivated  (* 'Product Deactivated' *)
  | FailedToDeactivate. (* 'Failed to deactivate product.' *)

(** The rows [fetchProducts] asks for, here and on the authoring page:
    [.eq('is_active', true)]. *)
Definition active (products : list Product) : list Product :=
  filter (λ p, prod_is_active p = true) products.

Definition handleSubmit (db : Db) (uid : uuid) (st : State) (products : list Product)
  : Toast * list Product :=
  if negb (truthy (trim (form_name st))) || negb (truthy (trim (form_part_number st)))
  then (ValidationError, products)
  else
    match editingProduct st with
    | Some editing =>
        (* Update existing product *)
        match update_products db uid (λ p, bool_decide (prod_id p = prod_id editing))
                (λ old, {| prod_id := prod_id old;
                           prod_name := trim (form_name st);
                           prod_part_number := trim (form_part_number st);
                           prod_description := or_null (trim (form_description st));
                           prod_created_by := prod_created_by old;
                           prod_is_active := prod_is_active old |}) products with
        | Err _ => (FailedToSave, products)
        | Ok products' => (ProductUpdated, products')
        end
    | None =>
        (* Create new product *)
        match insert_product db uid
                {| prod_id := 0;
                   prod_name := trim (form_name st);
                   prod_part_number := trim (form_part_number st);
                   prod_description := or_null (trim (form_description st));
                   prod_created_by := auth_profile st;
                   prod_is_active := true |} products with
        | Err error =>
            if bool_decide (code error = "23505"%string)
            then (PartNumberExists, products)
            else (FailedToSave, products)
        | Ok products' => (ProductCreated, products')
        end
    end.

Definition handleDeactivate (db : Db) (uid : uuid) (confirmed : bool) (product : Product)
  (products : list Product) : Toast * list Product :=
  if negb confirmed then (NotConfirmed, products)
  else
    (* First try soft-delete (deactivate) *)
    match update_products db uid (λ p, bool_decide (prod_id p = prod_id product))
            (λ old, {| prod_id := prod_id old;
                       prod_name := prod_name old;
                       prod_part_number := prod_part_number old;
                       prod_description := prod_description old;
                       prod_created_by := prod_created_by old;
                       prod_is_active := false |}) products with
    | Err _ => (FailedToDeactivate, products)
    | Ok products' => (ProductDeactivated, products')
    end.

(** What a user does on the page. *)
Inductive PageAction :=
  | submit (st : State)
  | deactivate (confirmed : bool) (product : Product).

Definition act (db : Db) (uid : uuid) (a : PageAction) (products : list Product)
  : list Product :=
  match a with
  | submit st => snd (handleSubmit db uid st products)
  | deactivate confirmed product => snd (handleDeactivate db uid confirmed product products)
  end.

(** A history of page actions, each by some user, with the roles as
    they are at that moment. *)
Fixpoint acts (history : list (Db * uuid * PageAction)) (products : list Product)
  : list Product :=
  match history with
  | [] => products
  | (db, uid, a) :: history' => acts history' (act db uid a products)
  end.

End Products.

(** quinn's product, and the form to add it once more. *)
Definition brake_pad : Products.Product :=
  {| Products.prod_id := 1;
     Products.prod_name := js "Brake Pad Assembly";
     Products.prod_part_number := js "BPA-2024-001";
     Products.prod_description := None;
     Products.prod_created_by := Some quinn;
     Products.prod_is_active := true |}.

Definition brake_pad_again : Products.State :=
  {| Products.form_name := js "Brake Pad Assembly";
     Products.form_part_number := js " BPA-2024-001 ";
     Products.form_description := [];
     Products.editingProduct := None;
     Products.auth_profile := Some quinn |}.

(** * Accounts and roles as the pages drive them (Auth, Users) *)







(** The role the list of the Users page shows for a user:
    [users.find((u) => u.id === userId)?.role]. *)
Definition listed_role (users : list UserWithRole) (userId : uuid) : option AppRole :=
  u ← head (filter (λ u, user_id u = userId) users); user_role u.
(** * Generic facts about statements *)

Section Sql.
Context {R : Type}.
Implicit Types (pols : list (Policy R)) (wh : R → bool) (set : R → R) (rows : list R).

Lemma rls_using_nil (r : R) : rls_using [] r = false.
Proof. reflexivity. Qed.

Lemma sql_update_spec pols wh set rows :
  (∀ r, r ∈ rows → wh r && rls_using pols r = true → rls_check pols (set r) = true) →
  sql_update pols wh set rows
  = Ok ((λ r, if wh r && rls_using pols r then set r else r) <$> rows).
Proof.
  intros Hcheck. unfold sql_update.
  destruct (forallb _ rows) eqn:Hall; [done|].
  exfalso. apply not_true_iff_false in Hall. apply Hall.
  apply forallb_forall. intros r Hr%list_elem_of_In.
  destruct (wh r && rls_using pols r) eqn:Hhit; [|done].
  by apply Hcheck.
Qed.

Lemma sql_update_untouched pols wh set rows :
  (∀ r, r ∈ rows → wh r && rls_using pols r = false) →
  sql_update pols wh set rows = Ok rows.
Proof.
  intros Hmiss. rewrite sql_update_spec.
  - f_equal. rewrite <- (list_fmap_id rows) at 2.
    apply Forall_fmap_ext_1, Forall_forall. intros r Hr. by rewrite Hmiss.
  - intros r Hr Hhit. by rewrite Hmiss in Hhit.
Qed.

Lemma sql_update_rejected pols wh set rows r :
  r ∈ rows → wh r && rls_using pols r = true → rls_check pols (set r) = false →
  sql_update pols wh set rows = Err rls_violation.
Proof.
  intros Hr Hhit Hcheck. unfold sql_update.
  destruct (forallb _ rows) eqn:Hall; [|done].
  rewrite forallb_forall in Hall.
  specialize (Hall r (proj1 (list_elem_of_In _ _) Hr)).
  rewrite Hhit, Hcheck in Hall. done.
Qed.

(** Whatever an UPDATE does, a row that fails USING keeps its place. *)
Lemma sql_update_lookup pols wh set rows rows' k r :
  sql_update pols wh set rows = Ok rows' →
  rows !! k = Some r → rls_using pols r = false → rows' !! k = Some r.
Proof.
  unfold sql_update. destruct (forallb _ rows); [|done].
  intros [= <-] Hk Hu. rewrite list_lookup_fmap, Hk. simpl.
  by rewrite Hu, andb_false_r.
Qed.

Lemma filter_all (P : R → Prop) `{!∀ x, Decision (P x)} rows :
  (∀ r, r ∈ rows → P r) → filter P rows = rows.
Proof.
  induction rows as [|r rows IH]; [done|]. intros HP.
  rewrite filter_cons_True by (apply HP; left).
  f_equal. apply IH. intros r' Hr'. apply HP. by right.
Qed.

Lemma filter_none (P : R → Prop) `{!∀ x, Decision (P x)} rows :
  (∀ r, r ∈ rows → ¬ P r) → filter P rows = [].
Proof.
  induction rows as [|r rows IH]; [done|]. intros HP.
  rewrite filter_cons_False by (apply HP; left).
  apply IH. intros r' Hr'. apply HP. by right.
Qed.

Lemma filter_fmap_stable (P : R → Prop) `{!∀ x, Decision (P x)} (f : R → R) rows :
  (∀ r, r ∈ rows → P r → f r = r) →
  (∀ r, r ∈ rows → ¬ P r → ¬ P (f r)) →
  filter P (f <$> rows) = filter P rows.
Proof.
  induction rows as [|r rows IH]; [done|]. intros Hkeep Hout.
  rewrite fmap_cons. destruct (decide (P r)) as [HP|HP].
  - rewrite (Hkeep r) by (done || left).
    rewrite !filter_cons_True by done. f_equal.
    apply IH; intros r' Hr'; [apply Hkeep|apply Hout]; by right.
  - rewrite !filter_cons_False by (done || (apply Hout; [left|done])).
    apply IH; intros r' Hr'; [apply Hkeep|apply Hout]; by right.
Qed.

Lemma filter_filter_stable (P Q : R → Prop)
  `{!∀ x, Decision (P x)} `{!∀ x, Decision (Q x)} rows :
  (∀ r, r ∈ rows → P r → Q r) →
  filter P (filter Q rows) = filter P rows.
Proof.
  induction rows as [|r rows IH]; [done|]. intros HPQ.
  assert (filter P (filter Q rows) = filter P rows) as IH'.
  { apply IH. intros r' Hr'. apply HPQ. by right. }
  destruct (decide (P r)) as [HP|HP].
  - rewrite (filter_cons_True Q) by (apply HPQ; [left|done]).
    rewrite !filter_cons_True by done. by rewrite IH'.
  - rewrite (filter_cons_False P r rows) by done.
    destruct (decide (Q r)).
    + rewrite (filter_cons_True Q) by done. by rewrite filter_cons_False.
    + by rewrite (filter_cons_False Q).
Qed.

Lemma sql_delete_nil wh rows : sql_delete [] wh rows = rows.
Proof.
  apply filter_all. intros r _. simpl. by rewrite andb_false_r.
Qed.

End Sql.

Lemma fresh_not_in (ids : list uuid) : fresh ids ∉ ids.
Proof.
  intros Hin. apply max_list_elem_of_le in Hin. unfold fresh in Hin. lia.
Qed.


Lemma sql_update_inv {R} (pols : list (Policy R)) (wh : R → bool) (set : R → R)
  (rows rows' : list R) :
  sql_update pols wh set rows = Ok rows' →
  rows' = (λ r, if wh r && rls_using pols r then set r else r) <$> rows
  ∧ ∀ r, r ∈ rows → wh r && rls_using pols r = true → rls_check pols (set r) = true.
Proof.
  unfold sql_update. destruct (forallb _ rows) eqn:Hall; [|done].
  intros [= <-]. split; [done|]. intros r Hr Hhit.
  rewrite forallb_forall in Hall.
  specialize (Hall r (proj1 (list_elem_of_In _ _) Hr)). by rewrite Hhit in Hall.
Qed.

Lemma sql_insert_inv {R} (pols : list (Policy R)) (new rows rows' : list R) :
  sql_insert pols new rows = Ok rows' →
  rows' = rows ++ new ∧ ∀ r, r ∈ new → rls_check pols r = true.
Proof.
  unfold sql_insert. destruct (forallb _ new) eqn:Hall; [|done].
  intros [= <-]. split; [done|]. intros r Hr.
  rewrite forallb_forall in Hall. apply Hall. by apply list_elem_of_In.
Qed.

(** * Roles and row-level policies *)

#[local] Arguments has_role : simpl never.

Lemma has_role_lookup db uid role r :
  user_roles db !! uid = Some role → has_role db uid r = bool_decide (role = r).
Proof.
  intros H. unfold has_role. rewrite H. apply bool_decide_ext. split; congruence.
Qed.

Lemma has_role_none db uid r :
  user_roles db !! uid = None → has_role db uid r = false.
Proof. intros H. unfold has_role. rewrite H. by apply bool_decide_eq_false_2. Qed.

(** The disjunction of the USING expressions of the UPDATE policies on
    inspections, for a user holding [role]. *)
Lemma inspections_using db uid role i :
  user_roles db !! uid = Some role →
  rls_using (inspections_update_policies db uid) i
  = auditor_resubmit_policy db && bool_decide (role = auditor)
      && bool_decide (created_by i = uid) && bool_decide (status i = rejected)
    || bool_decide (role = team_leader) && bool_decide (status i = pending_team_leader)
    || bool_decide (role = hof_auditor) && bool_decide (status i = pending_hof_auditor)
    || bool_decide (role = quality_head) && bool_decide (status i = pending_quality_head).
Proof.
  intros Hrole. unfold rls_using, inspections_update_policies.
  destruct (auditor_resubmit_policy db); simpl;
    rewrite !(has_role_lookup db uid role _ Hrole);
    by repeat (destruct (bool_decide _)).
Qed.

(** Likewise for the WITH CHECK expressions. *)
Lemma inspections_check db uid role i :
  user_roles db !! uid = Some role →
  rls_check (inspections_update_policies db uid) i
  = auditor_resubmit_policy db && bool_decide (role = auditor)
      && bool_decide (created_by i = uid) && bool_decide (status i = pending_team_leader)
    || bool_decide (role = team_leader)
       && (bool_decide (status i = pending_hof_auditor) || bool_decide (status i = rejected))
    || bool_decide (role = hof_auditor)
       && (bool_decide (status i = pending_quality_head) || bool_decide (status i = rejected))
    || bool_decide (role = quality_head)
       && (bool_decide (status i = approved) || bool_decide (status i = rejected)).
Proof.
  intros Hrole. unfold rls_check, inspections_update_policies.
  destruct (auditor_resubmit_policy db); simpl;
    rewrite !(has_role_lookup db uid role _ Hrole);
    by repeat (destruct (bool_decide _)).
Qed.

(** No UPDATE policy on inspections reads an approved row, for any user;
    nor a rejected one once the auditors' policy is dropped. *)
Lemma inspections_using_approved db uid i :
  status i = approved → rls_using (inspections_update_policies db uid) i = false.
Proof.
  intros Hs. unfold rls_using, inspections_update_policies.
  destruct (auditor_resubmit_policy db); simpl; rewrite Hs; simpl;
    by rewrite ?andb_false_r.
Qed.

Lemma inspections_using_rejected db uid i :
  auditor_resubmit_policy db = false → status i = rejected →
  rls_using (inspections_update_policies db uid) i = false.
Proof.
  intros Hpol Hs. unfold rls_using, inspections_update_policies.
  rewrite Hpol. simpl. rewrite Hs. simpl. by rewrite ?andb_false_r.
Qed.

(** * Primary keys *)

Lemma insp_id_inj rows i j :
  NoDup (insp_id <$> rows) → i ∈ rows → j ∈ rows → insp_id i = insp_id j → i = j.
Proof.
  induction rows as [|r rows IH]; intros Hnd Hi Hj Heq.
  - by apply elem_of_nil in Hi.
  - rewrite fmap_cons in Hnd. apply NoDup_cons in Hnd as [Hr Hnd].
    apply elem_of_cons in Hi as [->|Hi]; apply elem_of_cons in Hj as [->|Hj]; try done.
    + exfalso. apply Hr. rewrite Heq. by apply list_elem_of_fmap_2.
    + exfalso. apply Hr. rewrite <- Heq. by apply list_elem_of_fmap_2.
    + by apply IH.
Qed.

Lemma set_inspections_id db : set_inspections (inspections db) db = db.
Proof. by destruct db. Qed.

Lemma advance_ids inspection s rows :
  insp_id <$> advance inspection s rows = insp_id <$> rows.
Proof.
  unfold advance. rewrite <- list_fmap_compose.
  apply Forall_fmap_ext_1, Forall_forall. intros i _. simpl.
  by case_bool_decide.
Qed.

Lemma advance_elem inspection s rows :
  inspection ∈ rows →
  patch_inspection (status_patch s) inspection ∈ advance inspection s rows.
Proof.
  intros Hin. unfold advance.
  apply list_elem_of_fmap. exists inspection. split; [|done].
  by rewrite bool_decide_eq_true_2.
Qed.

(** UPDATE inspections SET status = _ WHERE id = _: the row [cur] that
    carries the id decides. *)
Lemma update_status_by_id db uid cur s :
  NoDup (insp_id <$> inspections db) →
  cur ∈ inspections db →
  update_inspections uid (λ i, bool_decide (insp_id i = insp_id cur)) (status_patch s) db
  = if rls_using (inspections_update_policies db uid) cur
    then if rls_check (inspections_update_policies db uid)
              (patch_inspection (status_patch s) cur)
         then Ok (set_inspections (advance cur s (inspections db)) db)
         else Err rls_violation
    else Ok db.
Proof.
  intros Hnd Hin. unfold update_inspections.
  set (pols := inspections_update_policies db uid).
  assert (∀ i, i ∈ inspections db → insp_id i = insp_id cur → i = cur)
    as Hkey by (intros i Hi; by apply insp_id_inj with (inspections db)).
  destruct (rls_using pols cur) eqn:Hu.
  - destruct (rls_check pols _) eqn:Hc.
    + rewrite sql_update_spec; simpl.
      * do 2 f_equal. apply Forall_fmap_ext_1, Forall_forall. intros i Hi.
        case_bool_decide as Hid; [|done].
        by rewrite (Hkey i Hi Hid), Hu.
      * intros i Hi [Hid%bool_decide_eq_true _]%andb_true_iff.
        by rewrite (Hkey i Hi Hid).
    + rewrite (sql_update_rejected _ _ _ _ cur); try done.
      by rewrite bool_decide_eq_true_2, Hu.
  - rewrite sql_update_untouched; simpl; [by rewrite set_inspections_id|].
    intros i Hi. case_bool_decide as Hid; [|done].
    by rewrite (Hkey i Hi Hid), Hu.
Qed.

(** * The approval ledger's write path *)

Lemma insert_approval_history_ok (db : Db) (uid : uuid) (entry : ApprovalHistory) :
  ah_inspection_id entry ∈ insp_id <$> inspections db →
  approver_id entry = uid →
  insert_approval_history uid entry db
  = Ok (set_approval_history
          (approval_history db
           ++ [with_ah_id (fresh (ah_id <$> approval_history db)) entry]) db).
Proof.
  intros Hfk Happrover. unfold insert_approval_history, sql_insert. simpl.
  rewrite (bool_decide_eq_true_2 _ Happrover). simpl.
  unfold inspection_exists. simpl.
  by rewrite (bool_decide_eq_true_2 _ Hfk).
Qed.

(** Whatever the outcome, the insert either changes nothing or appends
    the entry. *)
Lemma insert_approval_history_cases (db : Db) (uid : uuid) (entry : ApprovalHistory) :
  (∃ e, insert_approval_history uid entry db = Err e)
  ∨ insert_approval_history uid entry db
    = Ok (set_approval_history
            (approval_history db
             ++ [with_ah_id (fresh (ah_id <$> approval_history db)) entry]) db).
Proof.
  unfold insert_approval_history, sql_insert. simpl.
  destruct (bool_decide (approver_id entry = uid)); simpl; [|by eauto].
  destruct (inspection_exists _ _); by eauto.
Qed.

(** C10. For every signed-in user [uid] and every existing inspection,
    inserting an approval_history row whose approver_id is [uid] succeeds
    and appends exactly that row (with a generated id), whatever role the
    user holds or lacks, whatever the inspection's status, and whatever
    action, previous_status and new_status the row claims: the policy
    compares approver_id with auth.uid() and nothing else. *)
Theorem insert_approval_history_only_checks_approver
  (db : Db) (uid : uuid) (entry : ApprovalHistory) :
  ah_inspection_id entry ∈ insp_id <$> inspections db →
  approver_id entry = uid →
  insert_approval_history uid entry db
  = Ok (set_approval_history
          (approval_history db
           ++ [with_ah_id (fresh (ah_id <$> approval_history db)) entry]) db).
Proof. apply insert_approval_history_ok. Qed.

(** nora, who holds no role, records a quality-head approval of an
    inspection that is already approved. *)
Lemma insert_approval_history_only_checks_approver_witness :
  let forged :=
    {| ah_id := 0;
       ah_inspection_id := 1;
       approver_id := nora;
       approver_role := quality_head;
       action := action_approved;
       previous_status := pending_team_leader;
       new_status := approved;
       comments := [] |} in
  user_roles (plant approved) !! nora = None
  ∧ approval_history (after (plant approved)
                        (insert_approval_history nora forged (plant approved)))
    = [with_ah_id 1 forged].
Proof.
  intros forged. split; [reflexivity|].
  rewrite (insert_approval_history_only_checks_approver (plant approved) nora forged).
  - reflexivity.
  - simpl. left.
  - reflexivity.
Defined.

(** * Decisions (handleApproval) *)

(** The two requests of [handleApproval], for a page whose copy of the
    inspection carries the id of the current row [cur]. *)
Lemma handleApproval_steps db uid inspection cur role action c :
  NoDup (insp_id <$> inspections db) →
  cur ∈ inspections db →
  insp_id inspection = insp_id cur →
  truthy (trim c) = true →
  let pg := page_of inspection uid role c in
  let s := getNextStatus pg action in
  let db1 := set_approval_history
               (approval_history db ++ [appended_entry db inspection uid role action s c])
               db in
  handleApproval uid pg action db
  = if rls_using (inspections_update_policies db uid) cur
    then if rls_check (inspections_update_policies db uid)
              (patch_inspection (status_patch s) cur)
         then (Decided action, set_inspections (advance inspection s (inspections db)) db1)
         else (FailedToUpdate, db1)
    else (Decided action, db1).
Proof.
  intros Hnd Hin Hid Hc pg s db1. unfold handleApproval. simpl. rewrite Hc.
  rewrite insert_approval_history_ok;
    [|simpl; rewrite Hid; by apply list_elem_of_fmap_2|done].
  fold s. fold (appended_entry db inspection uid role action s c). fold db1.
  unfold advance. rewrite Hid. fold (advance cur s (inspections db)).
  rewrite (update_status_by_id db1 uid cur s Hnd Hin).
  change (inspections_update_policies db1 uid) with (inspections_update_policies db uid).
  destruct (rls_using _ cur); [|done].
  by destruct (rls_check _ _).
Qed.




(** ** The two writes of a decision *)

(** C4 (as amended). [handleApproval] sends two separate statements, the
    ledger insert first and the status update second. Either nothing is
    written at all, or exactly one entry is appended, carrying the role
    the page's auth context held when the decision was made; and then
    either the call is reported as done, or the update failed and every
    inspection is as it was. So no status changes without its ledger
    entry, and a call that reports a failure has changed no status. *)
Theorem handleApproval_appends_before_updating
  (db : Db) (uid : uuid) (pg : InspectionDetail) (action : Action) :
  let out := handleApproval uid pg action db in
  snd out = db
  ∨ ∃ inspection profile role,
      pg_inspection pg = Some inspection
      ∧ pg_profile pg = Some profile
      ∧ pg_role pg = Some role
      ∧ approval_history (snd out)
        = approval_history db
          ++ [appended_entry db inspection profile role action
                (getNextStatus pg action) (pg_comments pg)]
      ∧ approver_role
          (appended_entry db inspection profile role action
             (getNextStatus pg action) (pg_comments pg)) = role
      ∧ (fst out = Decided action
         ∨ fst out = FailedToUpdate ∧ inspections (snd out) = inspections db).
Proof.
  unfold handleApproval.
  destruct (pg_inspection pg) as [inspection|]; [|by left].
  destruct (pg_profile pg) as [profile|]; [|by left].
  destruct (pg_role pg) as [role|]; [|by left].
  destruct (truthy _); [|by left].
  destruct (insert_approval_history_cases db uid
              (history_entry inspection profile role action (getNextStatus pg action)
                 (pg_comments pg))) as [[e He]|Hok]; rewrite ?He, ?Hok; [by left|].
  right. exists inspection, profile, role. do 3 (split; [done|]).
  destruct (update_inspections _ _ _ _) as [db2|e] eqn:Hupd; simpl.
  - split; [|split; [done|by left]].
    unfold update_inspections in Hupd.
    destruct (sql_update _ _ _ _); simpl in Hupd; [|done].
    by injection Hupd as <-.
  - split; [done|]. split; [done|]. by right.
Qed.

(** C4 (as stated) fails: tom's page still shows the inspection as
    waiting for the team leader (so the decision card is offered) while
    the row has moved on. His rejection is recorded in the ledger and
    reported as done; the status does not change. *)
Lemma handleApproval_entry_without_status_change :
  let db := plant pending_hof_auditor in
  let pg := page_of (inspection_1 pending_team_leader) tom team_leader (js "late") in
  let out := handleApproval tom pg action_rejected db in
  canApprove pg = true
  ∧ fst out = Decided action_rejected
  ∧ length (approval_history (snd out)) = S (length (approval_history db))
  ∧ inspections (snd out) = inspections db.
Proof. vm_compute. by repeat split. Qed.

(** ** Repeating a decision *)

(** A decision of the table, taken on the current row. *)
Lemma handleApproval_table db uid inspection role action c new :
  NoDup (insp_id <$> inspections db) →
  inspection ∈ inspections db →
  user_roles db !! uid = Some role →
  truthy (trim c) = true →
  transition_table (status inspection) role action = Some new →
  handleApproval uid (page_of inspection uid role c) action db
  = (Decided action,
     set_inspections (advance inspection new (inspections db))
       (set_approval_history
          (approval_history db ++ [appended_entry db inspection uid role action new c])
          db)).
Proof.
  intros Hnd Hin Hrole Hc Htable.
  rewrite (handleApproval_steps db uid inspection inspection role action c Hnd Hin eq_refl Hc).
  rewrite (inspections_using db uid role _ Hrole), (inspections_check db uid role _ Hrole).
  unfold getNextStatus. simpl.
  destruct inspection as [id num prod creator st batch rem]. simpl in *.
  destruct role, st, action; try done; injection Htable as <-; simpl;
    by rewrite ?andb_false_r.
Qed.

(** A decision taken from a page whose copy is out of date: the row
    [cur] no longer waits for the reviewer's role. *)
Lemma handleApproval_stale db uid inspection cur role action c :
  NoDup (insp_id <$> inspections db) →
  cur ∈ inspections db →
  insp_id inspection = insp_id cur →
  user_roles db !! uid = Some role →
  truthy (trim c) = true →
  role ≠ auditor →
  status cur ≠ roleStatusMap role →
  handleApproval uid (page_of inspection uid role c) action db
  = (Decided action,
     set_approval_history
       (approval_history db
        ++ [appended_entry db inspection uid role action
              (getNextStatus (page_of inspection uid role c) action) c]) db).
Proof.
  intros Hnd Hin Hid Hrole Hc Hnot Hstale.
  rewrite (handleApproval_steps db uid inspection cur role action c Hnd Hin Hid Hc).
  rewrite (inspections_using db uid role _ Hrole).
  destruct role; try done; simpl in *;
    rewrite (bool_decide_eq_false_2 _ Hstale); simpl; by rewrite ?andb_false_r.
Qed.

(** C5 (as amended). Once a decision of the table has been committed and
    has advanced the status, the same call issued again from the same page
    (same source status, same arguments) does not overwrite the status:
    every inspection is as the first call left it. The second call is not
    refused as a conflict: it is reported as done, like the first. *)
Theorem handleApproval_twice
  (db : Db) (uid : uuid) (inspection : Inspection) (role : AppRole) (action : Action)
  (c : jsstring) (new : InspectionStatus) :
  NoDup (insp_id <$> inspections db) →
  inspection ∈ inspections db →
  user_roles db !! uid = Some role →
  truthy (trim c) = true →
  transition_table (status inspection) role action = Some new →
  let pg := page_of inspection uid role c in
  let first := handleApproval uid pg action db in
  let second := handleApproval uid pg action (snd first) in
  fst first = Decided action
  ∧ inspections (snd first) = advance inspection new (inspections db)
  ∧ fst second = Decided action
  ∧ inspections (snd second) = inspections (snd first).
Proof.
  intros Hnd Hin Hrole Hc Htable pg first second. subst pg first second.
  rewrite (handleApproval_table db uid inspection role action c new Hnd Hin Hrole Hc Htable).
  simpl.
  set (db1 := set_inspections _ _).
  rewrite (handleApproval_stale db1 uid inspection
             (patch_inspection (status_patch new) inspection) role action c).
  - done.
  - subst db1. simpl. by rewrite advance_ids.
  - subst db1. simpl. by apply advance_elem.
  - done.
  - done.
  - done.
  - destruct (status inspection), role, action; simpl in *; congruence.
  - simpl. destruct (status inspection), role, action; simpl in *; congruence.
Qed.

(** Scenario 4, sequentially: quinn approves twice from the same page. *)
Lemma handleApproval_twice_witness :
  let db := plant pending_quality_head in
  let pg := page_of (inspection_1 pending_quality_head) quinn quality_head (js "final") in
  let first := handleApproval quinn pg action_approved db in
  let second := handleApproval quinn pg action_approved (snd first) in
  NoDup (insp_id <$> inspections db)
  ∧ inspection_1 pending_quality_head ∈ inspections db
  ∧ user_roles db !! quinn = Some quality_head
  ∧ truthy (trim (js "final")) = true
  ∧ transition_table pending_quality_head quality_head action_approved = Some approved
  ∧ inspections (snd first) = [inspection_1 approved]
  ∧ inspections (snd second) = [inspection_1 approved]
  ∧ fst second = Decided action_approved.
Proof.
  intros db pg first second.
  assert (NoDup (insp_id <$> inspections db)) as Hnd by decide_by_computation.
  assert (inspection_1 pending_quality_head ∈ inspections db) as Hin by (simpl; left).
  assert (user_roles db !! quinn = Some quality_head) as Hrole by reflexivity.
  assert (truthy (trim (js "final")) = true) as Hc by reflexivity.
  assert (transition_table pending_quality_head quality_head action_approved
          = Some approved) as Htable by reflexivity.
  destruct (handleApproval_twice db quinn (inspection_1 pending_quality_head)
              quality_head action_approved (js "final") approved
              Hnd Hin Hrole Hc Htable) as (_ & H1 & H2 & H3).
  subst pg first second.
  do 5 (split; [done|]).
  split; [exact H1|]. split; [by rewrite H3|]. exact H2.
Defined.

(** C5 (as stated) fails: the second of two identical calls is not
    refused as a conflict, and it appends a second ledger entry for the
    same transition. *)
Lemma handleApproval_repeated_is_not_conflict :
  let db := plant pending_quality_head in
  let pg := page_of (inspection_1 pending_quality_head) quinn quality_head (js "final") in
  let first := handleApproval quinn pg action_approved db in
  let second := handleApproval quinn pg action_approved (snd first) in
  fst first = Decided action_approved
  ∧ length (approval_history (snd first)) = 1
  ∧ fst second = Decided action_approved
  ∧ length (approval_history (snd second)) = 2
  ∧ (new_status <$> approval_history (snd second)) = [approved; approved].
Proof. vm_compute. by repeat split. Qed.

(** * Authoring an inspection (CreateInspection) *)

Lemma in_range_iff (q tmin tmax : Q) :
  num_ge (Finite q) tmin && num_le (Finite q) tmax = true ↔ (tmin <= q ∧ q <= tmax)%Q.
Proof. simpl. by rewrite andb_true_iff, !Qle_bool_iff. Qed.

(** What typing an actual value does to a row with both tolerances when
    the value reads as a number. *)
Lemma handleResultChange_dimensional parseFloat f index value r spec tmin tmax :
  form_results f !! index = Some r →
  form_specifications f !! index = Some spec →
  specification_type spec = dimensional →
  tolerance_min spec = Some tmin →
  tolerance_max spec = Some tmax →
  isNaN (parseFloat value) = false →
  handleResultChange parseFloat index (change_actual_value value) f
  = Some (with_results
            (<[index := set_input_is_pass
                          (num_ge (parseFloat value) tmin && num_le (parseFloat value) tmax)
                          (set_input_actual_value value r)]> (form_results f)) f).
Proof.
  intros Hr Hspec Hty Hmin Hmax Hnum. unfold handleResultChange.
  rewrite Hr. simpl. rewrite Hspec. simpl. by rewrite Hty, Hmin, Hmax, Hnum.
Qed.

(** A value that does not read as a number leaves the pass flag as it
    was. *)
Lemma handleResultChange_not_a_number parseFloat f index value r spec :
  form_results f !! index = Some r →
  form_specifications f !! index = Some spec →
  isNaN (parseFloat value) = true →
  handleResultChange parseFloat index (change_actual_value value) f
  = Some (with_results (<[index := set_input_actual_value value r]> (form_results f)) f).
Proof.
  intros Hr Hspec Hnan. unfold handleResultChange.
  rewrite Hr. simpl. rewrite Hspec. simpl. rewrite Hnan. simpl.
  by repeat case_match.
Qed.

(** Whatever the form holds, [handleSubmit] adds at most one inspection,
    and that one waits for the team leader. *)
Lemma handleSubmit_inspections uid today f db :
  inspections (snd (handleSubmit uid today f db)) = inspections db
  ∨ ∃ row, inspections (snd (handleSubmit uid today f db)) = inspections db ++ [row]
           ∧ status row = pending_team_leader
           ∧ Some (created_by row) = form_profile f.
Proof.
  unfold handleSubmit.
  destruct (selectedProduct f) as [product|]; [|by left].
  destruct (form_profile f) as [profile|]; [|by left].
  destruct (missingValues f) as [[|]|]; try by left.
  destruct (missingRemarks f) as [[|]|]; try by left.
  destruct (insert_inspection _ _ _) as [[inspectionData db1]|e] eqn:Hins; [|by left].
  unfold insert_inspection, sql_insert in Hins. simpl in Hins.
  destruct (_ && _); simpl in Hins; [|done].
  destruct (bool_decide _); [done|]. injection Hins as <- <-.
  right. eexists. split.
  - destruct (resultsToInsert _ _) as [rows|]; [|reflexivity].
    destruct (insert_inspection_results _ _ _) as [db2|e] eqn:Hres; [|reflexivity].
    unfold insert_inspection_results in Hres.
    destruct (sql_insert _ _ _); simpl in Hres; [|done].
    destruct (forallb _ _); [|done]. by injection Hres as <-.
  - split; reflexivity.
Qed.

(** The pass / fail button flips the flag of a dimensional row and
    leaves its value. *)
Lemma togglePassFail_dimensional f index r spec :
  form_results f !! index = Some r →
  form_specifications f !! index = Some spec →
  specification_type spec = dimensional →
  togglePassFail index f
  = Some (with_results
            (<[index := set_input_is_pass (negb (inp_is_pass r)) r]> (form_results f)) f).
Proof.
  intros Hr Hspec Hty. unfold togglePassFail. rewrite Hr, Hspec. simpl.
  by rewrite Hty.
Qed.

Lemma js_map_Forall2 {A B} (g : A → nat → option B) (l : list A) (i : nat) (bs : list B) :
  js_map g l i = Some bs → Forall2 (λ a b, ∃ k, g a k = Some b) l bs.
Proof.
  revert i bs. induction l as [|a l IH]; intros i bs; simpl.
  - intros [= <-]. constructor.
  - destruct (g a i) as [b|] eqn:Hb; simpl; [|done].
    destruct (js_map g l (S i)) as [bs'|] eqn:Hbs; simpl; [|done].
    intros [= <-]. constructor; [by exists i|by eapply IH].
Qed.

(** The rows sent to inspection_results carry the flags of the form. *)
Lemma resultsToInsert_flags f inspection_id rows :
  resultsToInsert f inspection_id = Some rows →
  is_pass <$> rows = inp_is_pass <$> form_results f.
Proof.
  intros H%js_map_Forall2.
  induction H as [|r row rs rows' (k & Hrow) _ IH]; [done|].
  rewrite !fmap_cons, IH. f_equal.
  destruct (form_specifications f !! k); simpl in Hrow; [|done].
  by injection Hrow as <-.
Qed.

(** C6 (as amended). Typing an actual value into a dimensional row that
    has both tolerances, when the value reads as a number, sets the row's
    pass flag to the range test [tolerance_min <= value <= tolerance_max]
    (for a finite value: true exactly when it lies in the closed
    interval); a value that does not read as a number leaves the flag as
    it was, and the row's pass / fail button flips it. The flag recorded
    with a result is the one the form holds at submission. An inspection
    that [handleSubmit] creates always has status pending_team_leader,
    whatever the flags. *)
Theorem pass_flag_on_entry_and_initial_status :
  (∀ parseFloat f index value r spec tmin tmax,
     form_results f !! index = Some r →
     form_specifications f !! index = Some spec →
     specification_type spec = dimensional →
     tolerance_min spec = Some tmin →
     tolerance_max spec = Some tmax →
     isNaN (parseFloat value) = false →
     ∃ f', handleResultChange parseFloat index (change_actual_value value) f = Some f'
           ∧ (inp_is_pass <$> form_results f' !! index)
             = Some (num_ge (parseFloat value) tmin && num_le (parseFloat value) tmax)
           ∧ (inp_actual_value <$> form_results f' !! index) = Some value
           ∧ ∀ q, parseFloat value = Finite q →
                  ((inp_is_pass <$> form_results f' !! index) = Some true
                   ↔ (tmin <= q ∧ q <= tmax)%Q))
  ∧ (∀ parseFloat f index value r spec,
       form_results f !! index = Some r →
       form_specifications f !! index = Some spec →
       isNaN (parseFloat value) = true →
       ∃ f', handleResultChange parseFloat index (change_actual_value value) f = Some f'
             ∧ (inp_is_pass <$> form_results f' !! index) = Some (inp_is_pass r))
  ∧ (∀ f index r spec,
       form_results f !! index = Some r →
       form_specifications f !! index = Some spec →
       specification_type spec = dimensional →
       ∃ f', togglePassFail index f = Some f'
             ∧ (inp_is_pass <$> form_results f' !! index) = Some (negb (inp_is_pass r))
             ∧ (inp_actual_value <$> form_results f' !! index)
               = Some (inp_actual_value r))
  ∧ (∀ f inspection_id rows,
       resultsToInsert f inspection_id = Some rows →
       is_pass <$> rows = inp_is_pass <$> form_results f)
  ∧ (∀ uid today f db,
       inspections (snd (handleSubmit uid today f db)) = inspections db
       ∨ ∃ row, inspections (snd (handleSubmit uid today f db)) = inspections db ++ [row]
                ∧ status row = pending_team_leader).
Proof.
  split; [|split; [|split; [|split]]].
  - intros parseFloat f index value r spec tmin tmax Hr Hspec Hty Hmin Hmax Hnum.
    eexists. split.
    { by apply (handleResultChange_dimensional _ _ _ _ r spec tmin tmax). }
    simpl. rewrite list_lookup_insert_eq by (by eapply lookup_lt_Some).
    simpl. split; [done|]. split; [done|].
    intros q Hq. rewrite Hq, <- in_range_iff. split; congruence.
  - intros parseFloat f index value r spec Hr Hspec Hnan.
    eexists. split.
    { by apply (handleResultChange_not_a_number _ _ _ _ r spec). }
    simpl. by rewrite list_lookup_insert_eq by (by eapply lookup_lt_Some).
  - intros f index r spec Hr Hspec Hty.
    eexists. split.
    { by apply (togglePassFail_dimensional _ _ r spec). }
    simpl. by rewrite list_lookup_insert_eq by (by eapply lookup_lt_Some).
  - apply resultsToInsert_flags.
  - intros uid today f db.
    destruct (handleSubmit_inspections uid today f db) as [H|(row & H & Hs & _)];
      [by left|right; by exists row].
Qed.

(** Scenario 1: one dimensional specification, tolerance 10.0 to 11.0;
    alice types "10.5" and submits. *)
Lemma pass_flag_on_entry_and_initial_status_witness :
  ∃ f', handleResultChange parseFloat_exact 0 (change_actual_value (js "10.5")) blank_form
        = Some f'
        ∧ (inp_is_pass <$> form_results f' !! 0) = Some true
        ∧ fst (handleSubmit alice (js "20260105") f' empty_plant)
          = Created (js "INS-20260105-0001")
        ∧ ∃ row, inspections (snd (handleSubmit alice (js "20260105") f' empty_plant))
                 = [row]
                 ∧ status row = pending_team_leader.
Proof.
  destruct pass_flag_on_entry_and_initial_status as (Hentry & _ & _ & _ & Hstatus).
  destruct (Hentry parseFloat_exact blank_form 0 (js "10.5")
              (initial_result thickness) thickness (10 # 1)%Q (11 # 1)%Q)
    as (f' & Hf' & Hpass & _); try reflexivity.
  exists f'. split; [exact Hf'|]. split; [by rewrite Hpass|].
  assert (f' = with_results
                 [set_input_is_pass true
                    (set_input_actual_value (js "10.5") (initial_result thickness))]
                 blank_form) as -> by (apply (inj Some); rewrite <- Hf'; reflexivity).
  split; [reflexivity|].
  destruct (Hstatus alice (js "20260105")
              (with_results
                 [set_input_is_pass true
                    (set_input_actual_value (js "10.5") (initial_result thickness))]
                 blank_form) empty_plant) as [Hnone|(row & Hrow & Hs)].
  - exfalso. vm_compute in Hnone. discriminate Hnone.
  - exists row. split; [exact Hrow|exact Hs].
Defined.

(** C6 (as stated) fails: alice types "10.5", inside 10.0 to 11.0, then
    presses the row's pass / fail button, and submits. The result row is
    recorded with that value and is_pass = false. *)
Lemma submitted_flag_can_differ_from_range_test :
  let out :=
    f1 ← handleResultChange parseFloat_exact 0 (change_actual_value (js "10.5")) blank_form;
    f2 ← togglePassFail 0 f1;
    Some (handleSubmit alice (js "20260105") f2 empty_plant) in
  (fst <$> out) = Some (Created (js "INS-20260105-0001"))
  ∧ (inspection_results ∘ snd <$> out)
    = Some [{| res_id := 1;
               res_inspection_id := 1;
               specification_id := spec_id thickness;
               actual_value := js "10.5";
               is_pass := false;
               res_remarks := None |}]
  ∧ num_ge (parseFloat_exact (js "10.5")) (10 # 1)%Q
    && num_le (parseFloat_exact (js "10.5")) (11 # 1)%Q = true.
Proof. vm_compute. by repeat split. Qed.

(** ** Validation *)

(** [some] over callbacks that never throw. *)
Lemma js_some_total {A} (g : A → nat → option bool) (l : list A) (i : nat) :
  (∀ k a, l !! k = Some a → is_Some (g a (i + k))) →
  ∃ b, js_some g l i = Some b
       ∧ (b = true ↔ ∃ k a, l !! k = Some a ∧ g a (i + k) = Some true).
Proof.
  revert i. induction l as [|a l IH]; intros i Hg; simpl.
  - exists false. split; [done|]. split; [done|]. by intros (k & b & Hk & _).
  - destruct (Hg 0 a eq_refl) as [b Hb]. rewrite Nat.add_0_r in Hb. rewrite Hb.
    destruct b.
    + exists true. split; [done|]. split; [|done]. intros _.
      exists 0, a. by rewrite Nat.add_0_r.
    + destruct (IH (S i)) as (b & Hsome & Hiff).
      { intros k a' Hk. replace (S i + k) with (i + S k) by lia. by apply Hg. }
      exists b. split; [done|]. rewrite Hiff. split.
      * intros (k & a' & Hk & Htrue). exists (S k), a'.
        by replace (i + S k) with (S i + k) by lia.
      * intros ([|k] & a' & Hk & Htrue).
        -- simpl in Hk. injection Hk as <-. rewrite Nat.add_0_r in Htrue. congruence.
        -- exists k, a'. by replace (S i + k) with (i + S k) by lia.
Qed.

(** With one result per specification, the two checks of [handleSubmit]
    are total, and say what their comments say. *)
Lemma missingValues_spec f :
  length (form_results f) = length (form_specifications f) →
  ∃ b, missingValues f = Some b
       ∧ (b = true ↔ ∃ index r spec,
            form_results f !! index = Some r
            ∧ form_specifications f !! index = Some spec
            ∧ specification_type spec = dimensional
            ∧ trim (inp_actual_value r) = []).
Proof.
  intros Hlen. unfold missingValues.
  destruct (js_some_total
              (λ r index,
                 spec ← form_specifications f !! index;
                 if bool_decide (specification_type spec = dimensional)
                 then Some (negb (truthy (trim (inp_actual_value r))))
                 else Some false) (form_results f) 0) as (b & Hb & Hiff).
  { intros k r Hk. simpl.
    destruct (lookup_lt_is_Some_2 (form_specifications f) k) as [spec Hspec].
    { rewrite <- Hlen. by eapply lookup_lt_Some. }
    rewrite Hspec. simpl. by case_bool_decide. }
  exists b. split; [done|]. rewrite Hiff. simpl. split.
  - intros (k & r & Hk & Htrue). exists k, r.
    destruct (form_specifications f !! k) as [spec|]; simpl in Htrue; [|done].
    exists spec. case_bool_decide; [|done].
    injection Htrue as Htrue. do 3 (split; [done|]).
    by destruct (trim (inp_actual_value r)).
  - intros (k & r & spec & Hk & Hspec & Hty & Hblank). exists k, r.
    split; [done|]. rewrite Hspec. simpl.
    by rewrite (bool_decide_eq_true_2 _ Hty), Hblank.
Qed.

Lemma missingRemarks_spec f :
  length (form_results f) = length (form_specifications f) →
  ∃ b, missingRemarks f = Some b
       ∧ (b = true ↔ ∃ index r spec,
            form_results f !! index = Some r
            ∧ form_specifications f !! index = Some spec
            ∧ remarks_required spec = true
            ∧ trim (inp_remarks r) = []).
Proof.
  intros Hlen. unfold missingRemarks.
  destruct (js_some_total
              (λ r index,
                 spec ← form_specifications f !! index;
                 Some (remarks_required spec && negb (truthy (trim (inp_remarks r)))))
              (form_results f) 0) as (b & Hb & Hiff).
  { intros k r Hk. simpl.
    destruct (lookup_lt_is_Some_2 (form_specifications f) k) as [spec Hspec].
    { rewrite <- Hlen. by eapply lookup_lt_Some. }
    by rewrite Hspec. }
  exists b. split; [done|]. rewrite Hiff. simpl. split.
  - intros (k & r & Hk & Htrue). exists k, r.
    destruct (form_specifications f !! k) as [spec|]; simpl in Htrue; [|done].
    exists spec. injection Htrue as [Hreq Hblank]%andb_true_iff.
    do 3 (split; [done|]).
    by destruct (trim (inp_remarks r)).
  - intros (k & r & spec & Hk & Hspec & Hreq & Hblank). exists k, r.
    split; [done|]. rewrite Hspec. simpl. by rewrite Hreq, Hblank.
Qed.

(** C7 (as amended). With a product chosen and one result per
    specification, [handleSubmit] stops with a validation message and
    writes nothing (no inspection, no result) whenever a dimensional
    specification, with or without tolerances, has a blank actual value,
    or a specification marked remarks-required has a blank remark. A
    value that is not blank is not checked for being a number. *)
Theorem handleSubmit_validation
  (uid : uuid) (today : jsstring) (f : CreateInspection) (db : Db)
  (product profile : uuid) (index : nat) (r : InspectionResultInput)
  (spec : Specification) :
  selectedProduct f = Some product →
  form_profile f = Some profile →
  length (form_results f) = length (form_specifications f) →
  form_results f !! index = Some r →
  form_specifications f !! index = Some spec →
  specification_type spec = dimensional ∧ trim (inp_actual_value r) = []
  ∨ remarks_required spec = true ∧ trim (inp_remarks r) = [] →
  snd (handleSubmit uid today f db) = db
  ∧ (fst (handleSubmit uid today f db) = FillMeasurementValues
     ∨ fst (handleSubmit uid today f db) = FillRequiredRemarks).
Proof.
  intros Hproduct Hprofile Hlen Hr Hspec Hblank. unfold handleSubmit.
  rewrite Hproduct, Hprofile.
  destruct (missingValues_spec f Hlen) as (bv & -> & Hv).
  destruct (missingRemarks_spec f Hlen) as (br & -> & Hrm).
  destruct bv; [by split; [|left]|].
  destruct br; [by split; [|right]|].
  exfalso. destruct Hblank as [[Hty Hb]|[Hreq Hb]].
  - assert (false = true); [|done]. apply Hv. by exists index, r, spec.
  - assert (false = true); [|done]. apply Hrm. by exists index, r, spec.
Qed.

(** alice submits the form without typing the thickness. *)
Lemma handleSubmit_validation_witness :
  selectedProduct blank_form = Some 1
  ∧ form_profile blank_form = Some alice
  ∧ length (form_results blank_form) = length (form_specifications blank_form)
  ∧ form_results blank_form !! 0 = Some (initial_result thickness)
  ∧ form_specifications blank_form !! 0 = Some thickness
  ∧ specification_type thickness = dimensional
  ∧ trim (inp_actual_value (initial_result thickness)) = []
  ∧ handleSubmit alice (js "20260105") blank_form empty_plant
    = (FillMeasurementValues, empty_plant).
Proof.
  do 7 (split; [reflexivity|]).
  destruct (handleSubmit_validation alice (js "20260105") blank_form empty_plant
              1 alice 0 (initial_result thickness) thickness
              eq_refl eq_refl eq_refl eq_refl eq_refl (or_introl (conj eq_refl eq_refl)))
    as [Hdb [Htoast|Htoast]].
  - by rewrite (surjective_pairing (handleSubmit _ _ _ _)), Hdb, Htoast.
  - by rewrite (surjective_pairing (handleSubmit _ _ _ _)), Hdb, Htoast.
Defined.

(** C7 (as stated) fails: alice types "abc" for the thickness, which has
    tolerances 10.0 to 11.0. The value does not read as a number, and
    the inspection and its result are created all the same. *)
Lemma handleSubmit_accepts_non_numeric_value :
  let out :=
    f1 ← handleResultChange parseFloat_exact 0 (change_actual_value (js "abc")) blank_form;
    Some (handleSubmit alice (js "20260105") f1 empty_plant) in
  parseFloat_exact (js "abc") = NaN
  ∧ tolerance_min thickness = Some (10 # 1)%Q
  ∧ tolerance_max thickness = Some (11 # 1)%Q
  ∧ (fst <$> out) = Some (Created (js "INS-20260105-0001"))
  ∧ (length ∘ inspections ∘ snd <$> out) = Some 1
  ∧ (inspection_results ∘ snd <$> out)
    = Some [{| res_id := 1;
               res_inspection_id := 1;
               specification_id := spec_id thickness;
               actual_value := js "abc";
               is_pass := true;
               res_remarks := None |}].
Proof. vm_compute. by repeat split. Qed.

(** * Assigning roles (Users) *)

Lemma role_selector_shown_iff profile user :
  role_selector_shown profile user = true
  ↔ (Some (user_id user) ≠ profile) ∧ (user_role user ≠ Some quality_head).
Proof.
  unfold role_selector_shown.
  case_bool_decide as Hself; [by split; [|intros [? _]]|].
  case_bool_decide as Hqh; [by split; [|intros [_ ?]]|].
  by split.
Qed.

(** For a quality head the page shows, for a listed user, the role the
    table holds. *)
Lemma fetchUsers_role uid profiles db target :
  has_role db uid quality_head = true →
  target ∈ profiles →
  (u ← head (filter (λ u, user_id u = target) (fetchUsers uid profiles db)); user_role u)
  = user_roles db !! target.
Proof.
  intros Hqh. unfold fetchUsers. induction profiles as [|p profiles IH]; intros Hin.
  - by apply elem_of_nil in Hin.
  - rewrite fmap_cons, filter_cons. simpl.
    destruct (decide (p = target)) as [->|Hne].
    + simpl. by rewrite Hqh, orb_true_r.
    + apply IH. by apply elem_of_cons in Hin as [->|Hin].
Qed.

(** What the policy on user_roles lets a quality head do. *)
Lemma handleRoleChange_quality_head db uid profiles target newRole :
  has_role db uid quality_head = true →
  target ∈ profiles →
  handleRoleChange uid (fetchUsers uid profiles db) target newRole db
  = (RoleUpdated,
     match newRole, user_roles db !! target with
     | None, None => db
     | None, Some _ => set_user_roles (delete target) db
     | Some r, _ => set_user_roles (insert target r) db
     end).
Proof.
  intros Hqh Hin. unfold handleRoleChange.
  destruct newRole as [r|].
  - rewrite (fetchUsers_role uid profiles db target Hqh Hin).
    destruct (user_roles db !! target) as [old|] eqn:Hold.
    + unfold update_user_role. rewrite Hold. simpl. by rewrite Hqh.
    + unfold insert_user_role. simpl. rewrite Hqh. simpl.
      rewrite bool_decide_eq_false_2; [done|]. rewrite Hold. by intros [? ?].
  - unfold delete_user_role.
    destruct (user_roles db !! target) as [old|]; [|done].
    simpl. by rewrite Hqh.
Qed.

(** Without quality_head nothing is written. *)
Lemma handleRoleChange_other db uid users target newRole :
  has_role db uid quality_head = false →
  snd (handleRoleChange uid users target newRole db) = db.
Proof.
  intros Hqh. unfold handleRoleChange.
  destruct newRole as [r|].
  - destruct (_ ≫= _) as [existing|].
    + unfold update_user_role.
      destruct (user_roles db !! target); [|done]. simpl. by rewrite Hqh.
    + unfold insert_user_role. simpl. by rewrite Hqh.
  - unfold delete_user_role.
    destruct (user_roles db !! target); [|done]. simpl. by rewrite Hqh.
Qed.

(** What does guard a change of role. The Users page shows the role
    selector only on rows other than the signed-in user's own that do not
    hold quality_head, and the selector does not offer quality_head. A
    change made through it by an identity holding quality_head is
    applied, overwriting any prior role; through [handleRoleChange], an
    acting identity without quality_head writes nothing, whatever the
    target. The blocks on the user's own row and on a quality head's row
    are the page's controls only. *)
Theorem role_changes_are_guarded_by_the_page
  (db : Db) (uid : uuid) (profiles : list uuid) (target : uuid) (newRole : option AppRole) :
  (∀ profile user,
     role_selector_shown profile user = true
     ↔ (Some (user_id user) ≠ profile) ∧ (user_role user ≠ Some quality_head))
  ∧ (Some quality_head ∉ role_selector_items)
  ∧ (has_role db uid quality_head = true →
     target ∈ profiles →
     role_selector_shown (Some uid)
       {| user_id := target; user_role := user_roles db !! target |} = true →
     newRole ∈ role_selector_items →
     fst (handleRoleChange uid (fetchUsers uid profiles db) target newRole db) = RoleUpdated
     ∧ user_roles (snd (handleRoleChange uid (fetchUsers uid profiles db) target newRole db))
       = match newRole with
         | Some r => <[target := r]> (user_roles db)
         | None => delete target (user_roles db)
         end)
  ∧ (has_role db uid quality_head = false →
     ∀ users, snd (handleRoleChange uid users target newRole db) = db).
Proof.
  split; [apply role_selector_shown_iff|].
  split; [by decide_by_computation|].
  split.
  - intros Hqh Hin _ _.
    rewrite (handleRoleChange_quality_head db uid profiles target newRole Hqh Hin).
    split; [done|]. simpl.
    destruct newRole as [r|]; [done|].
    destruct (user_roles db !! target) eqn:Hold; [done|].
    simpl. by rewrite delete_id.
  - intros Hqh users. by apply handleRoleChange_other.
Qed.

(** quinn, quality head, gives nora the role of auditor. *)
Lemma role_changes_are_guarded_by_the_page_witness :
  let db := plant approved in
  let out := handleRoleChange quinn (fetchUsers quinn [alice; tom; hana; quinn; nora] db)
               nora (Some auditor) db in
  has_role db quinn quality_head = true
  ∧ nora ∈ [alice; tom; hana; quinn; nora]
  ∧ role_selector_shown (Some quinn)
      {| user_id := nora; user_role := user_roles db !! nora |} = true
  ∧ Some auditor ∈ role_selector_items
  ∧ fst out = RoleUpdated
  ∧ user_roles (snd out) !! nora = Some auditor.
Proof.
  intros db out.
  assert (has_role db quinn quality_head = true) as Hqh by reflexivity.
  assert (nora ∈ [alice; tom; hana; quinn; nora]) as Hin by decide_by_computation.
  assert (role_selector_shown (Some quinn)
            {| user_id := nora; user_role := user_roles db !! nora |} = true) as Hshown
    by reflexivity.
  assert (Some auditor ∈ role_selector_items) as Hitem by decide_by_computation.
  destruct (role_changes_are_guarded_by_the_page db quinn
              [alice; tom; hana; quinn; nora] nora (Some auditor))
    as (_ & _ & Hwrite & _).
  destruct (Hwrite Hqh Hin Hshown Hitem) as [Htoast Hroles].
  subst out. do 4 (split; [done|]). split; [exact Htoast|].
  rewrite Hroles. apply lookup_insert_eq.
Defined.

(** C8. The write path does not refuse a change of the acting identity's
    own role, nor of a role of quality_head: the policy "Quality head can
    manage roles" tests the sender's role and nothing of the target row,
    and [handleRoleChange] tests nothing. quinn, the only quality head,
    removes that role through [handleRoleChange]: the request is
    applied and reported as "Role Updated", and no quality head is left.
    With a second quality head (user 60) in the table, as quinn's own
    INSERT can make one, quinn's change of that user's role is applied
    as well. These are the statements
    DELETE FROM user_roles WHERE user_id = quinn and UPDATE user_roles
    SET role = 'auditor' WHERE user_id = 60 as the policy accepts them
    from quinn's session. *)
Lemma handleRoleChange_self_and_quality_head :
  let db := plant approved in
  let self := handleRoleChange quinn (fetchUsers quinn [alice; tom; hana; quinn; nora] db)
                quinn None db in
  let db2 := set_user_roles (insert 60 quality_head) db in
  let other := handleRoleChange quinn (fetchUsers quinn [quinn; 60] db2)
                 60 (Some auditor) db2 in
  fst self = RoleUpdated
  ∧ user_roles (snd self) !! quinn = None
  ∧ quality_head_exists (snd self) = false
  ∧ user_roles db2 !! 60 = Some quality_head
  ∧ fst other = RoleUpdated
  ∧ user_roles (snd other) !! 60 = Some auditor
  ∧ exec quinn (DeleteUserRole quinn) db = Ok (snd self)
  ∧ exec quinn (InsertUserRole 60 quality_head) db = Ok db2
  ∧ exec quinn (UpdateUserRole 60 auditor) db2 = Ok (snd other).
Proof. vm_compute. by repeat split. Qed.

(** * Deleting a specification (ProductSpecifications) *)

Lemma trigger_raises db spec :
  referenced db spec →
  prevent_used_specification_deletion db spec
  = Err (raise_exception
           (js "Cannot delete specification that is referenced by existing inspection results")).
Proof.
  intros (r & Hr & Hid). unfold prevent_used_specification_deletion.
  destruct (existsb _ _) eqn:Hex; [done|].
  exfalso. apply not_true_iff_false in Hex. apply Hex.
  apply existsb_exists. exists r. split; [by apply list_elem_of_In|].
  by apply bool_decide_eq_true_2.
Qed.

(** The row trigger stops the statement as soon as one of the rows to
    delete is referenced. *)
Lemma for_each_row_raises db targets spec :
  spec ∈ targets → referenced db spec →
  for_each_row (prevent_used_specification_deletion db) targets
  = Err (raise_exception
           (js "Cannot delete specification that is referenced by existing inspection results")).
Proof.
  induction targets as [|s targets IH]; intros Hin Href.
  - by apply elem_of_nil in Hin.
  - simpl. destruct (prevent_used_specification_deletion db s) as [old|e] eqn:Htrig.
    + simpl. apply elem_of_cons in Hin as [->|Hin]; [|by apply IH].
      by rewrite (trigger_raises db s Href) in Htrig.
    + simpl. unfold prevent_used_specification_deletion in Htrig.
      destruct (existsb _ (inspection_results db)); [|done]. by injection Htrig as <-.
Qed.

Lemma set_specifications_id db : set_specifications (specifications db) db = db.
Proof. by destruct db. Qed.

Lemma delete_specifications_quality_head db uid wh spec :
  spec ∈ specifications db → referenced db spec → wh spec = true →
  has_role db uid quality_head = true →
  delete_specifications uid wh db
  = Err (raise_exception
           (js "Cannot delete specification that is referenced by existing inspection results")).
Proof.
  intros Hin Href Hwh Hqh. unfold delete_specifications.
  rewrite (for_each_row_raises db _ spec); [done| |done].
  apply list_elem_of_filter. split; [|done].
  simpl. by rewrite Hwh, Hqh.
Qed.

(** For any other user the policy hides every row: the statement deletes
    nothing and raises nothing. *)
Lemma delete_specifications_other db uid wh :
  has_role db uid quality_head = false →
  delete_specifications uid wh db = Ok db.
Proof.
  intros Hqh. unfold delete_specifications.
  assert (filter (λ s, wh s && rls_using (specifications_policies db uid) s)
            (specifications db) = []) as ->.
  { induction (specifications db) as [|s l IH]; [done|].
    rewrite filter_cons_False; [done|]. simpl. rewrite Hqh. simpl.
    rewrite andb_false_r. by intros []. }
  simpl. destruct (existsb _ (inspection_results db)) eqn:Hex.
  { by apply existsb_exists in Hex as (r & _ & Hr). }
  unfold sql_delete. rewrite filter_all; [by rewrite set_specifications_id|].
  intros s _. simpl. rewrite Hqh. simpl. by rewrite andb_false_r.
Qed.

(** C9 (as amended). For a specification that some recorded result
    references, a DELETE that covers it leaves the specifications and the
    results as they were, whoever sends it: nothing cascades. Sent by a
    quality head (the role that may manage specifications) it fails with
    the trigger's exception, "Cannot delete specification that is
    referenced by existing inspection results", which [handleDelete]
    reports as "Cannot Delete Specification". Sent by any other user it
    matches no row under the policy: no error is raised, and
    [handleDelete] reports "Specification Deleted". *)
Theorem referenced_specification_cannot_be_deleted
  (db : Db) (uid : uuid) (wh : Specification → bool) (spec : Specification) :
  spec ∈ specifications db →
  referenced db spec →
  wh spec = true →
  specifications (after db (delete_specifications uid wh db)) = specifications db
  ∧ inspection_results (after db (delete_specifications uid wh db)) = inspection_results db
  ∧ (has_role db uid quality_head = true →
       delete_specifications uid wh db
       = Err (raise_exception
                (js "Cannot delete specification that is referenced by existing inspection results"))
       ∧ handleDelete uid true spec db = (CannotDeleteSpecification, db))
  ∧ (has_role db uid quality_head = false →
       delete_specifications uid wh db = Ok db
       ∧ handleDelete uid true spec db = (SpecificationDeleted, db)).
Proof.
  intros Hin Href Hwh.
  destruct (has_role db uid quality_head) eqn:Hqh.
  - rewrite (delete_specifications_quality_head db uid wh spec Hin Href Hwh Hqh).
    do 2 (split; [done|]). split; [|done]. intros _. split; [done|].
    unfold handleDelete. simpl.
    rewrite (delete_specifications_quality_head db uid _ spec Hin Href); [done| |done].
    by apply bool_decide_eq_true_2.
  - rewrite (delete_specifications_other db uid wh Hqh).
    do 3 (split; [done|]). intros _. split; [done|].
    unfold handleDelete. simpl. by rewrite (delete_specifications_other db uid _ Hqh).
Qed.

(** Scenario 5: quinn tries to delete the thickness specification, which
    result 1 references. *)
Lemma referenced_specification_cannot_be_deleted_witness :
  let db := plant approved in
  thickness ∈ specifications db
  ∧ referenced db thickness
  ∧ has_role db quinn quality_head = true
  ∧ handleDelete quinn true thickness db = (CannotDeleteSpecification, db)
  ∧ specifications (after db (delete_specifications quinn
                                (λ s, bool_decide (spec_id s = spec_id thickness)) db))
    = [thickness; camera].
Proof.
  intros db.
  assert (thickness ∈ specifications db) as Hin by (simpl; left).
  assert (referenced db thickness) as Href by (exists result_1; split; [simpl; left|done]).
  set (wh := λ s : Specification, bool_decide (spec_id s = spec_id thickness)).
  assert (wh thickness = true) as Hwh by reflexivity.
  assert (has_role db quinn quality_head = true) as Hrole by reflexivity.
  destruct (referenced_specification_cannot_be_deleted db quinn wh thickness Hin Href Hwh)
    as (Hspecs & _ & Hqh & _).
  destruct (Hqh Hrole) as [_ Htoast].
  do 3 (split; [done|]). split; [exact Htoast|exact Hspecs].
Defined.

(** C9 (as stated) fails: tom, a team leader, asks to delete the
    thickness specification, which result 1 references. The policy hides
    the row from his DELETE, so the trigger never runs: the statement
    succeeds on no row, no referential-integrity error is raised, and
    [handleDelete] reports "Specification Deleted". The specification
    stays. *)
Lemma referenced_specification_delete_by_other_reports_deleted :
  let db := plant approved in
  let wh := λ s, bool_decide (spec_id s = spec_id thickness) in
  thickness ∈ specifications db
  ∧ referenced db thickness
  ∧ user_roles db !! tom = Some team_leader
  ∧ delete_specifications tom wh db = Ok db
  ∧ handleDelete tom true thickness db = (SpecificationDeleted, db)
  ∧ handleDelete tom true thickness db ≠ (CannotDeleteSpecification, db).
Proof.
  intros db wh.
  split; [simpl; left|].
  split; [exists result_1; split; [simpl; left|done]|].
  split; [reflexivity|].
  assert (delete_specifications tom wh db = Ok db) as Hok by reflexivity.
  split; [exact Hok|].
  unfold handleDelete. cbn [negb]. fold wh. rewrite Hok. by split.
Qed.

(** * Records after a final decision *)

(** C1 at the failing input. Inspection 1 is approved, and alice, who
    created it, still adds, rewrites and removes its evidence: the policy
    "Auditors can manage inspection images" asks for the creator and for
    no status. *)
Theorem evidence_of_approved_inspection_is_writable :
  let db := plant approved in
  let late :=
    {| img_id := 0;
       img_inspection_id := 1;
       image_url := js "inspection-images/1/retake.png";
       description := None |} in
  let rewrite_url :=
    {| set_img_inspection_id := None;
       set_image_url := Some (js "inspection-images/1/other.png");
       set_description := None |} in
  get_inspection db 1 = Some (inspection_1 approved)
  ∧ inspection_images (after db (insert_inspection_image alice late db))
    = [image_1; with_img_id 2 late]
  ∧ inspection_images
      (after db (update_inspection_images alice (λ r, bool_decide (img_id r = 1))
                   rewrite_url db))
    = [patch_image rewrite_url image_1]
  ∧ inspection_images
      (after db (delete_inspection_images alice
                   (λ r, bool_decide (img_inspection_id r = 1)) db))
    = [].
Proof. vm_compute. by repeat split. Qed.

(** C2 at the failing input. Inspection 1 is rejected, and alice, who
    created it, still rewrites and removes its result rows: the policy
    "Auditors can manage inspection results" accepts the status rejected.
    Under the policy set of migration 20260104174944, before FIX 1, she
    can also put the inspection itself back to pending_team_leader. *)
Theorem results_of_rejected_inspection_are_writable :
  let db := plant rejected in
  let remeasure :=
    {| set_res_inspection_id := None;
       set_specification_id := None;
       set_actual_value := Some (js "10.9");
       set_is_pass := None;
       set_res_remarks := Some (Some (js "remeasured")) |} in
  let before_fix_1 :=
    {| auditor_resubmit_policy := true;
       user_roles := user_roles db;
       specifications := specifications db;
       inspections := inspections db;
       inspection_results := inspection_results db;
       inspection_images := inspection_images db;
       approval_history := approval_history db |} in
  get_inspection db 1 = Some (inspection_1 rejected)
  ∧ inspection_results
      (after db (update_inspection_results alice (λ r, bool_decide (res_id r = 1))
                   remeasure db))
    = [patch_result remeasure result_1]
  ∧ inspection_results
      (after db (delete_inspection_results alice
                   (λ r, bool_decide (res_inspection_id r = 1)) db))
    = []
  ∧ inspections
      (after before_fix_1
         (update_inspections alice (λ i, bool_decide (insp_id i = 1))
            (status_patch pending_team_leader) before_fix_1))
    = [inspection_1 pending_team_leader]
  ∧ inspections
      (after db
         (update_inspections alice (λ i, bool_decide (insp_id i = 1))
            (status_patch pending_team_leader) db))
    = [inspection_1 rejected].
Proof. vm_compute. by repeat split. Qed.

(** ** What the policies do freeze *)

(** Statements on other tables leave the inspections alone. *)
Lemma exec_inspections uid st db :
  match st with
  | InsertInspection _ | UpdateInspections _ _ | DeleteInspections _ => True
  | _ => inspections (after db (exec uid st db)) = inspections db
  end.
Proof.
  destruct st; simpl; try done.
  - unfold insert_inspection_results.
    destruct (sql_insert _ _ _); simpl; [|done]. by destruct (forallb _ _).
  - unfold update_inspection_results.
    destruct (sql_update _ _ _ _); simpl; [|done]. by destruct (forallb _ _).
  - unfold insert_inspection_image. by destruct (sql_insert _ _ _).
  - unfold update_inspection_images. by destruct (sql_update _ _ _ _).
  - unfold insert_approval_history.
    destruct (sql_insert _ _ _); simpl; [|done]. by destruct (inspection_exists _ _).
  - unfold update_approval_history. by destruct (sql_update _ _ _ _).
  - unfold insert_user_role. destruct (rls_check _ _); [|done].
    by destruct (bool_decide _).
  - unfold update_user_role. destruct (user_roles db !! target); [|done].
    destruct (rls_using _ _); [|done]. by destruct (rls_check _ _).
  - unfold delete_user_role. destruct (user_roles db !! target); [|done].
    by destruct (rls_using _ _).
  - unfold delete_specifications.
    destruct (for_each_row _ _); simpl; [|done]. by destruct (existsb _ _).
Qed.

(** No statement changes which policies are installed. *)
Lemma exec_policy uid st db :
  auditor_resubmit_policy (after db (exec uid st db)) = auditor_resubmit_policy db.
Proof.
  destruct st; simpl; try done.
  - unfold insert_inspection.
    destruct (sql_insert _ _ _); simpl; [|done]. by destruct (bool_decide _).
  - unfold update_inspections. by destruct (sql_update _ _ _ _).
  - unfold insert_inspection_results.
    destruct (sql_insert _ _ _); simpl; [|done]. by destruct (forallb _ _).
  - unfold update_inspection_results.
    destruct (sql_update _ _ _ _); simpl; [|done]. by destruct (forallb _ _).
  - unfold insert_inspection_image. by destruct (sql_insert _ _ _).
  - unfold update_inspection_images. by destruct (sql_update _ _ _ _).
  - unfold insert_approval_history.
    destruct (sql_insert _ _ _); simpl; [|done]. by destruct (inspection_exists _ _).
  - unfold update_approval_history. by destruct (sql_update _ _ _ _).
  - unfold insert_user_role. destruct (rls_check _ _); [|done].
    by destruct (bool_decide _).
  - unfold update_user_role. destruct (user_roles db !! target); [|done].
    destruct (rls_using _ _); [|done]. by destruct (rls_check _ _).
  - unfold delete_user_role. destruct (user_roles db !! target); [|done].
    by destruct (rls_using _ _).
  - unfold delete_specifications.
    destruct (for_each_row _ _); simpl; [|done]. by destruct (existsb _ _).
Qed.

(** A row that no UPDATE policy reads keeps its place and its content
    through any statement. *)
Lemma exec_keeps_unreadable_row uid st db k i :
  inspections db !! k = Some i →
  rls_using (inspections_update_policies db uid) i = false →
  inspections (after db (exec uid st db)) !! k = Some i.
Proof.
  intros Hk Hu.
  pose proof (exec_inspections uid st db) as Hother.
  destruct st; try (by rewrite Hother).
  - simpl. unfold insert_inspection, sql_insert.
    destruct (forallb _ _); simpl; [|done].
    destruct (bool_decide _); simpl; [done|].
    by apply lookup_app_l_Some.
  - simpl. unfold update_inspections.
    destruct (sql_update _ _ _ _) as [rows|] eqn:Hupd; simpl; [|done].
    by eapply sql_update_lookup.
  - change (inspections (after db (exec uid (DeleteInspections wh) db)))
      with (sql_delete [] wh (inspections db)).
    by rewrite sql_delete_nil.
Qed.

(** The immutability rule for the inspection row: along every history of
    statements, sent by whatever users, an approved inspection stays the
    row it was. *)
Theorem approved_inspection_is_frozen
  (trace : list (uuid * Stmt)) (db : Db) (k : nat) (i : Inspection) :
  inspections db !! k = Some i →
  status i = approved →
  inspections (run trace db) !! k = Some i.
Proof.
  revert db. induction trace as [|[uid st] trace IH]; intros db Hk Hs; [done|].
  simpl. apply IH; [|done].
  apply exec_keeps_unreadable_row; [done|]. by apply inspections_using_approved.
Qed.

Lemma approved_inspection_is_frozen_witness :
  let trace :=
    [(quinn, UpdateInspections (λ _, true) (status_patch rejected));
     (alice, UpdateInspections (λ _, true) (status_patch pending_team_leader));
     (alice, DeleteInspections (λ _, true))] in
  inspections (plant approved) !! 0 = Some (inspection_1 approved)
  ∧ status (inspection_1 approved) = approved
  ∧ inspections (run trace (plant approved)) = [inspection_1 approved].
Proof.
  intros trace.
  pose proof (approved_inspection_is_frozen trace (plant approved) 0
                (inspection_1 approved) eq_refl eq_refl) as H.
  do 2 (split; [reflexivity|]).
  assert (length (inspections (run trace (plant approved))) = 1) as Hlen by reflexivity.
  destruct (inspections (run trace (plant approved))) as [|i [|? ?]]; try done.
  simpl in H. by injection H as ->.
Defined.

(** Once the auditors' resubmit policy is dropped (FIX 1), the same holds
    for a rejected inspection. *)
Theorem rejected_inspection_is_frozen
  (trace : list (uuid * Stmt)) (db : Db) (k : nat) (i : Inspection) :
  auditor_resubmit_policy db = false →
  inspections db !! k = Some i →
  status i = rejected →
  inspections (run trace db) !! k = Some i.
Proof.
  revert db. induction trace as [|[uid st] trace IH]; intros db Hpol Hk Hs; [done|].
  simpl. apply IH; [by rewrite exec_policy| |done].
  apply exec_keeps_unreadable_row; [done|]. by apply inspections_using_rejected.
Qed.

Lemma rejected_inspection_is_frozen_witness :
  let trace :=
    [(alice, UpdateInspections (λ _, true) (status_patch pending_team_leader));
     (tom, UpdateInspections (λ _, true) (status_patch pending_hof_auditor))] in
  auditor_resubmit_policy (plant rejected) = false
  ∧ inspections (plant rejected) !! 0 = Some (inspection_1 rejected)
  ∧ status (inspection_1 rejected) = rejected
  ∧ inspections (run trace (plant rejected)) !! 0 = Some (inspection_1 rejected).
Proof.
  intros trace. do 3 (split; [reflexivity|]).
  by apply (rejected_inspection_is_frozen trace (plant rejected) 0 (inspection_1 rejected)).
Defined.

(** ** The results of an approved inspection *)

(** The policy on results refuses an approved inspection. *)
Lemma results_policy_approved db uid id r :
  has_status db id approved →
  res_inspection_id r = id →
  rls_using (inspection_results_policies db uid) r = false.
Proof.
  intros [_ Hs] Hid. simpl. rewrite orb_false_r.
  destruct (existsb _ (inspections db)) eqn:Hex; [|done].
  apply existsb_exists in Hex as (i & Hi%list_elem_of_In & H).
  apply andb_true_iff in H as [[Hi_id%bool_decide_eq_true _]%andb_true_iff Hst].
  rewrite (Hs i Hi) in Hst by congruence. done.
Qed.

Lemma results_check_not_approved db uid id r :
  has_status db id approved →
  rls_check (inspection_results_policies db uid) r = true →
  res_inspection_id r ≠ id.
Proof.
  intros Hs Hcheck Hid.
  pose proof (results_policy_approved db uid id r Hs Hid) as Hu.
  simpl in Hu, Hcheck. congruence.
Qed.

(** Statements keep an approved inspection approved. *)
Lemma exec_has_status_approved uid st db id :
  has_status db id approved → has_status (after db (exec uid st db)) id approved.
Proof.
  intros Hs. pose proof (exec_inspections uid st db) as Hother.
  destruct st; try (unfold has_status; by rewrite Hother).
  - simpl. unfold insert_inspection.
    destruct (sql_insert _ _ _) as [rows|] eqn:Hins; simpl; [|done].
    destruct (bool_decide _); simpl; [done|].
    apply sql_insert_inv in Hins as [-> _].
    destruct Hs as [Hin Hs]. unfold has_status. simpl. split.
    + rewrite fmap_app. apply elem_of_app. by left.
    + intros i [Hi|Hi%list_elem_of_singleton]%elem_of_app Hid; [by apply Hs|].
      subst i. simpl in Hid. subst id. by apply fresh_not_in in Hin.
  - simpl. unfold update_inspections.
    destruct (sql_update _ _ _ _) as [rows|] eqn:Hupd; simpl; [|done].
    apply sql_update_inv in Hupd as [-> _].
    destruct Hs as [Hin Hs].
    assert (∀ i, i ∈ inspections db → insp_id i = id →
              (if wh i && rls_using (inspections_update_policies db uid) i
               then patch_inspection p i else i) = i) as Hkeep.
    { intros i Hi Hid.
      by rewrite (inspections_using_approved db uid i (Hs i Hi Hid)), andb_false_r. }
    unfold has_status. simpl. split.
    + apply list_elem_of_fmap in Hin as (i & -> & Hi).
      rewrite <- list_fmap_compose. apply list_elem_of_fmap.
      exists i. split; [|done]. simpl. by rewrite (Hkeep i Hi eq_refl).
    + intros i' (i & -> & Hi)%list_elem_of_fmap Hid.
      assert (insp_id i = id) as Hid' by (by destruct (_ && _)).
      rewrite (Hkeep i Hi Hid'). by apply Hs.
  - unfold has_status, after, exec, delete_inspections. cbn [inspections].
    unfold inspections_delete_policies. by rewrite sql_delete_nil.
Qed.

(** Statements on other tables leave the results alone. *)
Lemma exec_results uid st db :
  match st with
  | InsertInspectionResults _ | UpdateInspectionResults _ _
  | DeleteInspectionResults _ | DeleteInspections _ => True
  | _ => inspection_results (after db (exec uid st db)) = inspection_results db
  end.
Proof.
  destruct st; simpl; try done.
  - unfold insert_inspection.
    destruct (sql_insert _ _ _); simpl; [|done]. by destruct (bool_decide _).
  - unfold update_inspections. by destruct (sql_update _ _ _ _).
  - unfold insert_inspection_image. by destruct (sql_insert _ _ _).
  - unfold update_inspection_images. by destruct (sql_update _ _ _ _).
  - unfold insert_approval_history.
    destruct (sql_insert _ _ _); simpl; [|done]. by destruct (inspection_exists _ _).
  - unfold update_approval_history. by destruct (sql_update _ _ _ _).
  - unfold insert_user_role. destruct (rls_check _ _); [|done].
    by destruct (bool_decide _).
  - unfold update_user_role. destruct (user_roles db !! target); [|done].
    destruct (rls_using _ _); [|done]. by destruct (rls_check _ _).
  - unfold delete_user_role. destruct (user_roles db !! target); [|done].
    by destruct (rls_using _ _).
  - unfold delete_specifications.
    destruct (for_each_row _ _); simpl; [|done]. by destruct (existsb _ _).
Qed.

Lemma exec_results_of_approved uid st db id :
  has_status db id approved →
  results_of (after db (exec uid st db)) id = results_of db id.
Proof.
  intros Hs. pose proof (exec_results uid st db) as Hother.
  destruct st; try (unfold results_of; by rewrite Hother).
  - (* DELETE FROM inspections: nothing is deleted, nothing cascades *)
    unfold results_of. simpl. f_equal.
    rewrite (filter_none _ (inspections db))
      by (intros i _; rewrite andb_false_r; intros []).
    apply filter_all. intros r _. apply not_elem_of_nil.
  - simpl. unfold insert_inspection_results.
    destruct (sql_insert _ _ _) as [rows|] eqn:Hins; simpl; [|done].
    destruct (forallb _ _); simpl; [|done].
    apply sql_insert_inv in Hins as [-> Hcheck].
    unfold results_of. simpl. rewrite filter_app.
    rewrite (filter_none _ (number_from _ _ _)); [by rewrite app_nil_r|].
    intros r Hr. by apply (results_check_not_approved db uid), Hcheck.
  - simpl. unfold update_inspection_results.
    destruct (sql_update _ _ _ _) as [rows|] eqn:Hupd; simpl; [|done].
    destruct (forallb _ _); simpl; [|done].
    apply sql_update_inv in Hupd as [-> Hcheck].
    unfold results_of. cbn [inspection_results set_inspection_results].
    apply filter_fmap_stable.
    + intros r _ Hid.
      by rewrite (results_policy_approved db uid id r Hs Hid), andb_false_r.
    + intros r Hr Hid. destruct (_ && _) eqn:Hhit; [|done].
      by apply (results_check_not_approved db uid), Hcheck.
  - unfold results_of, exec, delete_inspection_results, after.
    cbn [inspection_results set_inspection_results].
    unfold sql_delete. apply filter_filter_stable.
    intros r _ Hid.
    by rewrite (results_policy_approved db uid id r Hs Hid), andb_false_r.
Qed.

(** The immutability rule for results: along every history of
    statements, the result rows of an approved inspection stay exactly
    the rows they were, and none is added. *)
Theorem results_of_approved_inspection_are_frozen
  (trace : list (uuid * Stmt)) (db : Db) (id : uuid) :
  has_status db id approved →
  results_of (run trace db) id = results_of db id.
Proof.
  revert db. induction trace as [|[uid st] trace IH]; intros db Hs; [done|].
  simpl. rewrite IH by (by apply exec_has_status_approved).
  by apply exec_results_of_approved.
Qed.

Lemma results_of_approved_inspection_are_frozen_witness :
  let remeasure :=
    {| set_res_inspection_id := None;
       set_specification_id := None;
       set_actual_value := Some (js "10.9");
       set_is_pass := None;
       set_res_remarks := None |} in
  let trace :=
    [(alice, UpdateInspectionResults (λ _, true) remeasure);
     (alice, DeleteInspectionResults (λ _, true));
     (quinn, InsertInspectionResults [result_1])] in
  has_status (plant approved) 1 approved
  ∧ results_of (run trace (plant approved)) 1 = [result_1].
Proof.
  intros remeasure trace.
  assert (has_status (plant approved) 1 approved) as Hs.
  { split; [simpl; left|].
    intros i Hi _. apply list_elem_of_singleton in Hi. by subst i. }
  split; [exact Hs|].
  by rewrite (results_of_approved_inspection_are_frozen trace (plant approved) 1 Hs).
Defined.

(** ** The ledger is append-only *)

Lemma exec_history uid st db :
  match st with
  | InsertApprovalHistory _ | UpdateApprovalHistory _ _
  | DeleteApprovalHistory _ | DeleteInspections _ => True
  | _ => approval_history (after db (exec uid st db)) = approval_history db
  end.
Proof.
  destruct st; simpl; try done.
  - unfold insert_inspection.
    destruct (sql_insert _ _ _); simpl; [|done]. by destruct (bool_decide _).
  - unfold update_inspections. by destruct (sql_update _ _ _ _).
  - unfold insert_inspection_results.
    destruct (sql_insert _ _ _); simpl; [|done]. by destruct (forallb _ _).
  - unfold update_inspection_results.
    destruct (sql_update _ _ _ _); simpl; [|done]. by destruct (forallb _ _).
  - unfold insert_inspection_image. by destruct (sql_insert _ _ _).
  - unfold update_inspection_images. by destruct (sql_update _ _ _ _).
  - unfold insert_user_role. destruct (rls_check _ _); [|done].
    by destruct (bool_decide _).
  - unfold update_user_role. destruct (user_roles db !! target); [|done].
    destruct (rls_using _ _); [|done]. by destruct (rls_check _ _).
  - unfold delete_user_role. destruct (user_roles db !! target); [|done].
    by destruct (rls_using _ _).
  - unfold delete_specifications.
    destruct (for_each_row _ _); simpl; [|done]. by destruct (existsb _ _).
Qed.

Lemma exec_history_prefix uid st db :
  approval_history db `prefix_of` approval_history (after db (exec uid st db)).
Proof.
  pose proof (exec_history uid st db) as Hother.
  destruct st; try (by rewrite Hother).
  - (* DELETE FROM inspections: nothing is deleted, nothing cascades *)
    simpl. rewrite (filter_none _ (inspections db))
      by (intros i _; rewrite andb_false_r; intros []).
    rewrite filter_all; [done|]. intros r _. apply not_elem_of_nil.
  - simpl. unfold insert_approval_history.
    destruct (sql_insert _ _ _) as [rows|] eqn:Hins; simpl; [|done].
    destruct (inspection_exists _ _); simpl; [|done].
    apply sql_insert_inv in Hins as [-> _]. by apply prefix_app_r.
  - unfold after, exec, update_approval_history, approval_history_write_policies.
    rewrite sql_update_untouched; [done|].
    intros r _. by rewrite rls_using_nil, andb_false_r.
  - unfold after, exec, delete_approval_history, approval_history_write_policies.
    cbn [approval_history set_approval_history]. by rewrite sql_delete_nil.
Qed.

(** Along every history of statements the ledger only grows at its end:
    no entry is rewritten, removed or reordered. *)
Theorem approval_history_is_append_only (trace : list (uuid * Stmt)) (db : Db) :
  approval_history db `prefix_of` approval_history (run trace db).
Proof.
  revert db. induction trace as [|[uid st] trace IH]; intros db; [done|].
  simpl. etrans; [apply exec_history_prefix|apply IH].
Qed.

(** ** Status changes at the database *)

(** Whatever statement a user sends, each inspection keeps its place in
    the table, and its status either stays, or moves by a row of the
    transition table for the role the sender holds, or (only while the
    auditors' resubmit policy is installed) goes from rejected back to
    pending_team_leader at the hands of the auditor who created it. The
    policies test the role and the status, old and new: nothing is said
    here of the other columns. *)
Theorem status_changes_follow_the_table
  (uid : uuid) (st : Stmt) (db : Db) (k : nat) (i : Inspection) :
  inspections db !! k = Some i →
  ∃ i', inspections (after db (exec uid st db)) !! k = Some i'
        ∧ (status i' = status i
           ∨ (∃ role action,
                user_roles db !! uid = Some role
                ∧ transition_table (status i) role action = Some (status i'))
           ∨ (auditor_resubmit_policy db = true
              ∧ user_roles db !! uid = Some auditor
              ∧ created_by i = uid
              ∧ status i = rejected
              ∧ status i' = pending_team_leader)).
Proof.
  intros Hk.
  pose proof (exec_inspections uid st db) as Hother.
  destruct st; try (exists i; rewrite Hother; by eauto).
  - exists i. split; [|by eauto]. simpl. unfold insert_inspection, sql_insert.
    destruct (forallb _ _); simpl; [|done].
    destruct (bool_decide _); simpl; [done|]. by apply lookup_app_l_Some.
  - simpl. unfold update_inspections.
    destruct (sql_update _ _ _ _) as [rows|] eqn:Hupd; simpl; [|by eauto 6].
    apply sql_update_inv in Hupd as [-> Hcheck].
    rewrite list_lookup_fmap, Hk. simpl.
    destruct (wh i && _) eqn:Hhit; [|by eauto 6].
    eexists. split; [done|].
    specialize (Hcheck i (proj2 (list_elem_of_lookup _ _) (ex_intro _ k Hk)) Hhit).
    apply andb_true_iff in Hhit as [_ Hu].
    destruct (user_roles db !! uid) as [role|] eqn:Hrole.
    + rewrite (inspections_using db uid role _ Hrole) in Hu.
      rewrite (inspections_check db uid role _ Hrole) in Hcheck.
      destruct (bool_decide (created_by i = uid)) eqn:Hcreator.
      * apply bool_decide_eq_true in Hcreator.
        destruct role, (status i), (status (patch_inspection p i)),
          (auditor_resubmit_policy db); simpl in Hu, Hcheck;
          rewrite ?andb_false_r in Hu, Hcheck; try done;
          try (by destruct (bool_decide (default _ _ = uid)));
          first [ by left
                | by right; left; eexists _, action_approved
                | by right; left; eexists _, action_rejected
                | by right; right ].
      * destruct role, (status i), (status (patch_inspection p i)),
          (auditor_resubmit_policy db); simpl in Hu, Hcheck;
          rewrite ?andb_false_r in Hu, Hcheck; try done;
          try (by destruct (bool_decide (default _ _ = uid)));
          first [ by left
                | by right; left; eexists _, action_approved
                | by right; left; eexists _, action_rejected ].
    + exfalso. unfold rls_using, inspections_update_policies in Hu.
      destruct (auditor_resubmit_policy db); simpl in Hu;
        rewrite !(has_role_none db uid _ Hrole) in Hu; done.
  - exists i. split; [|by eauto].
    unfold after, exec, delete_inspections. cbn [inspections].
    unfold inspections_delete_policies. by rewrite sql_delete_nil.
Qed.

Lemma status_changes_follow_the_table_witness :
  let db := plant pending_hof_auditor in
  inspections db !! 0 = Some (inspection_1 pending_hof_auditor)
  ∧ inspections (after db (exec hana (UpdateInspections (λ _, true)
                                       (status_patch approved)) db))
    = [inspection_1 pending_hof_auditor]
  ∧ inspections (after db (exec hana (UpdateInspections (λ _, true)
                                       (status_patch pending_quality_head)) db))
    = [inspection_1 pending_quality_head].
Proof.
  intros db.
  assert (inspections db !! 0 = Some (inspection_1 pending_hof_auditor)) as Hk
    by reflexivity.
  destruct (status_changes_follow_the_table hana
              (UpdateInspections (λ _, true) (status_patch approved)) db 0
              (inspection_1 pending_hof_auditor) Hk) as (i' & _ & _).
  by repeat split.
Defined.

(** * Registration *)

Lemma quality_head_exists_iff db :
  quality_head_exists db = true ↔ ∃ u, user_roles db !! u = Some quality_head.
Proof.
  unfold quality_head_exists. rewrite bool_decide_eq_true, map_Exists_lookup.
  split.
  - intros (u & r & Hu & ->). by exists u.
  - intros (u & Hu). by exists u, quality_head.
Qed.


Lemma exec_assign_role uid u code db :
  after db (exec uid (AssignRoleAfterRegistration u code) db)
  = set_user_roles (insert u (get_role_for_registration_code db code)) db.
Proof. reflexivity. Qed.

Lemma get_role_quality_head db code :
  get_role_for_registration_code db code = quality_head
  ↔ code = bootstrap_code ∧ quality_head_exists db = false.
Proof.
  unfold get_role_for_registration_code.
  case_bool_decide; destruct (quality_head_exists db); simpl; intuition congruence.
Qed.

Lemma bootstrap_code_not_empty : bootstrap_code ≠ [].
Proof. done. Qed.

(** [signUp], case by case. *)
Lemma signUp_cases response registrationCode db :
  signUp response registrationCode db
  = let proceed role :=
      match response with
      | auth_error msg => (Some (AuthFailed msg), db)
      | auth_data (Some user) => (None, set_user_roles (insert user role) db)
      | auth_data None => (None, db)
      end in
    if bool_decide (registrationCode = bootstrap_code) then
      if quality_head_exists db then (Some AlreadyInitialized, db)
      else proceed quality_head
    else if bool_decide (registrationCode = []) then
      if quality_head_exists db then proceed auditor
      else (Some NotInitialized, db)
    else (Some InvalidRegistrationCode, db).
Proof.
  unfold signUp, validate_registration_code, assign_role_after_registration,
    get_role_for_registration_code.
  pose proof bootstrap_code_not_empty as Hne. cbv zeta.
  destruct (decide (registrationCode = bootstrap_code)) as [->|Hb].
  - rewrite (bool_decide_eq_true_2 (Some bootstrap_code = Some bootstrap_code)) by done.
    rewrite (bool_decide_eq_true_2 (bootstrap_code = bootstrap_code)) by done.
    destruct (quality_head_exists db); [done|].
    by destruct response as [msg|[user|]].
  - rewrite (bool_decide_eq_false_2 (Some registrationCode = Some bootstrap_code))
      by congruence.
    rewrite (bool_decide_eq_false_2 (registrationCode = bootstrap_code)) by done.
    destruct (decide (registrationCode = [])) as [->|He].
    + rewrite (bool_decide_eq_true_2 (Some [] = Some [])) by done.
      rewrite (bool_decide_eq_true_2 ([] = [])) by done. cbn [orb andb negb].
      destruct (quality_head_exists db); [|done].
      by destruct response as [msg|[user|]].
    + rewrite (bool_decide_eq_false_2 (Some registrationCode = Some [])) by congruence.
      by rewrite (bool_decide_eq_false_2 (registrationCode = [])).
Qed.

(** Which sign-ups are refused, and that a refused one writes nothing. *)
Theorem signUp_refusals (response : AuthResponse) (registrationCode : jsstring) (db : Db) :
  let out := signUp response registrationCode db in
  (fst out = Some AlreadyInitialized
   ↔ registrationCode = bootstrap_code ∧ quality_head_exists db = true)
  ∧ (fst out = Some NotInitialized
     ↔ registrationCode = [] ∧ quality_head_exists db = false)
  ∧ (fst out = Some InvalidRegistrationCode
     ↔ registrationCode ≠ bootstrap_code ∧ registrationCode ≠ [])
  ∧ (fst out ≠ None → snd out = db).
Proof.
  cbv zeta. rewrite signUp_cases. cbv zeta.
  pose proof bootstrap_code_not_empty as Hne.
  case_bool_decide as Hb; [subst registrationCode|case_bool_decide as He];
    destruct (quality_head_exists db); try destruct response as [msg|[user|]];
    cbn [fst snd]; repeat split; intros; try done; try intuition congruence.
Qed.

(** Served alone, the three requests are [signUp]. *)
Lemma signUp_concurrent_alone response registrationCode db :
  signUp_concurrent None [] response registrationCode db
  = signUp response registrationCode db.
Proof.
  unfold signUp_concurrent, signUp.
  by destruct (validate_registration_code db (Some registrationCode)).
Qed.




(** ** The role assignment rpc *)

Lemma run_app trace1 trace2 db : run (trace1 ++ trace2) db = run trace2 (run trace1 db).
Proof.
  revert db. induction trace1 as [|[uid st] trace1 IH]; intros db; [done|].
  simpl. apply IH.
Qed.

Lemma empty_code_role db : get_role_for_registration_code db [] = auditor.
Proof. reflexivity. Qed.

(** Registering users again with an empty code makes them auditors. *)
Lemma run_register_again uid (l : list uuid) db :
  run ((λ q, (uid, AssignRoleAfterRegistration q [])) <$> l) db
  = set_user_roles (λ m, foldl (λ m q, <[q := auditor]> m) m l) db.
Proof.
  revert db. induction l as [|q l IH]; intros db; [by destruct db|].
  rewrite fmap_cons. simpl. rewrite IH. by destruct db.
Qed.

Lemma lookup_foldl_insert (l : list uuid) (m : gmap uuid AppRole) k :
  foldl (λ m q, <[q := auditor]> m) m l !! k
  = if bool_decide (k ∈ l) then Some auditor else m !! k.
Proof.
  revert m. induction l as [|q l IH]; intros m; [done|].
  simpl. rewrite IH.
  destruct (decide (k ∈ l)) as [Hin|Hin].
  - rewrite !bool_decide_eq_true_2; [done| |done]. by right.
  - rewrite (bool_decide_eq_false_2 (k ∈ l)) by done.
    destruct (decide (k = q)) as [->|Hne].
    + rewrite lookup_insert_eq, bool_decide_eq_true_2; [done|]. by left.
    + rewrite lookup_insert_ne by done.
      rewrite bool_decide_eq_false_2; [done|]. by intros [?|?]%elem_of_cons.
Qed.

Lemma elem_of_quality_heads db u :
  u ∈ quality_heads db ↔ user_roles db !! u = Some quality_head.
Proof.
  unfold quality_heads. rewrite list_elem_of_fmap. split.
  - intros ([u' r] & -> & H%elem_of_map_to_list).
    apply map_lookup_filter_Some in H as [H Hr]. simpl in *. by subst r.
  - intros H. exists (u, quality_head). split; [done|].
    apply elem_of_map_to_list, map_lookup_filter_Some. done.
Qed.

(** [assign_role_after_registration] is open to every caller and takes
    the user to register as an argument: whatever the roles are, any user
    can send rpc calls after which that user holds quality_head and
    nobody else does. *)
Theorem assign_role_rpc_lets_anyone_take_over (uid : uuid) (db : Db) :
  Forall (λ sent, sent.1 = uid) (takeover uid db)
  ∧ ∀ u, user_roles (run (takeover uid db) db) !! u = Some quality_head ↔ u = uid.
Proof.
  split.
  - unfold takeover. apply Forall_app. split.
    + apply Forall_fmap, Forall_forall. by intros q _.
    + by repeat constructor.
  - unfold takeover. rewrite run_app, run_register_again. simpl.
    set (db1 := set_user_roles _ db).
    assert (∀ u, user_roles db1 !! u ≠ Some quality_head) as Hnone.
    { intros u. subst db1. simpl. rewrite lookup_foldl_insert.
      case_bool_decide as Hin; [done|]. by rewrite <- elem_of_quality_heads. }
    assert (quality_head_exists db1 = false) as Hqh.
    { apply not_true_iff_false. intros (u & Hu)%quality_head_exists_iff.
      by apply (Hnone u). }
    assert (get_role_for_registration_code db1 bootstrap_code = quality_head) as ->
      by (by apply get_role_quality_head).
    intros u. simpl. destruct (decide (u = uid)) as [->|Hne].
    + by rewrite lookup_insert_eq.
    + rewrite lookup_insert_ne by done. split; [|done].
      intros Hu. by apply Hnone in Hu.
Qed.

(** * Trimming *)

Lemma trimStart_clean s : clean (trimStart s).
Proof.
  induction s as [|c s IH]; [done|]. simpl.
  destruct (isWhiteSpace c) eqn:Hc; [done|]. done.
Qed.

Lemma trimStart_id s : clean s → trimStart s = s.
Proof. destruct s as [|c s]; [done|]. simpl. by intros ->. Qed.

Lemma trimStart_snoc s c :
  isWhiteSpace c = false → trimStart (s ++ [c]) = trimStart s ++ [c].
Proof.
  intros Hc. induction s as [|d s IH]; simpl; [by rewrite Hc|].
  by destruct (isWhiteSpace d).
Qed.

Lemma trimEnd_clean s : clean s → clean (trimEnd s).
Proof.
  destruct s as [|c s]; [done|]. simpl. intros Hc. unfold trimEnd.
  rewrite reverse_cons || simpl.
  change (rev (c :: s)) with (rev s ++ [c]).
  rewrite trimStart_snoc by done. by rewrite rev_app_distr.
Qed.

Lemma trim_idemp s : trim (trim s) = trim s.
Proof.
  unfold trim.
  rewrite (trimStart_id (trimEnd (trimStart s)))
    by apply trimEnd_clean, trimStart_clean.
  unfold trimEnd at 1. unfold trimEnd. rewrite rev_involutive.
  by rewrite (trimStart_id (trimStart _)) by apply trimStart_clean.
Qed.

Lemma truthy_ne s : truthy s = true ↔ s ≠ [].
Proof. by destruct s. Qed.

Lemma or_null_trim_idemp s : or_null (trim (default [] (or_null (trim s)))) = or_null (trim s).
Proof.
  unfold or_null. destruct (truthy (trim s)) eqn:Ht; simpl.
  - by rewrite trim_idemp, Ht.
  - done.
Qed.

(** * Saving specifications (ProductSpecifications) *)

Lemma specifications_using db uid s :
  rls_using (specifications_policies db uid) s = has_role db uid quality_head.
Proof. unfold rls_using. simpl. by rewrite orb_false_r. Qed.

Lemma specifications_check db uid s :
  rls_check (specifications_policies db uid) s = has_role db uid quality_head.
Proof. unfold rls_check. simpl. by rewrite orb_false_r. Qed.

Lemma insert_specification_cases db uid new :
  insert_specification uid new db
  = if has_role db uid quality_head
    then Ok (set_specifications
               (specifications db
                ++ [with_spec_id (fresh (spec_id <$> specifications db)) new]) db)
    else Err rls_violation.
Proof.
  unfold insert_specification, sql_insert. cbn [forallb].
  rewrite specifications_check, andb_true_r.
  by destruct (has_role db uid quality_head).
Qed.

Lemma update_specifications_cases db uid wh set :
  update_specifications uid wh set db
  = if has_role db uid quality_head
    then Ok (set_specifications ((λ s, if wh s then set s else s) <$> specifications db) db)
    else Ok db.
Proof.
  unfold update_specifications.
  destruct (has_role db uid quality_head) eqn:Hqh.
  - rewrite sql_update_spec.
    + cbn [mbind result_bind]. do 2 f_equal.
      apply Forall_fmap_ext_1, Forall_forall. intros s _.
      by rewrite specifications_using, Hqh, andb_true_r.
    + intros s _ _. by rewrite specifications_check.
  - rewrite sql_update_untouched.
    + cbn [mbind result_bind]. by rewrite set_specifications_id.
    + intros s _. by rewrite specifications_using, Hqh, andb_false_r.
Qed.

(** What [handleSubmit] does with a form that passes its checks. *)
Lemma spec_handleSubmit_complete parseFloat uid st db :
  complete (ProductSpecifications.formData st) →
  ProductSpecifications.handleSubmit parseFloat uid st db
  = match ProductSpecifications.editingSpec st with
    | Some editing =>
        match update_specifications uid (λ s, bool_decide (spec_id s = spec_id editing))
                (λ old, with_spec_id (spec_id old) (ProductSpecifications.specData parseFloat st)) db with
        | Err _ => (ProductSpecifications.FailedToSave, db)
        | Ok db' => (ProductSpecifications.SpecificationUpdated, db')
        end
    | None =>
        match insert_specification uid (ProductSpecifications.specData parseFloat st) db with
        | Err _ => (ProductSpecifications.FailedToSave, db)
        | Ok db' => (ProductSpecifications.SpecificationAdded, db')
        end
    end.
Proof.
  intros [Hname Htype]. unfold ProductSpecifications.handleSubmit.
  apply truthy_ne in Hname. rewrite Hname. simpl.
  destruct (ProductSpecifications.fd_specification_type _); simpl;
    try apply truthy_ne in Htype; by rewrite ?Htype.
Qed.

Lemma spec_handleSubmit_incomplete parseFloat uid st db :
  ¬ complete (ProductSpecifications.formData st) →
  snd (ProductSpecifications.handleSubmit parseFloat uid st db) = db
  ∧ fst (ProductSpecifications.handleSubmit parseFloat uid st db)
    ∈ [ProductSpecifications.ParameterNameRequired;
       ProductSpecifications.StandardValueRequired;
       ProductSpecifications.ConditionDescriptionRequired;
       ProductSpecifications.TestDescriptionRequired].
Proof.
  intros Hinc. unfold ProductSpecifications.handleSubmit.
  destruct (truthy (trim (ProductSpecifications.fd_parameter_name _))) eqn:Hname; simpl;
    [|split; [done|set_solver]].
  apply truthy_ne in Hname.
  destruct (ProductSpecifications.fd_specification_type _) eqn:Hty; simpl.
  - destruct (truthy (trim (ProductSpecifications.fd_standard_value _))) eqn:Hv; simpl;
      [|split; [done|set_solver]].
    exfalso. apply Hinc. split; [done|]. rewrite Hty. by apply truthy_ne.
  - destruct (truthy (trim (ProductSpecifications.fd_condition_description _))) eqn:Hv;
      simpl; [|split; [done|set_solver]].
    exfalso. apply Hinc. split; [done|]. rewrite Hty. by apply truthy_ne.
  - destruct (truthy (trim (ProductSpecifications.fd_test_description _))) eqn:Hv;
      simpl; [|split; [done|set_solver]].
    exfalso. apply Hinc. split; [done|]. rewrite Hty. by apply truthy_ne.
  - exfalso. apply Hinc. split; [done|]. by rewrite Hty.
Qed.

Lemma complete_dec f : complete f ∨ ¬ complete f.
Proof.
  unfold complete.
  destruct (decide (trim (ProductSpecifications.fd_parameter_name f) = [])) as [?|?];
    [right; tauto|].
  destruct (ProductSpecifications.fd_specification_type f).
  - destruct (decide (trim (ProductSpecifications.fd_standard_value f) = [])); tauto.
  - destruct (decide (trim (ProductSpecifications.fd_condition_description f) = [])); tauto.
  - destruct (decide (trim (ProductSpecifications.fd_test_description f) = [])); tauto.
  - tauto.
Qed.

Lemma specData_well_formed parseFloat st k :
  complete (ProductSpecifications.formData st) →
  well_formed (with_spec_id k (ProductSpecifications.specData parseFloat st)).
Proof.
  intros [Hname Htype]. unfold well_formed. simpl.
  split; [done|]. split; [apply trim_idemp|].
  destruct (ProductSpecifications.fd_specification_type _); simpl in *; by repeat split.
Qed.

(** Whatever the form holds and whoever sends it, a row of the table
    after [handleSubmit] is a row that was there or a well-formed one:
    the page keeps the table well formed. *)
Theorem page_writes_well_formed_specifications
  (parseFloat : jsstring → jsnumber) (uid : uuid) (st : ProductSpecifications.State) (db : Db) (s : Specification) :
  s ∈ specifications (snd (ProductSpecifications.handleSubmit parseFloat uid st db)) →
  s ∈ specifications db ∨ well_formed s.
Proof.
  destruct (complete_dec (ProductSpecifications.formData st)) as [Hc|Hinc].
  - rewrite (spec_handleSubmit_complete parseFloat uid st db Hc).
    destruct (ProductSpecifications.editingSpec st) as [editing|].
    + rewrite update_specifications_cases.
      destruct (has_role db uid quality_head); simpl; [|by left].
      intros (old & -> & Hold)%list_elem_of_fmap.
      destruct (bool_decide _); [right|by left].
      by apply specData_well_formed.
    + rewrite insert_specification_cases.
      destruct (has_role db uid quality_head); simpl; [|by left].
      intros [Hs|Hs%list_elem_of_singleton]%elem_of_app; [by left|right].
      subst s. by apply specData_well_formed.
  - destruct (spec_handleSubmit_incomplete parseFloat uid st db Hinc) as [-> _]. by left.
Qed.

(** quinn saves the narrowed thickness check. *)
Lemma page_writes_well_formed_specifications_witness :
  let s :=
    with_spec_id 1 (ProductSpecifications.specData parseFloat_exact editing_thickness) in
  s ∈ specifications
        (snd (ProductSpecifications.handleSubmit parseFloat_exact quinn editing_thickness
                (plant approved)))
  ∧ (s ∈ specifications (plant approved) ∨ well_formed s).
Proof.
  intros s.
  assert (s ∈ specifications
                (snd (ProductSpecifications.handleSubmit parseFloat_exact quinn
                        editing_thickness (plant approved)))) as Hin
    by (vm_compute; left).
  split; [exact Hin|].
  exact (page_writes_well_formed_specifications parseFloat_exact quinn editing_thickness
           (plant approved) s Hin).
Defined.

(** Without quality_head the page writes nothing. An addition is
    reported as failed; an edit matches no row under the policy and is
    reported as done. *)
Theorem only_quality_head_saves_specifications
  (parseFloat : jsstring → jsnumber) (uid : uuid) (st : ProductSpecifications.State)
  (db : Db) :
  has_role db uid quality_head = false →
  snd (ProductSpecifications.handleSubmit parseFloat uid st db) = db
  ∧ (complete (ProductSpecifications.formData st) →
     fst (ProductSpecifications.handleSubmit parseFloat uid st db)
     = match ProductSpecifications.editingSpec st with
       | Some _ => ProductSpecifications.SpecificationUpdated
       | None => ProductSpecifications.FailedToSave
       end).
Proof.
  intros Hqh.
  assert (complete (ProductSpecifications.formData st) →
          ProductSpecifications.handleSubmit parseFloat uid st db
          = (match ProductSpecifications.editingSpec st with
             | Some _ => ProductSpecifications.SpecificationUpdated
             | None => ProductSpecifications.FailedToSave
             end, db)) as Hout.
  { intros Hc. rewrite (spec_handleSubmit_complete parseFloat uid st db Hc).
    destruct (ProductSpecifications.editingSpec st) as [editing|].
    - by rewrite update_specifications_cases, Hqh.
    - by rewrite insert_specification_cases, Hqh. }
  destruct (complete_dec (ProductSpecifications.formData st)) as [Hc|Hinc].
  - rewrite (Hout Hc). by split.
  - split; [|done]. by apply spec_handleSubmit_incomplete.
Qed.

(** A quality head's edit is applied to the row of that id whether or
    not recorded results reference it: the results and the inspections
    stay as they were. *)
Theorem edit_of_specification_is_applied
  (parseFloat : jsstring → jsnumber) (uid : uuid) (st : ProductSpecifications.State)
  (db : Db) (editing : Specification) :
  has_role db uid quality_head = true →
  complete (ProductSpecifications.formData st) →
  ProductSpecifications.editingSpec st = Some editing →
  let out := ProductSpecifications.handleSubmit parseFloat uid st db in
  fst out = ProductSpecifications.SpecificationUpdated
  ∧ specifications (snd out)
    = (λ s, if bool_decide (spec_id s = spec_id editing)
            then with_spec_id (spec_id s) (ProductSpecifications.specData parseFloat st)
            else s) <$> specifications db
  ∧ inspection_results (snd out) = inspection_results db
  ∧ inspections (snd out) = inspections db.
Proof.
  intros Hqh Hc Hedit. simpl.
  rewrite (spec_handleSubmit_complete parseFloat uid st db Hc), Hedit.
  by rewrite update_specifications_cases, Hqh.
Qed.

(** ** Deleting a specification that no result references *)

Lemma for_each_row_ok db targets :
  (∀ s, s ∈ targets → ¬ referenced db s) →
  for_each_row (prevent_used_specification_deletion db) targets = Ok ().
Proof.
  induction targets as [|s targets IH]; intros Hfree; [done|].
  cbn [for_each_row].
  destruct (prevent_used_specification_deletion db s) as [old|e] eqn:Htrig.
  - cbn [mbind result_bind]. apply IH. intros s' Hs'. apply Hfree. by right.
  - exfalso. unfold prevent_used_specification_deletion in Htrig.
    destruct (existsb _ (inspection_results db)) eqn:Hex; [|done].
    apply existsb_exists in Hex as (r & Hr%list_elem_of_In & Hid).
    apply bool_decide_eq_true in Hid. apply (Hfree s); [left|]. by exists r.
Qed.

(** [handleDelete] on a specification that no result references. A
    quality head's request removes the rows of that id and nothing else;
    anybody else's matches no row under the policy, and is reported as
    deleted all the same. A dismissed dialog sends nothing. *)
Theorem unreferenced_specification_is_deleted
  (db : Db) (uid : uuid) (spec : Specification) :
  (∀ s, s ∈ specifications db → spec_id s = spec_id spec → ¬ referenced db s) →
  handleDelete uid true spec db
  = (SpecificationDeleted,
     if has_role db uid quality_head
     then set_specifications
            (filter (λ s, spec_id s ≠ spec_id spec) (specifications db)) db
     else db)
  ∧ handleDelete uid false spec db = (NotConfirmed, db).
Proof.
  intros Hfree. split; [|done]. unfold handleDelete. simpl.
  destruct (has_role db uid quality_head) eqn:Hqh;
    [|by rewrite delete_specifications_other].
  unfold delete_specifications.
  set (targets := filter _ (specifications db)).
  assert (∀ s, s ∈ targets → s ∈ specifications db ∧ spec_id s = spec_id spec) as Ht.
  { intros s [[Hid%bool_decide_unpack _]%andb_True Hs]%list_elem_of_filter.
    done. }
  rewrite for_each_row_ok by (intros s [? ?]%Ht; by apply Hfree).
  cbn [mbind result_bind].
  destruct (existsb _ (inspection_results db)) eqn:Hex.
  - exfalso. apply existsb_exists in Hex as (r & Hr%list_elem_of_In & Hid).
    apply bool_decide_eq_true, list_elem_of_fmap in Hid as (s & Hid & Hs).
    destruct (Ht s Hs) as [Hin Heq]. apply (Hfree s Hin Heq). by exists r.
  - do 3 f_equal. unfold sql_delete.
    apply list_filter_iff. intros s.
    rewrite specifications_using, Hqh, andb_true_r.
    destruct (bool_decide (spec_id s = spec_id spec)) eqn:Hb; simpl.
    + apply bool_decide_eq_true in Hb. split; [by intros []|done].
    + apply bool_decide_eq_false in Hb. done.
Qed.

Lemma only_quality_head_saves_specifications_witness :
  has_role (plant approved) tom quality_head = false
  ∧ complete (ProductSpecifications.formData editing_thickness)
  ∧ ProductSpecifications.handleSubmit parseFloat_exact tom editing_thickness (plant approved)
    = (ProductSpecifications.SpecificationUpdated, plant approved).
Proof.
  assert (has_role (plant approved) tom quality_head = false) as Hqh by reflexivity.
  assert (complete (ProductSpecifications.formData editing_thickness)) as Hc
    by (by split).
  destruct (only_quality_head_saves_specifications parseFloat_exact tom editing_thickness
              (plant approved) Hqh) as [Hdb Htoast].
  do 2 (split; [done|]).
  rewrite (surjective_pairing (ProductSpecifications.handleSubmit _ _ _ _)).
  by rewrite Hdb, (Htoast Hc).
Defined.

(** quinn narrows the tolerance of the thickness check, which result 1 of
    the approved inspection references: the specification changes, the
    result keeps its value 10.5 and its pass flag. *)
Lemma edit_of_specification_is_applied_witness :
  let out :=
    ProductSpecifications.handleSubmit parseFloat_exact quinn editing_thickness
      (plant approved) in
  has_role (plant approved) quinn quality_head = true
  ∧ referenced (plant approved) thickness
  ∧ fst out = ProductSpecifications.SpecificationUpdated
  ∧ (tolerance_min <$> specifications (snd out)) = [Some (53 # 5); None]
  ∧ inspection_results (snd out) = [result_1].
Proof.
  intros out.
  assert (has_role (plant approved) quinn quality_head = true) as Hqh by reflexivity.
  assert (complete (ProductSpecifications.formData editing_thickness)) as Hc
    by (by split).
  destruct (edit_of_specification_is_applied parseFloat_exact quinn editing_thickness
              (plant approved) thickness Hqh Hc eq_refl) as (Htoast & Hspecs & Hres & _).
  split; [done|]. split; [exists result_1; split; [simpl; left|done]|].
  split; [exact Htoast|]. split; [|exact Hres].
  subst out. rewrite Hspecs. reflexivity.
Defined.

Lemma unreferenced_specification_is_deleted_witness :
  (∀ s, s ∈ specifications (plant approved) → spec_id s = spec_id camera →
        ¬ referenced (plant approved) s)
  ∧ specifications (snd (handleDelete quinn true camera (plant approved))) = [thickness]
  ∧ handleDelete alice true camera (plant approved)
    = (SpecificationDeleted, plant approved).
Proof.
  assert (∀ s, s ∈ specifications (plant approved) → spec_id s = spec_id camera →
               ¬ referenced (plant approved) s) as Hfree.
  { intros s _ Hid (r & Hr & Href). apply list_elem_of_singleton in Hr. subst r.
    simpl in Href. rewrite Hid in Href. done. }
  destruct (unreferenced_specification_is_deleted (plant approved) quinn camera Hfree)
    as [Hquinn _].
  destruct (unreferenced_specification_is_deleted (plant approved) alice camera Hfree)
    as [Halice _].
  split; [exact Hfree|]. split; [by rewrite Hquinn|exact Halice].
Defined.

(** ** Opening the edit dialog on a saved specification *)

Lemma or_else_empty s : ProductSpecifications.or_else s [] = default [] s.
Proof. destruct s as [[|c s]|]; done. Qed.

Lemma reopened_text s :
  trim (ProductSpecifications.or_else (Some (trim s)) []) = trim s.
Proof. rewrite or_else_empty. simpl. apply trim_idemp. Qed.

Lemma reopened_nullable s :
  or_null (trim (ProductSpecifications.or_else (or_null (trim s)) [])) = or_null (trim s).
Proof. rewrite or_else_empty. apply or_null_trim_idemp. Qed.

Lemma reopened_number parseFloat toString (ty_dimensional : bool) (s : jsstring) :
  (∀ q, parseFloat s = Finite q → parseFloat (toString q) = Finite q ∧ toString q ≠ []) →
  let saved :=
    if ty_dimensional && truthy s
    then ProductSpecifications.json_number (parseFloat s) else None in
  let reopened := ProductSpecifications.or_else (toString <$> saved) [] in
  (if ty_dimensional && truthy reopened
   then ProductSpecifications.json_number (parseFloat reopened) else None) = saved.
Proof.
  intros Hround. simpl.
  destruct (ty_dimensional && truthy s) eqn:Hdim; [|by rewrite andb_false_r].
  apply andb_true_iff in Hdim as [-> _]. simpl.
  destruct (parseFloat s) as [|q| |] eqn:Hs; simpl; try done.
  destruct (Hround q eq_refl) as [Hq Hne].
  rewrite !(proj2 (truthy_ne _) Hne). by rewrite Hq.
Qed.

(** Saving, opening the edit dialog on the saved row and saving again
    without touching the form sends the same row: the form reads back
    what it wrote. The tolerances go through [toString] and [parseFloat];
    a tolerance that was stored has to read back as the same number. *)
Theorem reopened_specification_saves_unchanged
  (parseFloat : jsstring → jsnumber) (toString : Q → jsstring)
  (st st' : ProductSpecifications.State) (k : uuid) :
  (∀ q, parseFloat (ProductSpecifications.fd_tolerance_min (ProductSpecifications.formData st))
        = Finite q →
        parseFloat (toString q) = Finite q ∧ toString q ≠ []) →
  (∀ q, parseFloat (ProductSpecifications.fd_tolerance_max (ProductSpecifications.formData st))
        = Finite q →
        parseFloat (toString q) = Finite q ∧ toString q ≠ []) →
  ProductSpecifications.route_id st' = ProductSpecifications.route_id st →
  let saved := with_spec_id k (ProductSpecifications.specData parseFloat st) in
  ProductSpecifications.specData parseFloat
    (ProductSpecifications.handleOpenDialog toString (Some saved) st')
  = ProductSpecifications.specData parseFloat st.
Proof.
  intros Hmin Hmax Hroute. unfold ProductSpecifications.specData. simpl.
  rewrite Hroute.
  set (f := ProductSpecifications.formData st).
  pose proof (reopened_number parseFloat toString
                (bool_decide (ProductSpecifications.fd_specification_type f = dimensional))
                (ProductSpecifications.fd_tolerance_min f) Hmin) as Htmin.
  pose proof (reopened_number parseFloat toString
                (bool_decide (ProductSpecifications.fd_specification_type f = dimensional))
                (ProductSpecifications.fd_tolerance_max f) Hmax) as Htmax.
  simpl in Htmin, Htmax. rewrite Htmin, Htmax.
  rewrite !orb_false_r.
  f_equal;
    try (destruct (ProductSpecifications.fd_specification_type f); simpl);
    try done;
    first [apply trim_idemp|apply reopened_text|apply reopened_nullable
          |f_equal; first [apply trim_idemp|apply reopened_text]].
Qed.

Lemma reopened_specification_saves_unchanged_witness :
  let toString := λ q : Q, if Qeq_bool q (53 # 5) then js "10.6" else js "10.8" in
  let saved :=
    with_spec_id 1 (ProductSpecifications.specData parseFloat_exact editing_thickness) in
  tolerance_min saved = Some (53 # 5)
  ∧ tolerance_max saved = Some (54 # 5)
  ∧ ProductSpecifications.specData parseFloat_exact
      (ProductSpecifications.handleOpenDialog toString (Some saved) editing_thickness)
    = ProductSpecifications.specData parseFloat_exact editing_thickness.
Proof.
  intros toString saved. do 2 (split; [reflexivity|]).
  apply (reopened_specification_saves_unchanged parseFloat_exact toString
           editing_thickness editing_thickness 1).
  - intros q Hq. vm_compute in Hq. injection Hq as <-. by split.
  - intros q Hq. vm_compute in Hq. injection Hq as <-. by split.
  - reflexivity.
Defined.

(** * The dashboard *)

Lemma pending_prefix s :
  starts_with (status_text s) (js "pending_") = true ↔ s ≠ approved ∧ s ≠ rejected.
Proof. destruct s; vm_compute; intuition congruence. Qed.

(** The three counts of a list of inspections add up to its length. *)
Lemma status_counts (l : list Inspection) :
  length l
  = length (filter (λ i, starts_with (status_text (status i)) (js "pending_")) l)
    + length (filter (λ i, status i = approved) l)
    + length (filter (λ i, status i = rejected) l).
Proof.
  induction l as [|i l IH]; [done|].
  rewrite !filter_cons. simpl length at 1. rewrite IH.
  destruct (status i) eqn:Hs; simpl; repeat case_decide; simpl; try done; try lia.
Qed.

Lemma reviewer_filter_keeps_all (s : InspectionStatus) (l : list Inspection) :
  filter (λ i, bool_decide (status i = s)
               || existsb (λ ins, bool_decide (insp_id ins = insp_id i)) l) l = l.
Proof.
  apply filter_all. intros i Hi.
  apply Is_true_true, orb_true_iff. right.
  apply existsb_exists. exists i. split; [by apply list_elem_of_In|].
  by apply bool_decide_eq_true_2.
Qed.

(** The cards of the dashboard. Total is the sum of the three other
    cards. An auditor's cards count the inspections that auditor created;
    for every other role the filter keeps every inspection, so the card a
    team leader or H.O.F auditor reads as "Awaiting Your Review" counts
    the inspections pending at any of the three stages. *)
Theorem dashboard_cards (profile : uuid) (role : AppRole) (inspections : list Inspection) :
  let stats := fst (Dashboard.fetchDashboardData profile role inspections) in
  Dashboard.stats_total stats
  = Dashboard.stats_pending stats + Dashboard.stats_approved stats
    + Dashboard.stats_rejected stats
  ∧ (role = auditor →
     Dashboard.stats_total stats
     = length (filter (λ i, created_by i = profile) inspections))
  ∧ (role ≠ auditor →
     Dashboard.stats_total stats = length inspections
     ∧ Dashboard.stats_pending stats
       = length (filter (λ i, status i ≠ approved ∧ status i ≠ rejected) inspections)).
Proof.
  simpl. split; [apply status_counts|]. split; [by intros ->|].
  intros Hrole.
  assert (Dashboard.filteredInspections profile role inspections = inspections) as ->.
  { destruct role; simpl; [done| | |done]; apply reviewer_filter_keeps_all. }
  split; [done|]. f_equal. apply list_filter_iff. intros i.
  rewrite <- pending_prefix. apply Is_true_true.
Qed.

(** * The list of inspections and the timeline *)

Lemma canApprove_iff i uid role c :
  canApprove (page_of i uid role c) = true
  ↔ role ≠ auditor ∧ status i = roleStatusMap role.
Proof.
  unfold canApprove. simpl.
  case_bool_decide as Hrole; [subst role; intuition congruence|].
  rewrite bool_decide_eq_true. tauto.
Qed.

(** For a reviewer, the inspections the alert "awaiting your review"
    counts are the listed inspections on whose page the review card is
    offered. For an auditor the alert counts the rejected inspections,
    and no page offers the card. *)
Theorem actionable_inspections_are_the_reviewable_ones
  (role : AppRole) (uid : uuid) (c : jsstring) (listed : list Inspection) (i : Inspection) :
  (role ≠ auditor →
   (i ∈ Inspections.getActionableInspections (Some role) listed
    ↔ i ∈ listed ∧ canApprove (page_of i uid role c) = true))
  ∧ (role = auditor →
     (i ∈ Inspections.getActionableInspections (Some role) listed
      ↔ i ∈ listed ∧ status i = rejected)
     ∧ canApprove (page_of i uid role c) = false).
Proof.
  rewrite canApprove_iff. split.
  - intros Hrole. destruct role; simpl; [done|..];
      rewrite list_elem_of_filter; intuition congruence.
  - intros ->. simpl. rewrite list_elem_of_filter. split; [tauto|].
    apply not_true_iff_false. rewrite canApprove_iff. tauto.
Qed.

(** The timeline marks a step as active ("Awaiting review...") exactly
    when the role of that step is the one whose holders are offered the
    review card; once the inspection is approved every step is complete. *)
Theorem active_step_is_the_reviewer
  (i : Inspection) (approvalHistory : list ApprovalHistory) (index : nat) (role : AppRole)
  (uid : uuid) (c : jsstring) :
  WorkflowTimeline.workflowOrder !! index = Some role →
  (WorkflowTimeline.getStepStatus (status i) approvalHistory index
   = WorkflowTimeline.step_active
   ↔ canApprove (page_of i uid role c) = true)
  ∧ (status i = approved →
     WorkflowTimeline.getStepStatus (status i) approvalHistory index
     = WorkflowTimeline.step_complete).
Proof.
  intros Hindex. rewrite canApprove_iff.
  unfold WorkflowTimeline.getStepStatus.
  destruct index as [|[|[|[|index]]]]; simplify_eq/=;
    destruct (status i) eqn:Hs; simpl;
    try (split; [intuition congruence|done]).
  all: destruct (head _) as [rejection|]; simpl;
    [destruct (approver_role rejection); simpl|];
    split; try done; intuition congruence.
Qed.

Lemma active_step_is_the_reviewer_witness :
  WorkflowTimeline.workflowOrder !! 2 = Some hof_auditor
  ∧ WorkflowTimeline.getStepStatus pending_hof_auditor [] 2 = WorkflowTimeline.step_active
  ∧ canApprove (page_of (inspection_1 pending_hof_auditor) hana hof_auditor []) = true.
Proof.
  assert (WorkflowTimeline.workflowOrder !! 2 = Some hof_auditor) as Hindex by reflexivity.
  destruct (active_step_is_the_reviewer (inspection_1 pending_hof_auditor) [] 2
              hof_auditor hana [] Hindex) as [Hiff _].
  split; [done|]. split; [reflexivity|]. by apply Hiff.
Defined.

(** On a rejected inspection the timeline shows no step as complete or
    active: the step of the role that rejected first is marked rejected
    and every other step is shown as pending, the steps that had approved
    before included. *)
Theorem timeline_of_rejected_inspection
  (approvalHistory : list ApprovalHistory) (index : nat) (role : AppRole) :
  WorkflowTimeline.workflowOrder !! index = Some role →
  WorkflowTimeline.getStepStatus rejected approvalHistory index
  = if bool_decide (approver_role <$> first_rejection approvalHistory = Some role)
    then WorkflowTimeline.step_rejected
    else WorkflowTimeline.step_pending.
Proof.
  intros Hindex. unfold WorkflowTimeline.getStepStatus, first_rejection.
  destruct index as [|[|[|[|index]]]]; simplify_eq/=;
    destruct (head _) as [rejection|]; simpl; try done;
    by destruct (approver_role rejection).
Qed.

(** tom approved, then hana rejected: the team leader's step is shown as
    pending, hana's as rejected. *)
Lemma timeline_of_rejected_inspection_witness :
  let ledger :=
    [with_ah_id 1 (history_entry (inspection_1 pending_team_leader) tom team_leader
                     action_approved pending_hof_auditor (js "ok"));
     with_ah_id 2 (history_entry (inspection_1 pending_hof_auditor) hana hof_auditor
                     action_rejected rejected (js "scratches"))] in
  WorkflowTimeline.workflowOrder !! 1 = Some team_leader
  ∧ WorkflowTimeline.getStepStatus rejected ledger 1 = WorkflowTimeline.step_pending
  ∧ WorkflowTimeline.getStepStatus rejected ledger 2 = WorkflowTimeline.step_rejected.
Proof.
  intros ledger.
  assert (WorkflowTimeline.workflowOrder !! 1 = Some team_leader) as Hindex by reflexivity.
  split; [done|]. split; [|reflexivity].
  by rewrite (timeline_of_rejected_inspection ledger 1 team_leader Hindex).
Defined.

(** * Inspection numbers *)

Lemma read_digits_uint (d : Decimal.uint) (acc : N) (n : nat) :
  read_digits (uint_digits d) acc n
  = (N.of_nat (Nat.of_uint_acc d (N.to_nat acc)), n + length (uint_digits d), []).
Proof.
  revert acc n. induction d; intros acc n; simpl.
  1: by rewrite N2Nat.id, Nat.add_0_r.
  all: rewrite IHd, Nat.tail_mul_spec; f_equal; f_equal; [do 2 f_equal; lia|lia].
Qed.

Lemma read_digits_zeros (k : nat) (s : jsstring) (n : nat) :
  read_digits (replicate k 48%N ++ s) 0 n = read_digits s 0 (n + k).
Proof.
  revert n. induction k as [|k IH]; intros n; simpl; [by rewrite Nat.add_0_r|].
  rewrite IH. f_equal. lia.
Qed.

Lemma counter_digits (c : nat) :
  c < 100 * 100 → length (uint_digits (Nat.to_uint c)) ≤ 4.
Proof.
  intros Hc. simpl in Hc.
  assert (forallb (λ c, length (uint_digits (Nat.to_uint c)) <=? 4) (seq 0 (100 * 100)) = true)
    as Hall by (vm_compute; reflexivity).
  rewrite forallb_forall in Hall.
  apply Nat.leb_le, Hall, in_seq. lia.
Qed.

(** The four characters after the date read back as the counter. *)
Lemma counter_reads_back (c : nat) :
  c < 100 * 100 →
  read_digits (lpad (uint_digits (Nat.to_uint c)) 4 48%N) 0 0 = (N.of_nat c, 4, []).
Proof.
  intros Hc. pose proof (counter_digits c Hc) as Hlen.
  unfold lpad. rewrite bool_decide_eq_true_2 by done.
  rewrite read_digits_zeros, read_digits_uint.
  change (N.to_nat 0) with 0.
  replace (Nat.of_uint_acc (Nat.to_uint c) 0) with c
    by (symmetry; apply Unsigned.of_to).
  f_equal. f_equal. lia.
Qed.

Lemma generate_inspection_number_inv today1 today2 db1 db2 :
  length today1 = length today2 →
  generate_inspection_number today1 db1 = generate_inspection_number today2 db2 →
  today1 = today2
  ∧ lpad (uint_digits (Nat.to_uint (length (inspections db1) + 1))) 4 48%N
    = lpad (uint_digits (Nat.to_uint (length (inspections db2) + 1))) 4 48%N.
Proof.
  unfold generate_inspection_number. intros Hlen Heq.
  apply app_inv_head in Heq. apply app_inj_1 in Heq as [Htoday Heq]; [|done].
  by apply app_inv_head in Heq.
Qed.

(** The number of a new inspection names the day and the count of
    inspections so far plus one, on four digits. Below ten thousand
    (100 * 100) inspections, two numbers of days written alike are equal
    only for the same day and the same count; LPAD cuts a longer count to
    its first four digits, so the ten-thousandth number repeats the
    thousandth of the same day. *)
Theorem inspection_numbers (today1 today2 : jsstring) (db1 db2 : Db) :
  (length today1 = length today2 →
   length (inspections db1) + 1 < 100 * 100 →
   length (inspections db2) + 1 < 100 * 100 →
   generate_inspection_number today1 db1 = generate_inspection_number today2 db2 →
   today1 = today2 ∧ length (inspections db1) = length (inspections db2))
  ∧ (today1 = today2 →
     length (inspections db1) + 1 = 1000 →
     length (inspections db2) + 1 = 100 * 100 →
     generate_inspection_number today1 db1 = generate_inspection_number today2 db2).
Proof.
  split.
  - intros Hlen H1 H2 Heq.
    apply generate_inspection_number_inv in Heq as [Htoday Heq]; [|done].
    split; [done|].
    apply (f_equal (λ s, read_digits s 0%N 0)) in Heq.
    rewrite !counter_reads_back in Heq by done.
    injection Heq as Heq. lia.
  - intros -> H1 H2. unfold generate_inspection_number. rewrite H1, H2.
    by do 3 f_equal.
Qed.

(** When the number [generate_inspection_number] gives is already taken,
    [handleSubmit] creates nothing: inspection_number is UNIQUE. *)
Theorem taken_number_blocks_submission
  (uid : uuid) (today : jsstring) (f : CreateInspection) (db : Db) :
  generate_inspection_number today db ∈ inspection_number <$> inspections db →
  snd (handleSubmit uid today f db) = db
  ∧ ∀ n, fst (handleSubmit uid today f db) ≠ Created n.
Proof.
  intros Htaken. unfold handleSubmit.
  destruct (selectedProduct f) as [product|]; [|done].
  destruct (form_profile f) as [profile|]; [|done].
  destruct (missingValues f) as [[|]|]; try done.
  destruct (missingRemarks f) as [[|]|]; try done.
  unfold insert_inspection.
  destruct (sql_insert _ _ _) as [rows|]; cbn [mbind result_bind]; [|done].
  cbn [inspection_number with_insp_id].
  by rewrite bool_decide_eq_true_2.
Qed.

(** The only inspection of the day was sent with the number 0002, not
    through the page; alice's submission is given the same number and
    fails. *)
Lemma taken_number_blocks_submission_witness :
  let today := js "20260105" in
  let db :=
    set_inspections
      [ {| insp_id := 1;
           inspection_number := js "INS-20260105-0002";
           insp_product_id := 1;
           created_by := alice;
           status := pending_team_leader;
           batch_number := None;
           insp_remarks := None |} ] empty_plant in
  let f :=
    with_results [set_input_actual_value (js "10.5") (initial_result thickness)]
      blank_form in
  generate_inspection_number today db ∈ inspection_number <$> inspections db
  ∧ handleSubmit alice today f db = (FailedToCreate, db).
Proof.
  intros today db f.
  assert (generate_inspection_number today db ∈ inspection_number <$> inspections db)
    as Htaken by (simpl; left).
  destruct (taken_number_blocks_submission alice today f db Htaken) as [Hdb _].
  split; [done|].
  rewrite (surjective_pairing (handleSubmit alice today f db)), Hdb.
  by f_equal.
Defined.

(** * Reviews along a history *)








(** * Provenance of ledger entries *)

Lemma exec_history_sender uid st db h :
  h ∈ approval_history (after db (exec uid st db)) →
  h ∈ approval_history db ∨ approver_id h = uid.
Proof.
  pose proof (exec_history uid st db) as Hother.
  destruct st; try (rewrite Hother; by left).
  - simpl. intros [_ Hh]%list_elem_of_filter. by left.
  - simpl. unfold insert_approval_history.
    destruct (sql_insert _ _ _) as [rows|] eqn:Hins; cbn [mbind result_bind after];
      [|by left].
    destruct (inspection_exists _ _); cbn [after]; [|by left].
    apply sql_insert_inv in Hins as [-> Hcheck]. simpl.
    intros [Hh|Hh]%elem_of_app; [by left|right].
    specialize (Hcheck h Hh). unfold rls_check in Hcheck. simpl in Hcheck.
    rewrite orb_false_r in Hcheck. by apply bool_decide_eq_true in Hcheck.
  - unfold after, exec, update_approval_history, approval_history_write_policies.
    rewrite sql_update_untouched; [by left|].
    intros r _. by rewrite rls_using_nil, andb_false_r.
  - unfold after, exec, delete_approval_history, approval_history_write_policies.
    cbn [approval_history set_approval_history]. rewrite sql_delete_nil. by left.
Qed.

(** Nobody writes a ledger entry in another user's name: along every
    history of statements, an entry that was not there at the start
    names as its approver the sender of one of the statements. *)
Theorem ledger_entries_name_their_sender
  (trace : list (uuid * Stmt)) (db : Db) (h : ApprovalHistory) :
  h ∈ approval_history (run trace db) →
  h ∈ approval_history db ∨ approver_id h ∈ trace.*1.
Proof.
  revert db. induction trace as [|[uid st] trace IH]; intros db; [by left|].
  simpl. intros [Hh|Hh]%IH.
  - apply exec_history_sender in Hh as [Hh| ->]; [by left|right; left].
  - right. by right.
Qed.

(** tom cannot sign as quinn: the entry that names quinn is refused, the
    one that names tom is appended (with the role it claims). *)
Lemma ledger_entries_name_their_sender_witness :
  let forged := history_entry (inspection_1 approved) quinn quality_head action_approved
                  approved (js "fine") in
  let signed := history_entry (inspection_1 approved) tom quality_head action_approved
                  approved (js "fine") in
  let trace := [(tom, InsertApprovalHistory forged); (tom, InsertApprovalHistory signed)] in
  approval_history (run trace (plant approved)) = [with_ah_id 1 signed]
  ∧ (with_ah_id 1 signed ∈ approval_history (plant approved)
     ∨ approver_id (with_ah_id 1 signed) ∈ trace.*1).
Proof.
  intros forged signed trace.
  assert (approval_history (run trace (plant approved)) = [with_ah_id 1 signed]) as Hrun
    by reflexivity.
  split; [done|].
  apply (ledger_entries_name_their_sender trace (plant approved)).
  rewrite Hrun. left.
Defined.

(** * What a decision may write *)

(** The UPDATE policies on inspections test the role and the status, old
    and new, and no other column: the statement by which a reviewer moves
    an inspection along the table may set the batch number, the remarks,
    the product and the creator as well (to a product and a creator that
    inspections already name, so that the foreign keys hold). *)
Theorem decision_may_rewrite_the_record
  (db : Db) (uid : uuid) (role : AppRole) (action : Action) (new : InspectionStatus)
  (i : Inspection) (p : InspectionPatch) :
  NoDup (insp_id <$> inspections db) →
  i ∈ inspections db →
  user_roles db !! uid = Some role →
  transition_table (status i) role action = Some new →
  set_status p = Some new →
  default (insp_product_id i) (set_product_id p) ∈ insp_product_id <$> inspections db →
  default (created_by i) (set_created_by p) ∈ created_by <$> inspections db →
  update_inspections uid (λ r, bool_decide (insp_id r = insp_id i)) p db
  = Ok (set_inspections
          ((λ r, if bool_decide (insp_id r = insp_id i) then patch_inspection p r else r)
             <$> inspections db) db).
Proof.
  intros Hnd Hin Hrole Htable Hp _ _. unfold update_inspections.
  assert (∀ r, r ∈ inspections db → insp_id r = insp_id i → r = i)
    as Hkey by (intros r Hr; by apply insp_id_inj with (inspections db)).
  assert (rls_using (inspections_update_policies db uid) i = true) as Hu.
  { rewrite (inspections_using db uid role i Hrole).
    destruct (status i), role, action; simplify_eq/=; by rewrite ?orb_true_r. }
  assert (rls_check (inspections_update_policies db uid) (patch_inspection p i) = true)
    as Hc.
  { rewrite (inspections_check db uid role _ Hrole). cbn [status patch_inspection].
    rewrite Hp. cbn [default].
    destruct (status i), role, action; simplify_eq/=; by rewrite ?orb_true_r. }
  rewrite sql_update_spec; cbn [mbind result_bind].
  - do 2 f_equal. apply Forall_fmap_ext_1, Forall_forall. intros r Hr.
    case_bool_decide as Hid; [|done]. by rewrite (Hkey r Hr Hid), Hu.
  - intros r Hr [Hid%bool_decide_eq_true _]%andb_true_iff.
    by rewrite (Hkey r Hr Hid).
Qed.

(** tom forwards inspection 1 to the H.O.F auditor and, in the same
    statement, rewrites its batch number and remarks. *)
Lemma decision_may_rewrite_the_record_witness :
  let p :=
    {| set_product_id := None;
       set_created_by := None;
       set_status := Some pending_hof_auditor;
       set_batch_number := Some (Some (js "B-2"));
       set_remarks := Some (Some (js "checked twice")) |} in
  let db := plant pending_team_leader in
  inspections (after db (update_inspections tom (λ r, bool_decide (insp_id r = 1)) p db))
  = [ {| insp_id := 1;
         inspection_number := js "INS-20260105-0001";
         insp_product_id := 1;
         created_by := alice;
         status := pending_hof_auditor;
         batch_number := Some (js "B-2");
         insp_remarks := Some (js "checked twice") |} ].
Proof.
  intros p db.
  change (λ r, bool_decide (insp_id r = 1))
    with (λ r, bool_decide (insp_id r = insp_id (inspection_1 pending_team_leader))).
  rewrite (decision_may_rewrite_the_record db tom team_leader action_approved
             pending_hof_auditor (inspection_1 pending_team_leader) p).
  - reflexivity.
  - apply NoDup_singleton.
  - simpl. left.
  - reflexivity.
  - reflexivity.
  - reflexivity.
  - simpl. left.
  - simpl. left.
Defined.

(** * Submitting an inspection *)

Lemma inspections_insert_check db uid i :
  rls_check (inspections_insert_policies db uid) i
  = has_role db uid auditor && bool_decide (created_by i = uid).
Proof. unfold rls_check. simpl. by rewrite orb_false_r. Qed.

Lemma insert_inspection_cases db uid new :
  insert_inspection uid new db
  = let row := with_insp_id (fresh (insp_id <$> inspections db)) new in
    if has_role db uid auditor && bool_decide (created_by new = uid)
    then if bool_decide (inspection_number new ∈ inspection_number <$> inspections db)
         then Err unique_violation
         else Ok (row, set_inspections (inspections db ++ [row]) db)
    else Err rls_violation.
Proof.
  unfold insert_inspection, sql_insert. cbn [forallb].
  rewrite inspections_insert_check, andb_true_r. cbn [created_by with_insp_id].
  by destruct (_ && _).
Qed.

Lemma number_from_length {R} (with_id : uuid → R → R) n (l : list R) :
  length (number_from with_id n l) = length l.
Proof. revert n. induction l as [|r l IH]; intros n; simpl; [done|]. by rewrite IH. Qed.

Lemma number_from_fmap {R B} (with_id : uuid → R → R) (g : R → B) n (l : list R) :
  (∀ k r, g (with_id k r) = g r) →
  g <$> number_from with_id n l = g <$> l.
Proof.
  intros Hg. revert n. induction l as [|r l IH]; intros n; simpl; [done|].
  by rewrite Hg, IH.
Qed.

Lemma number_from_Forall {R} (with_id : uuid → R → R) (P : R → Prop) n (l : list R) :
  (∀ k r, P r → P (with_id k r)) →
  Forall P l → Forall P (number_from with_id n l).
Proof.
  intros HP H. revert n. induction H as [|r l Hr _ IH]; intros n; simpl; [done|].
  constructor; [by apply HP|apply IH].
Qed.

Lemma insert_inspection_results_inv db uid new db' :
  insert_inspection_results uid new db = Ok db' →
  let rows := number_from with_res_id (fresh (res_id <$> inspection_results db)) new in
  db' = set_inspection_results (inspection_results db ++ rows) db
  ∧ Forall (λ r, specification_id r ∈ spec_id <$> specifications db) rows.
Proof.
  unfold insert_inspection_results.
  destruct (sql_insert _ _ _) as [rows|] eqn:Hins; cbn [mbind result_bind]; [|done].
  destruct (forallb _ _) eqn:Hfk; [|done]. intros [= <-].
  apply sql_insert_inv in Hins as [-> _]. split; [done|].
  apply Forall_forall. intros r Hr. rewrite forallb_forall in Hfk.
  specialize (Hfk r (proj1 (list_elem_of_In _ _) Hr)).
  by apply bool_decide_eq_true in Hfk.
Qed.

Lemma resultsToInsert_columns f inspection_id rows :
  resultsToInsert f inspection_id = Some rows →
  Forall (λ r, res_inspection_id r = inspection_id) rows
  ∧ specification_id <$> rows = inp_specification_id <$> form_results f.
Proof.
  intros H%js_map_Forall2.
  induction H as [|r row rs rows' (k & Hrow) _ [IH1 IH2]]; [done|].
  destruct (form_specifications f !! k); simpl in Hrow; [|done].
  injection Hrow as <-. split; [by constructor|]. rewrite !fmap_cons. by f_equal.
Qed.

(** What a successful submission has written: one inspection, numbered
    by [generate_inspection_number], created by the sender, who holds
    auditor, and one result for each row of the form, in the order of the
    form, each for that inspection and for a specification that exists. *)
Theorem submitted_inspection_is_recorded
  (uid : uuid) (today : jsstring) (f : CreateInspection) (db : Db) (n : jsstring) :
  fst (handleSubmit uid today f db) = Created n →
  ∃ row rows,
    inspections (snd (handleSubmit uid today f db)) = inspections db ++ [row]
    ∧ inspection_results (snd (handleSubmit uid today f db))
      = inspection_results db ++ rows
    ∧ n = generate_inspection_number today db
    ∧ inspection_number row = n
    ∧ (insp_id row ∉ insp_id <$> inspections db)
    ∧ created_by row = uid
    ∧ has_role db uid auditor = true
    ∧ Some (insp_product_id row) = selectedProduct f
    ∧ Forall (λ r, res_inspection_id r = insp_id row) rows
    ∧ specification_id <$> rows = inp_specification_id <$> form_results f
    ∧ Forall (λ r, specification_id r ∈ spec_id <$> specifications db) rows.
Proof.
  unfold handleSubmit.
  destruct (selectedProduct f) as [product|]; [|done].
  destruct (form_profile f) as [profile|]; [|done].
  destruct (missingValues f) as [[|]|]; try done.
  destruct (missingRemarks f) as [[|]|]; try done.
  rewrite insert_inspection_cases. cbn zeta. cbn [created_by inspection_number].
  destruct (has_role db uid auditor) eqn:Hrole; [|done].
  destruct (bool_decide (profile = uid)) eqn:Hprofile; [|done].
  apply bool_decide_eq_true in Hprofile. subst profile. cbn [andb].
  destruct (bool_decide (_ ∈ _)); [done|].
  set (row := with_insp_id _ _).
  destruct (resultsToInsert f (insp_id row)) as [new|] eqn:Hnew; [|done].
  destruct (insert_inspection_results uid new _) as [db2|] eqn:Hres; [|done].
  intros [= <-].
  apply insert_inspection_results_inv in Hres as [-> Hfk].
  apply resultsToInsert_columns in Hnew as [Hlink Hspecs].
  eexists row, _. cbn [snd inspections inspection_results set_inspection_results
                       set_inspections].
  split; [done|]. split; [done|]. split; [done|]. split; [done|].
  split; [apply fresh_not_in|]. split; [done|]. split; [done|]. split; [done|].
  split; [|split; [|exact Hfk]].
  - by apply number_from_Forall.
  - by rewrite (number_from_fmap with_res_id specification_id).
Qed.

(** alice fills in the thickness and submits. *)
Lemma submitted_inspection_is_recorded_witness :
  let f :=
    with_results [set_input_actual_value (js "10.5") (initial_result thickness)]
      blank_form in
  let out := handleSubmit alice (js "20260105") f empty_plant in
  fst out = Created (js "INS-20260105-0001")
  ∧ (insp_id <$> inspections (snd out)) = [1]
  ∧ (res_inspection_id <$> inspection_results (snd out)) = [1].
Proof.
  intros f out.
  assert (fst out = Created (js "INS-20260105-0001")) as Hout by reflexivity.
  destruct (submitted_inspection_is_recorded alice (js "20260105") f empty_plant _ Hout)
    as (row & rows & _).
  by repeat split.
Defined.

(** ** A submission that fails half way *)

Lemma js_some_false_total {A} (g : A → nat → option bool) (l : list A) (i : nat) :
  js_some g l i = Some false → ∀ k a, l !! k = Some a → g a (i + k) = Some false.
Proof.
  revert i. induction l as [|a l IH]; intros i H k a' Hk; [done|].
  simpl in H. destruct (g a i) as [[|]|] eqn:Hg; try done.
  destruct k as [|k]; simpl in Hk.
  - injection Hk as <-. by rewrite Nat.add_0_r.
  - replace (i + S k) with (S i + k) by lia. by eapply IH.
Qed.

Lemma js_map_total {A B} (g : A → nat → option B) (l : list A) (i : nat) :
  (∀ k a, l !! k = Some a → is_Some (g a (i + k))) → is_Some (js_map g l i).
Proof.
  revert i. induction l as [|a l IH]; intros i Hg; simpl; [done|].
  destruct (Hg 0 a eq_refl) as [b Hb]. rewrite Nat.add_0_r in Hb. rewrite Hb. simpl.
  destruct (IH (S i)) as [bs Hbs].
  { intros k a' Hk. replace (S i + k) with (i + S k) by lia. by apply Hg. }
  by rewrite Hbs.
Qed.

(** A form whose validation ran through has a specification for every
    row, so the rows to insert can be built. *)
Lemma resultsToInsert_total f inspection_id :
  missingValues f = Some false → is_Some (resultsToInsert f inspection_id).
Proof.
  intros Hv. apply js_map_total. intros k r Hk.
  pose proof (js_some_false_total _ _ _ Hv k r Hk) as Hs. simpl in *.
  destruct (form_specifications f !! k); [done|done].
Qed.

(** The inspection and its results are sent in two statements. When the
    second fails, here because a row of the form names a specification
    that is no longer there, the page reports a failure and the
    inspection stays, without results. *)
Theorem failed_submission_leaves_the_inspection
  (uid : uuid) (today : jsstring) (f : CreateInspection) (db : Db) (product : uuid)
  (r : InspectionResultInput) :
  has_role db uid auditor = true →
  form_profile f = Some uid →
  selectedProduct f = Some product →
  missingValues f = Some false →
  missingRemarks f = Some false →
  generate_inspection_number today db ∉ inspection_number <$> inspections db →
  r ∈ form_results f →
  inp_specification_id r ∉ spec_id <$> specifications db →
  let row :=
    {| insp_id := fresh (insp_id <$> inspections db);
       inspection_number := generate_inspection_number today db;
       insp_product_id := product;
       created_by := uid;
       status := pending_team_leader;
       batch_number := or_null (batchNumber f);
       insp_remarks := or_null (remarks f) |} in
  handleSubmit uid today f db
  = (FailedToCreate, set_inspections (inspections db ++ [row]) db).
Proof.
  intros Hrole Hprofile Hproduct Hv Hr Hfresh Hin Hgone row.
  unfold handleSubmit. rewrite Hproduct, Hprofile, Hv, Hr.
  rewrite insert_inspection_cases. cbn zeta. cbn [created_by inspection_number].
  rewrite Hrole, (bool_decide_eq_true_2 (uid = uid)) by done. cbn [andb].
  rewrite (bool_decide_eq_false_2 _ Hfresh).
  change (with_insp_id _ _) with row.
  destruct (resultsToInsert_total f (insp_id row) Hv) as [new Hnew]. rewrite Hnew.
  destruct (insert_inspection_results uid new _) as [db2|] eqn:Hres; [|done].
  exfalso.
  apply insert_inspection_results_inv in Hres as [_ Hfk].
  apply resultsToInsert_columns in Hnew as [_ Hspecs].
  assert (inp_specification_id r
          ∈ specification_id
            <$> number_from with_res_id
                  (fresh (res_id <$> inspection_results
                                       (set_inspections (inspections db ++ [row]) db))) new)
    as (row' & Hid & Hrow')%list_elem_of_fmap.
  { rewrite (number_from_fmap with_res_id specification_id) by done.
    rewrite Hspecs. by apply list_elem_of_fmap_2. }
  rewrite Forall_forall in Hfk. apply Hgone. rewrite Hid. by apply Hfk.
Qed.

(** The thickness check was deleted after alice opened the form. *)
Lemma failed_submission_leaves_the_inspection_witness :
  let f :=
    with_results [set_input_actual_value (js "10.5") (initial_result thickness)]
      blank_form in
  let db := set_specifications [] empty_plant in
  let out := handleSubmit alice (js "20260105") f db in
  fst out = FailedToCreate
  ∧ (inspection_number <$> inspections (snd out)) = [js "INS-20260105-0001"]
  ∧ inspection_results (snd out) = [].
Proof.
  intros f db out.
  pose proof (failed_submission_leaves_the_inspection alice (js "20260105") f db 1
                (set_input_actual_value (js "10.5") (initial_result thickness))) as H.
  subst out. rewrite H; [done|reflexivity..| | |].
  - apply not_elem_of_nil.
  - left.
  - apply not_elem_of_nil.
Defined.

(** * The rows of the authoring form *)

Lemma fetchSpecifications_rows product data f :
  Forall2 row_for (form_specifications (fetchSpecifications product data f))
                  (form_results (fetchSpecifications product data f)).
Proof.
  simpl. apply Forall2_fmap_r, Forall_Forall2_diag, Forall_forall.
  intros spec _. split; [done|]. intros _. by left.
Qed.

(** Replacing the row of [index] by another row for the same
    specification. *)
Lemma rows_insert f index spec r' :
  Forall2 row_for (form_specifications f) (form_results f) →
  form_specifications f !! index = Some spec →
  row_for spec r' →
  Forall2 row_for (form_specifications (with_results (<[index := r']> (form_results f)) f))
                  (form_results (with_results (<[index := r']> (form_results f)) f)).
Proof.
  intros Hrows Hspec Hr'. simpl.
  rewrite <- (list_insert_id (form_specifications f) index spec Hspec).
  by apply Forall2_insert.
Qed.

Lemma handleEvent_rows parseFloat e f f' :
  Forall2 row_for (form_specifications f) (form_results f) →
  handleEvent parseFloat e f = Some f' →
  form_specifications f' = form_specifications f
  ∧ Forall2 row_for (form_specifications f') (form_results f').
Proof.
  intros Hrows. destruct e as [index value|index value|index]; simpl.
  - destruct (form_specifications f !! index) as [spec|] eqn:Hspec; simpl; [|done].
    destruct (form_results f !! index) as [r|] eqn:Hr; simpl; [|done].
    case_bool_decide as Hty; [|done].
    unfold handleResultChange. rewrite Hr, Hspec. simpl. intros [= <-].
    split; [done|]. apply (rows_insert f index spec); [done..|].
    destruct (Forall2_lookup_lr _ _ _ _ _ _ Hrows Hspec Hr) as [Hid _].
    rewrite Hty. split; [|done].
    by repeat case_match.
  - destruct (form_specifications f !! index) as [spec|] eqn:Hspec; simpl; [|done].
    unfold handleResultChange.
    destruct (form_results f !! index) as [r|] eqn:Hr; simpl; [|done]. intros [= <-].
    split; [done|]. apply (rows_insert f index spec); [done..|].
    by destruct (Forall2_lookup_lr _ _ _ _ _ _ Hrows Hspec Hr).
  - destruct (form_specifications f !! index) as [spec|] eqn:Hspec; simpl; [|done].
    unfold togglePassFail. rewrite Hspec.
    destruct (form_results f !! index) as [r|] eqn:Hr; simpl; [|done]. intros [= <-].
    split; [done|]. apply (rows_insert f index spec); [done..|].
    destruct (Forall2_lookup_lr _ _ _ _ _ _ Hrows Hspec Hr) as [Hid _].
    destruct (specification_type spec) eqn:Hty; simpl; (split; [done|]); try done;
      intros _; right; unfold verdict; rewrite Hty; simpl; by destruct (inp_is_pass r).
Qed.

Lemma handleEvents_rows parseFloat events f f' :
  Forall2 row_for (form_specifications f) (form_results f) →
  handleEvents parseFloat events f = Some f' →
  form_specifications f' = form_specifications f
  ∧ Forall2 row_for (form_specifications f') (form_results f').
Proof.
  revert f. induction events as [|e events IH]; intros f Hrows; simpl.
  - by intros [= <-].
  - destruct (handleEvent parseFloat e f) as [f1|] eqn:He; simpl; [|done].
    destruct (handleEvent_rows parseFloat e f f1 Hrows He) as [Hspecs Hrows1].
    intros [Hspecs' Hrows']%IH; [|done]. split; [congruence|done].
Qed.

Lemma verdict_not_empty ty is_pass : verdict ty is_pass ≠ [].
Proof. unfold verdict. case_bool_decide; by destruct is_pass. Qed.

Lemma js_map_lookup {A B} (g : A → nat → option B) (l : list A) (i : nat) bs k b :
  js_map g l i = Some bs → bs !! k = Some b →
  ∃ a, l !! k = Some a ∧ g a (i + k) = Some b.
Proof.
  revert i bs k. induction l as [|a l IH]; intros i bs k Hmap Hk; simpl in Hmap.
  - by injection Hmap as <-.
  - destruct (g a i) as [b0|] eqn:Hb0; simpl in Hmap; [|done].
    destruct (js_map g l (S i)) as [bs'|] eqn:Hbs; simpl in Hmap; [|done].
    injection Hmap as <-. destruct k as [|k]; simpl in Hk.
    + injection Hk as <-. exists a. by rewrite Nat.add_0_r.
    + destruct (IH (S i) bs' k Hbs Hk) as (a' & Ha' & Hg).
      exists a'. split; [done|]. by replace (i + S k) with (S i + k) by lia.
Qed.

(** The rows sent for a validated form whose rows are rows for its
    specifications are results for these specifications. *)
Lemma resultsToInsert_recorded f inspection_id rows :
  Forall2 row_for (form_specifications f) (form_results f) →
  missingValues f = Some false →
  resultsToInsert f inspection_id = Some rows →
  Forall2 recorded_for (form_specifications f) rows.
Proof.
  intros Hrows Hv Hnew.
  apply Forall2_same_length_lookup. split.
  - rewrite (Forall2_length _ _ _ Hrows).
    apply js_map_Forall2 in Hnew. by apply Forall2_length in Hnew.
  - intros index spec row Hspec Hrow.
    destruct (js_map_lookup _ _ _ _ _ _ Hnew Hrow) as (r & Hr & Hbuilt).
    simpl in Hbuilt. rewrite Hspec in Hbuilt. simpl in Hbuilt. injection Hbuilt as <-.
    destruct (Forall2_lookup_lr _ _ _ _ _ _ Hrows Hspec Hr) as [Hid Hverdict].
    pose proof (js_some_false_total _ _ _ Hv index r Hr) as Hvalue.
    simpl in Hvalue. rewrite Hspec in Hvalue. simpl in Hvalue.
    unfold recorded_for. simpl. split; [done|].
    destruct (decide (specification_type spec = dimensional)) as [Hty|Hty].
    + rewrite (bool_decide_eq_true_2 _ Hty) in *. simpl. split; [|done].
      injection Hvalue as Hvalue. apply negb_false_iff in Hvalue.
      intros Hempty. rewrite Hempty in Hvalue. by vm_compute in Hvalue.
    + rewrite (bool_decide_eq_false_2 _ Hty). simpl.
      destruct (Hverdict Hty) as [[Hempty Hpass]|Hset].
      * rewrite Hempty. simpl. fold (verdict (specification_type spec) (inp_is_pass r)).
        split; [apply verdict_not_empty|done].
      * assert (truthy (inp_actual_value r) = true) as ->
          by (rewrite Hset; apply truthy_ne, verdict_not_empty).
        simpl. split; [rewrite Hset; apply verdict_not_empty|by intros _].
Qed.

Lemma number_from_Forall2 {A R} (with_id : uuid → R → R) (P : A → R → Prop) n
  (l : list A) (rows : list R) :
  (∀ k a r, P a r → P a (with_id k r)) →
  Forall2 P l rows → Forall2 P l (number_from with_id n rows).
Proof.
  intros HP H. revert n. induction H as [|a r l rows Har _ IH]; intros n; simpl; [done|].
  constructor; [by apply HP|apply IH].
Qed.

(** However the auditor fills in the form of a product (typing values
    and remarks, clicking the pass / fail buttons, in any order), a
    successful submission records one result for each specification of
    the product, in their order: none has an empty value, and the value
    of a check that is not a measurement is the verdict of its recorded
    flag, Pass or Fail, Yes or No for a compliance check. *)
Theorem recorded_results_match_the_specifications
  (parseFloat : jsstring → jsnumber) (uid : uuid) (today : jsstring) (product : uuid)
  (data : list Specification) (f0 f : CreateInspection) (events : list FormEvent)
  (db : Db) (n : jsstring) :
  handleEvents parseFloat events (fetchSpecifications product data f0) = Some f →
  fst (handleSubmit uid today f db) = Created n →
  ∃ rows,
    inspection_results (snd (handleSubmit uid today f db)) = inspection_results db ++ rows
    ∧ Forall2 recorded_for data rows.
Proof.
  intros Hevents.
  destruct (handleEvents_rows parseFloat events _ f
              (fetchSpecifications_rows product data f0) Hevents) as [Hspecs Hrows].
  simpl in Hspecs.
  unfold handleSubmit.
  destruct (selectedProduct f) as [product'|]; [|done].
  destruct (form_profile f) as [profile|]; [|done].
  destruct (missingValues f) as [[|]|] eqn:Hv; try done.
  destruct (missingRemarks f) as [[|]|]; try done.
  destruct (insert_inspection _ _ _) as [[inspectionData db1]|] eqn:Hins; [|done].
  assert (inspection_results db1 = inspection_results db) as Hsame.
  { rewrite insert_inspection_cases in Hins. cbn zeta in Hins.
    destruct (_ && _); [|done]. destruct (bool_decide _); [done|].
    by injection Hins as <- <-. }
  destruct (resultsToInsert f (insp_id inspectionData)) as [new|] eqn:Hnew; [|done].
  destruct (insert_inspection_results uid new db1) as [db2|] eqn:Hres; [|done].
  intros _. apply insert_inspection_results_inv in Hres as [-> _].
  eexists. cbn [snd inspection_results set_inspection_results].
  rewrite Hsame. split; [done|].
  apply number_from_Forall2; [by intros k spec r|].
  rewrite <- Hspecs. by eapply resultsToInsert_recorded.
Qed.

(** alice types the thickness, fails the camera check with a remark,
    and submits. *)
Lemma recorded_results_match_the_specifications_witness :
  let db :=
    {| auditor_resubmit_policy := false;
       user_roles := staff;
       specifications := [thickness; camera];
       inspections := [];
       inspection_results := [];
       inspection_images := [];
       approval_history := [] |} in
  let events :=
    [type_value 0 (js "10.5"); click_pass_fail 1; type_remarks 1 (js "blurred")] in
  let f :=
    with_results
      [ {| inp_specification_id := 1;
           inp_actual_value := js "10.5";
           inp_is_pass := true;
           inp_remarks := [] |};
        {| inp_specification_id := 2;
           inp_actual_value := js "Fail";
           inp_is_pass := false;
           inp_remarks := js "blurred" |} ]
      (fetchSpecifications 1 [thickness; camera] blank_form) in
  handleEvents parseFloat_exact events (fetchSpecifications 1 [thickness; camera] blank_form)
  = Some f
  ∧ fst (handleSubmit alice (js "20260105") f db) = Created (js "INS-20260105-0001")
  ∧ ((λ r, (actual_value r, is_pass r))
       <$> inspection_results (snd (handleSubmit alice (js "20260105") f db)))
    = [(js "10.5", true); (js "Fail", false)].
Proof.
  intros db events f.
  assert (handleEvents parseFloat_exact events
            (fetchSpecifications 1 [thickness; camera] blank_form) = Some f) as Hf
    by (vm_compute; reflexivity).
  assert (fst (handleSubmit alice (js "20260105") f db) = Created (js "INS-20260105-0001"))
    as Hout by reflexivity.
  destruct (recorded_results_match_the_specifications parseFloat_exact alice
              (js "20260105") 1 [thickness; camera] blank_form f events db _ Hf Hout)
    as (rows & Hrows & _).
  split; [exact Hf|]. split; [exact Hout|]. reflexivity.
Defined.

(** * Products *)

Lemma products_using db uid p :
  rls_using (Products.products_policies db uid) p = has_role db uid quality_head.
Proof. unfold rls_using. simpl. by rewrite orb_false_r. Qed.

Lemma products_check db uid p :
  rls_check (Products.products_policies db uid) p = has_role db uid quality_head.
Proof. unfold rls_check. simpl. by rewrite orb_false_r. Qed.

Lemma insert_product_cases db uid new products :
  Products.insert_product db uid new products
  = if has_role db uid quality_head
    then if bool_decide (Products.prod_part_number new
                         ∈ Products.prod_part_number <$> products)
         then Err unique_violation
         else Ok (products
                  ++ [Products.with_prod_id (fresh (Products.prod_id <$> products)) new])
    else Err rls_violation.
Proof.
  unfold Products.insert_product, sql_insert. cbn [forallb].
  rewrite products_check, andb_true_r.
  by destruct (has_role db uid quality_head).
Qed.

Lemma update_products_cases db uid wh set products :
  Products.update_products db uid wh set products
  = if has_role db uid quality_head
    then let rows := (λ p, if wh p then set p else p) <$> products in
         if bool_decide (NoDup (Products.prod_part_number <$> rows))
         then Ok rows else Err unique_violation
    else if bool_decide (NoDup (Products.prod_part_number <$> products))
         then Ok products else Err unique_violation.
Proof.
  unfold Products.update_products.
  destruct (has_role db uid quality_head) eqn:Hqh.
  - rewrite sql_update_spec.
    + cbn [mbind result_bind].
      assert (((λ r, if wh r && rls_using (Products.products_policies db uid) r
                     then set r else r) <$> products)
              = ((λ p, if wh p then set p else p) <$> products)) as ->; [|done].
      apply Forall_fmap_ext_1, Forall_forall. intros p _.
      by rewrite products_using, Hqh, andb_true_r.
    + intros p _ _. by rewrite products_check.
  - rewrite sql_update_untouched; [done|].
    intros p _. by rewrite products_using, Hqh, andb_false_r.
Qed.

(** One action keeps every row in its place with its id, and keeps an
    inactive row inactive. *)
Lemma act_keeps_inactive db uid a products k p :
  products !! k = Some p →
  ∃ p', Products.act db uid a products !! k = Some p'
        ∧ Products.prod_id p' = Products.prod_id p
        ∧ (Products.prod_is_active p = false → Products.prod_is_active p' = false).
Proof.
  intros Hk. destruct a as [st|confirmed product]; simpl.
  - unfold Products.handleSubmit.
    destruct (_ || _); [by exists p|].
    destruct (Products.editingProduct st) as [editing|].
    + rewrite update_products_cases.
      destruct (has_role db uid quality_head); cbn zeta.
      * destruct (bool_decide (NoDup (Products.prod_part_number <$> _))); simpl; [|by exists p].
        rewrite list_lookup_fmap, Hk. simpl.
        destruct (bool_decide _); by eexists.
      * destruct (bool_decide (NoDup (Products.prod_part_number <$> _))); simpl; by exists p.
    + rewrite insert_product_cases.
      destruct (has_role db uid quality_head); simpl; [|by exists p].
      destruct (bool_decide (_ ∈ _)); simpl; [by exists p|].
      exists p. split; [by apply lookup_app_l_Some|done].
  - unfold Products.handleDeactivate.
    destruct confirmed; simpl; [|by exists p].
    rewrite update_products_cases.
    destruct (has_role db uid quality_head); cbn zeta.
    + destruct (bool_decide (NoDup (Products.prod_part_number <$> _))); simpl; [|by exists p].
      rewrite list_lookup_fmap, Hk. simpl.
      destruct (bool_decide _); by eexists.
    + destruct (bool_decide (NoDup (Products.prod_part_number <$> _))); simpl; by exists p.
Qed.

(** Deactivation is one way: whatever is done on the page afterwards, by
    whomever, a product that is inactive stays in the table, inactive,
    and so never comes back to the lists of active products. *)
Theorem deactivation_is_one_way
  (history : list (Db * uuid * Products.PageAction)) (products : list Products.Product)
  (k : nat) (p : Products.Product) :
  products !! k = Some p →
  Products.prod_is_active p = false →
  ∃ p', Products.acts history products !! k = Some p'
        ∧ Products.prod_id p' = Products.prod_id p
        ∧ Products.prod_is_active p' = false
        ∧ p' ∉ Products.active (Products.acts history products).
Proof.
  revert products p. induction history as [|[[db uid] a] history IH];
    intros products p Hk Hp; simpl.
  - exists p. do 3 (split; [done|]).
    intros [Hact _]%list_elem_of_filter. congruence.
  - destruct (act_keeps_inactive db uid a products k p Hk) as (p1 & Hk1 & Hid1 & Hp1).
    destruct (IH _ p1 Hk1 (Hp1 Hp)) as (p' & Hk' & Hid' & Hp' & Hout).
    exists p'. split; [done|]. split; [congruence|done].
Qed.

(** The brake pad was deactivated; quinn then tries to add it again and
    to rename it. *)
Lemma deactivation_is_one_way_witness :
  let db := plant approved in
  let parked := snd (Products.handleDeactivate db quinn true brake_pad [brake_pad]) in
  let history :=
    [(db, quinn, Products.submit brake_pad_again);
     (db, quinn,
      Products.submit
        {| Products.form_name := js "Brake Pad";
           Products.form_part_number := js "BPA-2024-001";
           Products.form_description := [];
           Products.editingProduct := Some brake_pad;
           Products.auth_profile := Some quinn |})] in
  ∃ p p',
    parked !! 0 = Some p
    ∧ Products.prod_is_active p = false
    ∧ Products.acts history parked !! 0 = Some p'
    ∧ Products.prod_name p' = js "Brake Pad"
    ∧ Products.prod_is_active p' = false.
Proof.
  intros db parked history.
  destruct (parked !! 0) as [p|] eqn:Hp; [|by vm_compute in Hp].
  assert (Products.prod_is_active p = false) as Hinactive.
  { vm_compute in Hp. by injection Hp as <-. }
  destruct (deactivation_is_one_way history parked 0 p Hp Hinactive)
    as (p' & Hp' & _ & Hinactive' & _).
  exists p, p'. do 3 (split; [done|]). split; [|done].
  vm_compute in Hp'. by injection Hp' as <-.
Defined.

(** Deactivating a product. A quality head's request marks the rows of that id
    inactive, which takes them off the lists of active products and
    touches nothing else; anybody else's matches no row under the policy
    and is reported as done all the same. *)
Theorem deactivated_product_leaves_the_lists
  (db : Db) (uid : uuid) (product : Products.Product) (products : list Products.Product) :
  NoDup (Products.prod_part_number <$> products) →
  let out := Products.handleDeactivate db uid true product products in
  fst out = Products.ProductDeactivated
  ∧ (has_role db uid quality_head = false → snd out = products)
  ∧ (has_role db uid quality_head = true →
     length (snd out) = length products
     ∧ Products.active (snd out)
       = filter (λ p, Products.prod_id p ≠ Products.prod_id product)
                (Products.active products)).
Proof.
  intros Hnd. cbv zeta. unfold Products.handleDeactivate. cbn [negb].
  rewrite update_products_cases. cbv beta zeta.
  set (rows := (λ p, if bool_decide (Products.prod_id p = Products.prod_id product)
                     then {| Products.prod_id := Products.prod_id p;
                             Products.prod_name := Products.prod_name p;
                             Products.prod_part_number := Products.prod_part_number p;
                             Products.prod_description := Products.prod_description p;
                             Products.prod_created_by := Products.prod_created_by p;
                             Products.prod_is_active := false |}
                     else p) <$> products).
  assert (Products.prod_part_number <$> rows = Products.prod_part_number <$> products)
    as Hnumbers.
  { subst rows. rewrite <- list_fmap_compose.
    apply Forall_fmap_ext_1, Forall_forall. intros p _. simpl. by case_bool_decide. }
  rewrite Hnumbers, (bool_decide_eq_true_2 _ Hnd).
  destruct (has_role db uid quality_head); simpl.
  - split; [done|]. split; [done|]. intros _. subst rows.
    split; [by rewrite length_fmap|].
    unfold Products.active. clear Hnumbers Hnd.
    induction products as [|p products IH]; [done|].
    rewrite fmap_cons, !filter_cons. simpl.
    case_bool_decide as Hid; simpl.
    + rewrite IH. destruct (decide (Products.prod_is_active p = true)); [|done].
      rewrite filter_cons, decide_False; [done|]. by intros [].
    + rewrite IH. destruct (decide (Products.prod_is_active p = true)); [|done].
      by rewrite filter_cons, decide_True.
  - by repeat split.
Qed.

Lemma deactivated_product_leaves_the_lists_witness :
  NoDup (Products.prod_part_number <$> [brake_pad])
  ∧ Products.handleDeactivate (plant approved) tom true brake_pad [brake_pad]
    = (Products.ProductDeactivated, [brake_pad])
  ∧ Products.active
      (snd (Products.handleDeactivate (plant approved) quinn true brake_pad [brake_pad]))
    = [].
Proof.
  assert (NoDup (Products.prod_part_number <$> [brake_pad])) as Hnd
    by apply NoDup_singleton.
  destruct (deactivated_product_leaves_the_lists (plant approved) tom brake_pad
              [brake_pad] Hnd) as (Htoast & Hsame & _).
  split; [done|]. split; [|reflexivity].
  rewrite (surjective_pairing (Products.handleDeactivate _ _ _ _ _)).
  by rewrite Htoast, Hsame.
Defined.

(** A part number is taken for good: a quality head's attempt to add a
    product whose part number, once trimmed, some row of the table
    carries, active or not, is refused as "already exists": the part
    number of a deactivated product cannot be entered again from the
    page. *)
Theorem part_number_cannot_be_added_twice
  (db : Db) (uid : uuid) (st : Products.State) (products : list Products.Product)
  (p : Products.Product) :
  has_role db uid quality_head = true →
  p ∈ products →
  Products.editingProduct st = None →
  trim (Products.form_name st) ≠ [] →
  trim (Products.form_part_number st) ≠ [] →
  trim (Products.form_part_number st) = Products.prod_part_number p →
  Products.handleSubmit db uid st products = (Products.PartNumberExists, products).
Proof.
  intros Hqh Hin Hadd Hname%truthy_ne Hpart%truthy_ne Hsame.
  unfold Products.handleSubmit. rewrite Hname, Hpart, Hadd. simpl.
  rewrite insert_product_cases, Hqh. simpl.
  rewrite bool_decide_eq_true_2; [done|].
  rewrite Hsame. by apply list_elem_of_fmap_2.
Qed.

Lemma part_number_cannot_be_added_twice_witness :
  let parked :=
    snd (Products.handleDeactivate (plant approved) quinn true brake_pad [brake_pad]) in
  Products.active parked = []
  ∧ Products.handleSubmit (plant approved) quinn brake_pad_again parked
    = (Products.PartNumberExists, parked).
Proof.
  intros parked. split; [reflexivity|].
  destruct parked as [|p [|? ?]] eqn:Hp; try done.
  assert (Products.prod_part_number p = js "BPA-2024-001") as Hnumber.
  { assert (Products.prod_part_number <$> parked = [js "BPA-2024-001"]) as H
      by reflexivity.
    rewrite Hp in H. by injection H. }
  apply (part_number_cannot_be_added_twice (plant approved) quinn brake_pad_again [p] p);
    try done.
  left.
Defined.

(** * Accounts and roles through the pages *)





(** [handleRoleChange] chooses between UPDATE and INSERT by the list the
    page holds, not by the table. For a quality head who sets a role:
    when list and table agree on whether the user has a role, the role is
    set; when the list shows a role the table no longer has, the UPDATE
    matches no row and the page reports "Role Updated" with nothing
    written; when the list shows none and the table has one, the INSERT
    hits UNIQUE (user_id) and the page reports a failure. *)
Theorem role_change_goes_by_the_list
  (db : Db) (uid : uuid) (users : list UserWithRole) (target : uuid) (r : AppRole) :
  has_role db uid quality_head = true →
  handleRoleChange uid users target (Some r) db
  = match listed_role users target, user_roles db !! target with
    | Some _, Some _ | None, None => (RoleUpdated, set_user_roles (insert target r) db)
    | Some _, None => (RoleUpdated, db)
    | None, Some _ => (FailedToUpdateRole, db)
    end.
Proof.
  intros Hqh. unfold handleRoleChange, listed_role.
  destruct (_ ≫= _) as [shown|].
  - unfold update_user_role.
    destruct (user_roles db !! target) as [old|]; [|done].
    unfold rls_using, rls_check. simpl. by rewrite Hqh.
  - unfold insert_user_role.
    unfold rls_check. simpl. rewrite Hqh. simpl.
    destruct (user_roles db !! target) as [old|] eqn:Hold.
    + by rewrite bool_decide_eq_true_2.
    + rewrite bool_decide_eq_false_2; [done|]. by intros [? ?].
Qed.

(** quinn's list still shows the role that nora has lost, and no role
    for tom. *)
Lemma role_change_goes_by_the_list_witness :
  let db := plant approved in
  let users := [ {| user_id := nora; user_role := Some auditor |};
                 {| user_id := tom; user_role := None |} ] in
  has_role db quinn quality_head = true
  ∧ handleRoleChange quinn users nora (Some team_leader) db = (RoleUpdated, db)
  ∧ handleRoleChange quinn users tom (Some hof_auditor) db = (FailedToUpdateRole, db).
Proof.
  intros db users.
  assert (has_role db quinn quality_head = true) as Hqh by reflexivity.
  split; [done|]. split.
  - by rewrite (role_change_goes_by_the_list db quinn users nora team_leader Hqh).
  - by rewrite (role_change_goes_by_the_list db quinn users tom hof_auditor Hqh).
Defined.
